(** * Busyness monitor (src/sensor/main.py): model and properties

    A shallow embedding of the camera busyness monitor: the scoring
    function [BusynessEvaluator.calculate_busyness_score], the upload client
    [CloudflareUploader.upload_busyness_data] and the control flow of
    [BusynessMonitor] and [main].

    Conventions.
    - Python and NumPy floats are values of [pyfloat]: a finite float is the
      rational it denotes, next to the two infinities and NaN.  Arithmetic on
      finite values is exact; the rounding of binary64 is not modelled.
    - OpenCV, NumPy, the camera, the HTTP endpoint, the clock and [time.sleep]
      are the environment.  The image operations are the fields of the class
      [Vision]; the outcomes of the blocking calls of one cycle are a record
      [CycleEnv].
    - [except Exception] catches the errors of class [Exception] only; a
      [KeyboardInterrupt] passes through it.  The interrupt is delivered at
      the blocking calls: the read of a frame, the HTTP request and the
      sleep.
    - The continuous loop need not end: it is run on a number of turns
      ([fuel]), and a computation cut off by its fuel has no result. *)

From Stdlib Require Import ZArith QArith Qround Lqa Lia List Ascii PrimFloat.
From Stdlib Require SpecFloat FloatOps.
From stdpp Require Import gmap strings.
Import ListNotations.

Local Open Scope string_scope.
Local Open Scope Z_scope.

(** ** Exceptions and results *)

(** The two classes of exception the program distinguishes: subclasses of
    [Exception], with the text [str(e)], and [KeyboardInterrupt]. *)
Inductive exn : Type :=
| Exception (msg : string)
| KeyboardInterrupt.

(** Result of a library call that can only fail with an [Exception]. *)
Inductive outcome (A : Type) : Type :=
| Ret (a : A)
| Err (msg : string).
Arguments Ret {A} a.
Arguments Err {A} msg.

(** Result of a call that can also be interrupted. *)
Inductive result (A : Type) : Type :=
| Ok (a : A)
| Raise (e : exn).
Arguments Ok {A} a.
Arguments Raise {A} e.

Definition obind {A B : Type} (o : outcome A) (k : A -> outcome B) : outcome B :=
  match o with
  | Ret a => k a
  | Err msg => Err msg
  end.

Declare Scope outcome_scope.
Delimit Scope outcome_scope with outcome.
Notation "x <- c1 ;; c2" := (obind c1 (fun x => c2))
  (at level 100, c1 at next level, right associativity) : outcome_scope.

Definition lift {A : Type} (o : outcome A) : result A :=
  match o with
  | Ret a => Ok a
  | Err msg => Raise (Exception msg)
  end.

(** ** Floats *)

(** The signals and their weighted sum are computed on exact rationals, with
    the infinities and NaN: the rounding of each operation to binary64 is
    left out of [fadd] and [fmul].  The conversion of the combined value to
    the score, where the rounding decides the integer, is also modelled on
    binary64 numbers, in [Binary64] below. *)

Inductive pyfloat : Type :=
| Fin (q : Q)
| PInf
| NInf
| NaN.

Definition Qsgn (q : Q) : Z := Z.sgn (Qnum q).

(** An infinity with the sign [s]; NaN when [s] is zero. *)
Definition inf_of_sign (s : Z) : pyfloat :=
  match s with
  | Z0 => NaN
  | Zpos _ => PInf
  | Zneg _ => NInf
  end.

Definition fsign (x : pyfloat) : Z :=
  match x with
  | Fin q => Qsgn q
  | PInf => 1
  | NInf => -1
  | NaN => 0
  end.

Definition fadd (x y : pyfloat) : pyfloat :=
  match x, y with
  | NaN, _ | _, NaN => NaN
  | Fin a, Fin b => Fin (a + b)
  | PInf, NInf | NInf, PInf => NaN
  | PInf, _ | _, PInf => PInf
  | NInf, _ | _, NInf => NInf
  end.

Definition fmul (x y : pyfloat) : pyfloat :=
  match x, y with
  | NaN, _ | _, NaN => NaN
  | Fin a, Fin b => Fin (a * b)
  | _, _ => inf_of_sign (fsign x * fsign y)
  end.

(** [x / k] for a positive integer constant [k]. *)
Definition fdiv_const (x : pyfloat) (k : positive) : pyfloat :=
  match x with
  | Fin q => Fin (q / inject_Z (Zpos k))
  | other => other
  end.

(** [x < y]; every comparison with NaN is false. *)
Definition flt (x y : pyfloat) : bool :=
  match x, y with
  | NaN, _ | _, NaN => false
  | Fin a, Fin b => negb (Qle_bool b a)
  | NInf, NInf | PInf, _ | _, NInf => false
  | NInf, _ | _, PInf => true
  end.

(** Python's [min(a, b)]: the first argument unless the second is smaller. *)
Definition py_min (a b : pyfloat) : pyfloat := if flt b a then b else a.

(** Python's [int(i) / int(j)] for a non-zero literal [j]. *)
Definition int_div_const (n : Z) (k : positive) : pyfloat :=
  Fin (inject_Z n / inject_Z (Zpos k)).

(** NumPy's true division of an integer count by an integer: a zero divisor
    gives an infinity or NaN (with a warning), not an exception. *)
Definition np_true_divide (n d : Z) : pyfloat :=
  if d =? 0 then inf_of_sign (Z.sgn n)
  else Fin (inject_Z n / inject_Z d).

(** Truncation of a rational towards zero. *)
Definition Qtrunc (q : Q) : Z := Z.quot (Qnum q) (Zpos (Qden q)).

(** Python's [int(x)] on a float: truncation towards zero; [OverflowError] on
    an infinity and [ValueError] on NaN. *)
Definition py_int (x : pyfloat) : outcome Z :=
  match x with
  | Fin q => Ret (Qtrunc q)
  | PInf | NInf => Err "cannot convert float infinity to integer"
  | NaN => Err "cannot convert float NaN to integer"
  end.

(** ** Values and dictionaries *)

#[local] Set Warnings "-register-all".
Inductive pyval : Type :=
| VNone
| VBool (b : bool)
| VInt (z : Z)
| VFloat (x : pyfloat)
| VStr (s : string)
| VList (items : list pyval).

Abbreviation dict := (gmap string pyval).

(** [d.get(key, default)] *)
Definition dict_get (d : dict) (key : string) (dflt : pyval) : pyval :=
  default dflt (d !! key).

(** Truth value of a Python object. *)
Definition truthy (v : pyval) : bool :=
  match v with
  | VNone => false
  | VBool b => b
  | VInt z => negb (z =? 0)
  | VFloat (Fin q) => negb (Qeq_bool q 0)
  | VFloat _ => true
  | VStr s => negb (String.eqb s "")
  | VList items => match items with [] => false | _ :: _ => true end
  end.

(** ** Observable effects *)

(** The body of the POST request sent to the D1 endpoint, with the headers
    and the timeout it is sent with. *)
Record request : Type := mk_request {
  url : string;
  authorization : string;
  content_type : string;
  sql : string;
  params : list pyval;
  timeout : Z
}.

Inductive level : Type := INFO | ERROR.

(** What the program does to the outside world, in order.  A [Log] carries the
    text of the message as the source writes it and the values of its
    placeholders. *)
Inductive event : Type :=
| Log (lvl : level) (template : string) (args : list pyval)
| CapOpen (index : Z)
| CapSet (prop : string) (value : Z)
| CapRead
| CapRelease
| Post (req : request)
| Sleep (secs : Z).

(** ** Images and the vision library *)

(** An array: its [shape] tuple and its elements in row-major order. *)
Record ndarray : Type := mk_ndarray {
  shape : list Z;
  pixels : list Z
}.

(** [t[i]] on a tuple: [IndexError] past the end. *)
Definition tuple_get (t : list Z) (i : nat) : outcome Z :=
  match nth_error t i with
  | Some v => Ret v
  | None => Err "tuple index out of range"
  end.

(** The operations of OpenCV and NumPy that the evaluator calls.  Each may
    fail with an exception of class [Exception] (cv2.error and the like).
    [bg_apply] is [BackgroundSubtractorMOG2.apply]: it returns the foreground
    mask and the updated background model. *)
Class Vision : Type := {
  contour : Type;
  bg_model : Type;
  createBackgroundSubtractorMOG2 : bg_model;
  cvtColor_BGR2GRAY : ndarray -> outcome ndarray;
  bg_apply : bg_model -> ndarray -> outcome ndarray * bg_model;
  np_sum_gt0 : ndarray -> outcome Z;
  Canny : ndarray -> Z -> Z -> outcome ndarray;
  np_var : ndarray -> outcome pyfloat;
  Laplacian_var : ndarray -> outcome pyfloat;
  findContours : ndarray -> outcome (list contour);
  contourArea : contour -> outcome pyfloat
}.

(** ** BusynessEvaluator *)

Module BusynessEvaluator.
Section Evaluator.
Context `{V : Vision}.

(** The [weights] dictionary of [calculate_busyness_score]. *)
Definition weights : list (string * Q) :=
  [ ("motion", 3 # 10);
    ("edges", 2 # 10);
    ("variance", 2 # 10);
    ("texture", 15 # 100);
    ("contours", 15 # 100) ].

(** [weights[key]]; every key used below is present. *)
Definition weight (key : string) : pyfloat :=
  match List.find (fun kv => String.eqb (fst kv) key) weights with
  | Some kv => Fin (snd kv)
  | None => NaN
  end.

(** [combined_score] from the five normalised signals. *)
Definition combined_score
    (motion_ratio edge_ratio normalized_variance normalized_laplacian
     normalized_contours : pyfloat) : pyfloat :=
  fadd (fadd (fadd (fadd
    (fmul (weight "motion") motion_ratio)
    (fmul (weight "edges") edge_ratio))
    (fmul (weight "variance") normalized_variance))
    (fmul (weight "texture") normalized_laplacian))
    (fmul (weight "contours") normalized_contours).

(** [max(1, min(10, int(combined_score * 9 + 1)))] *)
Definition busyness_score (combined : pyfloat) : outcome Z :=
  (n <- py_int (fadd (fmul combined (Fin 9)) (Fin 1)) ;;
   Ret (Z.max 1 (Z.min 10 n)))%outcome.

(** [len([c for c in contours if cv2.contourArea(c) > 100])] *)
Fixpoint count_large_contours (contours : list contour) : outcome Z :=
  match contours with
  | [] => Ret 0
  | c :: rest =>
      (area <- contourArea c ;;
       n <- count_large_contours rest ;;
       Ret (if flt (Fin 100) area then 1 + n else n))%outcome
  end.

(** The metadata dictionary of a scored frame. *)
Definition metadata_of
    (motion_ratio edge_ratio color_variance laplacian_var : pyfloat)
    (contour_count : Z) (combined : pyfloat) : dict :=
  list_to_map
    [ ("motion_ratio", VFloat motion_ratio);
      ("edge_ratio", VFloat edge_ratio);
      ("color_variance", VFloat color_variance);
      ("texture_variance", VFloat laplacian_var);
      ("contour_count", VInt contour_count);
      ("combined_raw", VFloat combined) ].

(** What follows [bg_subtractor.apply] in the [try] block, given the
    grayscale image and the foreground mask. *)
Definition score_from (image gray motion_mask : ndarray) : outcome (Z * dict) :=
  (motion_pixels <- np_sum_gt0 motion_mask ;;
   h <- tuple_get (shape image) 0 ;;
   w <- tuple_get (shape image) 1 ;;
   let motion_ratio := np_true_divide motion_pixels (h * w) in
   edges <- Canny gray 50 150 ;;
   edge_pixels <- np_sum_gt0 edges ;;
   let edge_ratio := np_true_divide edge_pixels (h * w) in
   color_variance <- np_var image ;;
   let normalized_variance := py_min (fdiv_const color_variance 10000) (Fin 1) in
   laplacian_var <- Laplacian_var gray ;;
   let normalized_laplacian := py_min (fdiv_const laplacian_var 1000) (Fin 1) in
   contours <- findContours edges ;;
   contour_count <- count_large_contours contours ;;
   let normalized_contours := py_min (int_div_const contour_count 20) (Fin 1) in
   let combined :=
     combined_score motion_ratio edge_ratio normalized_variance
       normalized_laplacian normalized_contours in
   score <- busyness_score combined ;;
   Ret (score,
        metadata_of motion_ratio edge_ratio color_variance laplacian_var
          contour_count combined))%outcome.

(** The body of the [try] block.  The background model is the evaluator's
    state: it is updated by [apply] and stays updated when a later step
    raises. *)
Definition try_score (bg : bg_model) (image : ndarray)
  : outcome (Z * dict) * bg_model :=
  match cvtColor_BGR2GRAY image with
  | Err msg => (Err msg, bg)
  | Ret gray =>
      let '(mask, bg') := bg_apply bg image in
      ((motion_mask <- mask ;; score_from image gray motion_mask)%outcome, bg')
  end.

(** The fallback of the [except Exception] clause. *)
Definition fallback_score : Z := 5.

Definition error_metadata (msg : string) : dict := {[ "error" := VStr msg ]}.

(** [calculate_busyness_score]: the [try] block, and the fallback on any
    exception raised inside it.  Returns the pair [(score, metadata)], the
    background model after the call and what was logged. *)
Definition calculate_busyness_score (bg : bg_model) (image : ndarray)
  : (Z * dict) * bg_model * list event :=
  match try_score bg image with
  | (Ret r, bg') => (r, bg', [])
  | (Err msg, bg') =>
      ((fallback_score, error_metadata msg), bg',
       [Log ERROR "Error calculating busyness score: {e}" [VStr msg]])
  end.

End Evaluator.
End BusynessEvaluator.

(** ** The score on binary64 numbers *)

(** Line 94 as Python computes it: [combined_score] is a binary64 number,
    the product with 9 and the sum with 1 are each rounded to binary64 (to
    nearest, ties to even), and [int] drops the fraction of the result. *)
Module Binary64.

(** The exact value of a binary64 number, [m * 2^e] with its sign; none for
    the infinities and NaN. *)
Definition value (x : float) : option Q :=
  match FloatOps.Prim2SF x with
  | SpecFloat.S754_zero _ => Some 0%Q
  | SpecFloat.S754_finite s m e =>
      let a := if 0 <=? e then inject_Z (Zpos m * 2 ^ e)
               else (Zpos m # 2 ^ Z.to_pos (- e))%Q in
      Some (if s then (- a)%Q else a)
  | SpecFloat.S754_infinity _ | SpecFloat.S754_nan => None
  end.

(** Python's [int(x)] on a float: the mantissa shifted by the exponent, with
    the sign; [OverflowError] on an infinity and [ValueError] on NaN. *)
Definition py_int (x : float) : outcome Z :=
  match FloatOps.Prim2SF x with
  | SpecFloat.S754_nan => Err "cannot convert float NaN to integer"
  | SpecFloat.S754_infinity _ => Err "cannot convert float infinity to integer"
  | SpecFloat.S754_zero _ => Ret 0
  | SpecFloat.S754_finite s m e =>
      let a := Z.shiftl (Zpos m) e in
      Ret (if s then - a else a)
  end.

(** [max(1, min(10, int(combined_score * 9 + 1)))] *)
Definition busyness_score (combined_score : float) : outcome Z :=
  (n <- py_int (combined_score * 9 + 1)%float ;;
   Ret (Z.max 1 (Z.min 10 n)))%outcome.

End Binary64.

(** ** The environment of the monitor *)

(** [json.dumps] on a dictionary of the values above: it cannot fail on
    them. *)
Class Json : Type := {
  json_dumps : dict -> string
}.

(** An HTTP response: [status_code], [text] and the result of [json()],
    which fails when the body is not a JSON object. *)
Record response : Type := mk_response {
  status_code : Z;
  text : string;
  json : outcome dict
}.

(** What the outside world answers during one cycle of the loop:
    [cap.read()], [datetime.now().isoformat()], [requests.post] and the
    [time.sleep] that follows the cycle. *)
Record CycleEnv : Type := mk_cycle {
  read_out : result (bool * option ndarray);
  now : string;
  post_out : request -> result response;
  sleep_out : result unit
}.

(** The answer to [cv2.VideoCapture(index)] (whether the device is open, or
    an exception), and the answers of each cycle. *)
Record Env : Type := mk_env {
  open_out : result bool;
  cycle : nat -> CycleEnv
}.

(** The command line of [main]. *)
Record Args : Type := mk_args {
  api_token : string;
  account_id : string;
  database_id : string;
  camera : Z;
  camera_name : string;
  interval : Z;
  notes : string;
  once : bool
}.

(** ** The state of a monitor and its computations *)

Section Monitor.
Context `{V : Vision} `{J : Json}.

(** The mutable part of a [BusynessMonitor]: [camera.cap] ([None], or a
    capture object that is open or not), the evaluator's background model,
    the [running] flag, and the effects so far. *)
Record World : Type := mk_world {
  cap : option bool;
  bg : bg_model;
  running : bool;
  trace : list event
}.

(** A computation returns a value or raises, and changes the world.  The
    answer [None] is only given by the loop when it is cut off by its fuel. *)
Definition M (A : Type) : Type := World -> option (result A) * World.

Definition ret {A : Type} (a : A) : M A := fun w => (Some (Ok a), w).

Definition raise {A : Type} (e : exn) : M A := fun w => (Some (Raise e), w).

Definition bind {A B : Type} (c : M A) (k : A -> M B) : M B :=
  fun w =>
    match c w with
    | (Some (Ok a), w') => k a w'
    | (Some (Raise e), w') => (Some (Raise e), w')
    | (None, w') => (None, w')
    end.

(** The answer of the outside world to a call. *)
Definition call {A : Type} (r : result A) : M A := fun w => (Some r, w).

Definition emit (e : event) : M unit :=
  fun w => (Some (Ok tt),
            {| cap := cap w; bg := bg w; running := running w;
               trace := trace w ++ [e] |}).

Definition log (lvl : level) (template : string) (args : list pyval) : M unit :=
  emit (Log lvl template args).

Definition set_cap (c : option bool) : M unit :=
  fun w => (Some (Ok tt),
            {| cap := c; bg := bg w; running := running w; trace := trace w |}).

Definition set_running (b : bool) : M unit :=
  fun w => (Some (Ok tt),
            {| cap := cap w; bg := bg w; running := b; trace := trace w |}).

Definition get_cap : M (option bool) := fun w => (Some (Ok (cap w)), w).

(** [try: body  except Exception as e: handler] *)
Definition try_except {A : Type} (body : M A) (handler : string -> M A) : M A :=
  fun w =>
    match body w with
    | (Some (Raise (Exception msg)), w') => handler msg w'
    | other => other
    end.

(** [try: body  except KeyboardInterrupt: ...  except Exception as e: ...] *)
Definition try_catch {A : Type} (body : M A) (handler : exn -> M A) : M A :=
  fun w =>
    match body w with
    | (Some (Raise e), w') => handler e w'
    | other => other
    end.

(** [try: body  finally: final]: [final] runs on every exit of [body]; an
    exception of [final] replaces the result of [body]. *)
Definition try_finally {A : Type} (body : M A) (final : M unit) : M A :=
  fun w =>
    match body w with
    | (Some r, w') =>
        match final w' with
        | (Some (Ok _), w'') => (Some r, w'')
        | (Some (Raise e), w'') => (Some (Raise e), w'')
        | (None, w'') => (None, w'')
        end
    | (None, w') => (None, w')
    end.

Declare Scope monitor_scope.
Delimit Scope monitor_scope with M.
Notation "x <- c1 ;; c2" := (bind c1 (fun x => c2))
  (at level 100, c1 at next level, right associativity) : monitor_scope.
Notation "c1 ;;; c2" := (bind c1 (fun _ => c2))
  (at level 100, right associativity) : monitor_scope.
Local Open Scope monitor_scope.

(** *** CameraCapture *)

Definition initialize_camera (index : Z) (e : Env) : M bool :=
  try_except
    (emit (CapOpen index) ;;;
     opened <- call (open_out e) ;;
     set_cap (Some opened) ;;;
     if negb opened then
       log ERROR "Could not open camera {self.camera_index}" [VInt index] ;;;
       ret false
     else
       emit (CapSet "CAP_PROP_FRAME_WIDTH" 1280) ;;;
       emit (CapSet "CAP_PROP_FRAME_HEIGHT" 720) ;;;
       emit (CapSet "CAP_PROP_FPS" 30) ;;;
       log INFO "Camera {self.camera_index} initialized successfully" [VInt index] ;;;
       ret true)
    (fun msg =>
       log ERROR "Error initializing camera: {e}" [VStr msg] ;;;
       ret false).

Definition capture_image (ce : CycleEnv) : M (option ndarray) :=
  try_except
    (c <- get_cap ;;
     match c with
     | None | Some false =>
         log ERROR "Camera not initialized" [] ;;;
         ret None
     | Some true =>
         emit CapRead ;;;
         r <- call (read_out ce) ;;
         let '(ok, frame) := r in
         if negb ok then
           log ERROR "Failed to capture image" [] ;;;
           ret None
         else ret frame
     end)
    (fun msg =>
       log ERROR "Error capturing image: {e}" [VStr msg] ;;;
       ret None).

(** [release_camera]: the capture object stays in [self.cap] after the
    release, so a second call releases it again. *)
Definition release_camera : M unit :=
  c <- get_cap ;;
  match c with
  | Some _ =>
      emit CapRelease ;;;
      set_cap (Some false) ;;;
      log INFO "Camera released" []
  | None => ret tt
  end.


(** *** CloudflareUploader *)

(** The INSERT statement of [upload_busyness_data]. *)
Definition sql_query : string :=
"
            INSERT INTO busyness_data (timestamp, score, motion_ratio, edge_ratio, 
                                     color_variance, texture_variance, contour_count, 
                                     combined_raw, metadata, notes, camera_name)
            VALUES (?, ?, ?, ?, ?, ?, ?, ?, ?, ?, ?)
            ".

(** The [params] list of [upload_busyness_data]. *)
Definition upload_params (score : Z) (metadata : dict)
    (timestamp notes camera_name : string) : list pyval :=
  [ VStr timestamp;
    VInt score;
    dict_get metadata "motion_ratio" (VInt 0);
    dict_get metadata "edge_ratio" (VInt 0);
    dict_get metadata "color_variance" (VInt 0);
    dict_get metadata "texture_variance" (VInt 0);
    dict_get metadata "contour_count" (VInt 0);
    dict_get metadata "combined_raw" (VInt 0);
    VStr (json_dumps metadata);
    VStr notes;
    VStr camera_name ].

Definition base_url (a : Args) : string :=
  "https://api.cloudflare.com/client/v4/accounts/" +:+ account_id a
  +:+ "/d1/database/" +:+ database_id a.

(** The request that [upload_busyness_data] posts. *)
Definition upload_request (a : Args) (score : Z) (metadata : dict)
    (timestamp notes camera_name : string) : request :=
  {| url := base_url a +:+ "/query";
     authorization := "Bearer " +:+ api_token a;
     content_type := "application/json";
     sql := sql_query;
     params := upload_params score metadata timestamp notes camera_name;
     timeout := 30 |}.

Definition upload_busyness_data (a : Args) (ce : CycleEnv) (score : Z)
    (metadata : dict) (timestamp notes camera_name : string) : M bool :=
  try_except
    (let req := upload_request a score metadata timestamp notes camera_name in
     emit (Post req) ;;;
     response <- call (post_out ce req) ;;
     if status_code response =? 200 then
       result <- call (lift (json response)) ;;
       if truthy (dict_get result "success" (VBool false)) then
         log INFO "Successfully uploaded data: score={score}, timestamp={timestamp}"
           [VInt score; VStr timestamp] ;;;
         ret true
       else
         log ERROR "Database query failed: {result.get('errors', 'Unknown error')}"
           [dict_get result "errors" (VStr "Unknown error")] ;;;
         ret false
     else
       log ERROR "API request failed: {response.status_code} - {response.text}"
         [VInt (status_code response); VStr (text response)] ;;;
       ret false)
    (fun msg =>
       log ERROR "Error uploading to database: {e}" [VStr msg] ;;;
       ret false).

(** *** BusynessMonitor *)

(** The [data] dictionary of one observation. *)
Record Data : Type := mk_data {
  data_timestamp : string;
  data_score : Z;
  data_metadata : dict
}.

(** The call of the evaluator on the monitor's own background model. *)
Definition evaluate (image : ndarray) : M (Z * dict) :=
  fun w =>
    let '(r, bg', logged) :=
      BusynessEvaluator.calculate_busyness_score (bg w) image in
    (Some (Ok r),
     {| cap := cap w; bg := bg'; running := running w;
        trace := trace w ++ logged |}).

Definition initialize (a : Args) (e : Env) : M bool :=
  log INFO "Initializing Busyness Monitor..." [] ;;;
  ok <- initialize_camera (camera a) e ;;
  if negb ok then
    log ERROR "Failed to initialize camera" [] ;;;
    ret false
  else
    log INFO "Busyness Monitor initialized successfully" [] ;;;
    ret true.

Definition capture_and_analyze (ce : CycleEnv) : M (option Data) :=
  try_except
    (image <- capture_image ce ;;
     match image with
     | None =>
         log ERROR "Failed to capture image" [] ;;;
         ret None
     | Some img =>
         r <- evaluate img ;;
         let '(score, metadata) := r in
         let timestamp := now ce in
         log INFO "Analysis complete: Score={score}, Timestamp={timestamp}"
           [VInt score; VStr timestamp] ;;;
         ret (Some {| data_timestamp := timestamp; data_score := score;
                      data_metadata := metadata |})
     end)
    (fun msg =>
       log ERROR "Error in capture and analyze: {e}" [VStr msg] ;;;
       ret None).

Definition upload_data (a : Args) (ce : CycleEnv) (data : Data) : M bool :=
  upload_busyness_data a ce (data_score data) (data_metadata data)
    (data_timestamp data) (notes a) (camera_name a).

Definition run_once (a : Args) (ce : CycleEnv) : M bool :=
  try_except
    (log INFO "Starting monitoring cycle..." [] ;;;
     data <- capture_and_analyze ce ;;
     match data with
     | None =>
         log ERROR "Failed to capture and analyze" [] ;;;
         ret false
     | Some d =>
         ok <- upload_data a ce d ;;
         if ok then
           log INFO "Cycle completed successfully" [] ;;;
           ret true
         else
           log ERROR "Failed to upload data" [] ;;;
           ret false
     end)
    (fun msg =>
       log ERROR "Error in monitoring cycle: {e}" [VStr msg] ;;;
       ret false).

(** [time.sleep(secs)]: [ValueError] on a negative length; otherwise the
    process sleeps, and the sleep returns or is interrupted. *)
Definition time_sleep (ce : CycleEnv) (secs : Z) : M unit :=
  if secs <? 0 then raise (Exception "sleep length must be non-negative")
  else emit (Sleep secs) ;;; call (sleep_out ce).

(** One turn of the [while] loop of [run_continuous]. *)
Definition loop_body (a : Args) (ce : CycleEnv) : M unit :=
  run_once a ce ;;;
  log INFO "Waiting {self.interval} seconds until next capture..."
    [VInt (interval a)] ;;;
  time_sleep ce (interval a).

(** [while self.running: ...], from cycle [k] on, for at most [fuel] turns. *)
Fixpoint while_running (a : Args) (e : Env) (fuel : nat) (k : nat) : M unit :=
  fun w =>
    match fuel with
    | O => (None, w)
    | S fuel' =>
        if running w then
          match loop_body a (cycle e k) w with
          | (Some (Ok _), w') => while_running a e fuel' (S k) w'
          | other => other
          end
        else (Some (Ok tt), w)
    end.

Definition cleanup : M unit :=
  set_running false ;;;
  release_camera ;;;
  log INFO "Cleanup completed" [].

Definition run_continuous (a : Args) (e : Env) (fuel : nat) : M unit :=
  set_running true ;;;
  log INFO "Starting continuous monitoring (interval: {self.interval}s)"
    [VInt (interval a)] ;;;
  try_finally
    (try_catch (while_running a e fuel 0)
       (fun ex =>
          match ex with
          | KeyboardInterrupt => log INFO "Monitoring stopped by user" []
          | Exception msg =>
              log ERROR "Error in continuous monitoring: {e}" [VStr msg]
          end))
    cleanup.

(** The monitor as its constructor leaves it. *)
Definition new_monitor : World :=
  {| cap := None; bg := createBackgroundSubtractorMOG2; running := false;
     trace := [] |}.

(** [main] after the parsing of the command line; its value is the exit
    status. *)
Definition main (a : Args) (e : Env) (fuel : nat) : M Z :=
  ok <- initialize a e ;;
  if negb ok then
    log ERROR "Failed to initialize monitor" [] ;;;
    ret 1
  else
    try_finally
      (try_except
         (if once a then
            success <- run_once a (cycle e 0) ;;
            ret (if success then 0 else 1)
          else
            run_continuous a e fuel ;;;
            ret 0)
         (fun msg =>
            log ERROR "Fatal error: {e}" [VStr msg] ;;;
            ret 1))
      cleanup.

End Monitor.

(** ** Reading the INSERT statement *)

Module Sql.

(** The text after the first occurrence of [c]. *)
Fixpoint after (c : ascii) (s : string) : string :=
  match s with
  | EmptyString => EmptyString
  | String x s' => if Ascii.eqb x c then s' else after c s'
  end.

(** The text before the first occurrence of [c]. *)
Fixpoint before (c : ascii) (s : string) : string :=
  match s with
  | EmptyString => EmptyString
  | String x s' => if Ascii.eqb x c then EmptyString else String x (before c s')
  end.

Fixpoint split (c : ascii) (s : string) : list string :=
  match s with
  | EmptyString => [EmptyString]
  | String x s' =>
      if Ascii.eqb x c then EmptyString :: split c s'
      else match split c s' with
           | [] => [String x EmptyString]
           | h :: t => String x h :: t
           end
  end.

Fixpoint strip (s : string) : string :=
  match s with
  | EmptyString => EmptyString
  | String x s' => if Ascii.is_space x then strip s' else String x (strip s')
  end.

(** The column names between the first pair of parentheses. *)
Definition insert_columns (q : string) : list string :=
  map strip (split "," (before ")" (after "(" q)))%char.

(** The number of [?] placeholders. *)
Fixpoint placeholders (q : string) : nat :=
  match q with
  | EmptyString => O
  | String x q' => if Ascii.eqb x "?"%char then S (placeholders q') else placeholders q'
  end.

End Sql.

(** ** The statements of the specification *)

Module Spec.

(** Rounding to the nearest integer, ties to the even one (Python's
    [round]). *)
Definition round_half_even (q : Q) : Z :=
  let f := Qfloor q in
  match ((q - inject_Z f) ?= (1 # 2))%Q with
  | Lt => f
  | Gt => f + 1
  | Eq => if Z.even f then f else f + 1
  end.

Definition clamp (lo hi n : Z) : Z := Z.max lo (Z.min hi n).

(** The final score as the specification words it:
    [clamp(round(combined*9)+1, 1, 10)]. *)
Definition score_by_rounding (combined : Q) : Z :=
  clamp 1 10 (round_half_even (combined * 9) + 1).

(** The fields every metadata record is said to carry. *)
Definition signal_fields : list string :=
  [ "motion_ratio"; "edge_ratio"; "color_variance"; "texture_variance";
    "contour_count"; "combined_raw" ].

Definition carries_signals (metadata : dict) : Prop :=
  Forall (fun key => is_Some (metadata !! key)) signal_fields.

(** The declared column order of the insert. *)
Definition column_order : list string :=
  [ "timestamp"; "score"; "motion_ratio"; "edge_ratio"; "color_variance";
    "texture_variance"; "contour_count"; "combined_raw"; "metadata"; "notes";
    "camera_name" ].

(** The value an observation has for a column: its own fields, the
    serialised metadata, and the metrics read from the metadata. *)
Definition column_value `{J : Json} (score : Z) (metadata : dict)
    (timestamp notes camera_name : string) (column : string) : pyval :=
  if String.eqb column "timestamp" then VStr timestamp
  else if String.eqb column "score" then VInt score
  else if String.eqb column "metadata" then VStr (json_dumps metadata)
  else if String.eqb column "notes" then VStr notes
  else if String.eqb column "camera_name" then VStr camera_name
  else dict_get metadata column (VInt 0).

End Spec.

(** ** Reading a trace *)

Module Trace.

Definition is_release (ev : event) : bool :=
  match ev with CapRelease => true | _ => false end.

Definition is_sleep (ev : event) : bool :=
  match ev with Sleep _ => true | _ => false end.

Definition is_post (ev : event) : bool :=
  match ev with Post _ => true | _ => false end.

(** The line that opens a cycle, and the line that closes a cleanup. *)
Definition cycle_start : event := Log INFO "Starting monitoring cycle..." [].

Definition cleanup_done : event := Log INFO "Cleanup completed" [].

Definition is_cycle_start (ev : event) : bool :=
  match ev with
  | Log INFO template [] => String.eqb template "Starting monitoring cycle..."
  | _ => false
  end.

Definition is_cleanup_done (ev : event) : bool :=
  match ev with
  | Log INFO template [] => String.eqb template "Cleanup completed"
  | _ => false
  end.

(** The line written before each sleep. *)
Definition waiting (secs : Z) : event :=
  Log INFO "Waiting {self.interval} seconds until next capture..." [VInt secs].

Definition count (p : event -> bool) (tr : list event) : nat :=
  length (List.filter p tr).

(** Releases of the capture device, and completed cleanups. *)
Definition releases (tr : list event) : nat := count is_release tr.

Definition cleanups (tr : list event) : nat := count is_cleanup_done tr.

(** The lengths of the sleeps, in order. *)
Definition sleeps (tr : list event) : list Z :=
  flat_map (fun ev => match ev with Sleep secs => [secs] | _ => [] end) tr.

(** An event of the inside of a cycle: not a sleep, a release, the end of a
    cleanup or the start of a cycle. *)
Definition inner (ev : event) : bool :=
  negb (is_sleep ev || is_release ev || is_cleanup_done ev || is_cycle_start ev).

(** An event of the loop: anything but a release or the end of a cleanup. *)
Definition looping (ev : event) : bool :=
  negb (is_release ev || is_cleanup_done ev).

End Trace.

(** ** Postconditions of computations *)

Section Postconditions.
Context `{V : Vision}.

(** [w'] continues [w]: same [running] flag, same capture object, and the
    trace grown by events that satisfy [p]. *)
Definition continues (p : event -> bool) (w w' : World) : Prop :=
  running w' = running w /\
  cap w' = cap w /\
  exists evs, trace w' = (trace w ++ evs)%list /\ forallb p evs = true.

(** The computation finished; if it was interrupted then [I] holds. *)
Definition finishes {A : Type} (I : Prop) (o : option (result A)) : Prop :=
  match o with
  | None => False
  | Some (Raise KeyboardInterrupt) => I
  | Some _ => True
  end.

(** The computation returned a value; or it was interrupted and [I] holds. *)
Definition returns_or {A : Type} (I : Prop) (o : option (result A)) : Prop :=
  match o with
  | Some (Ok _) => True
  | Some (Raise KeyboardInterrupt) => I
  | _ => False
  end.

(** From every world, [c] ends in a world that continues it, with a result
    that satisfies [R]. *)
Definition emits {A : Type} (p : event -> bool)
    (R : option (result A) -> Prop) (c : M A) : Prop :=
  forall w, R (fst (c w)) /\ continues p w (snd (c w)).

(** A cycle is interrupted when one of its blocking calls is. *)
Definition interrupted (ce : CycleEnv) : Prop :=
  read_out ce = Raise KeyboardInterrupt \/
  exists req, post_out ce req = Raise KeyboardInterrupt.

End Postconditions.

(** ** A concrete environment for the examples *)

Module Sample.

Definition mean_sq_dev (l : list Z) : Q :=
  let n := inject_Z (Z.of_nat (length l)) in
  let s := inject_Z (fold_right Z.add 0 l) in
  let s2 := inject_Z (fold_right (fun x acc => x * x + acc) 0 l) in
  (s2 / n - (s / n) * (s / n))%Q.

(** A vision library that rejects a frame without pixels, as OpenCV does,
    and otherwise sees neither motion nor edges: masks are all zero and no
    contour is found.  [np.sum(a > 0)] and [np.var] are computed on the
    pixels. *)
Definition blind_vision : Vision :=
  {| contour := Z;
     bg_model := nat;
     createBackgroundSubtractorMOG2 := O;
     cvtColor_BGR2GRAY img :=
       match pixels img with
       | [] => Err "(-215:Assertion failed) !_src.empty() in function 'cvtColor'"
       | _ :: _ => Ret {| shape := firstn 2 (shape img); pixels := pixels img |}
       end;
     bg_apply n img :=
       (Ret {| shape := firstn 2 (shape img);
               pixels := map (fun _ => 0) (pixels img) |}, S n);
     np_sum_gt0 a :=
       Ret (Z.of_nat (length (List.filter (fun x => 0 <? x) (pixels a))));
     Canny gray _ _ :=
       Ret {| shape := shape gray; pixels := map (fun _ => 0) (pixels gray) |};
     np_var a :=
       match pixels a with
       | [] => Ret NaN
       | _ :: _ => Ret (Fin (mean_sq_dev (pixels a)))
       end;
     Laplacian_var _ := Ret (Fin 0);
     findContours _ := Ret [];
     contourArea c := Ret (Fin (inject_Z c)) |}.

Definition plain_json : Json := {| json_dumps _ := "{}" |}.

(** A 2x2 frame of three channels with alternating dark and bright pixels,
    and an array without pixels. *)
Definition checker_frame : ndarray :=
  {| shape := [2; 2; 3];
     pixels := [0; 0; 0; 255; 255; 255; 255; 255; 255; 0; 0; 0] |}.

Definition empty_frame : ndarray := {| shape := [0; 0; 3]; pixels := [] |}.

(** Command lines: continuous or single run, with a given interval. *)
Definition args (run_once : bool) (secs : Z) : Args :=
  {| api_token := "token"; account_id := "account"; database_id := "db";
     camera := 0; camera_name := "MacBook Camera"; interval := secs;
     notes := "lobby"; once := run_once |}.

Definition accepted : response :=
  {| status_code := 200; text := "{}";
     json := Ret {[ "success" := VBool true ]} |}.

(** Cycles in which one step fails: the read returns no frame; the frame has
    no pixels, so that scoring raises; the request fails on the network. *)
Definition no_frame_cycle : CycleEnv :=
  {| read_out := Ok (false, None); now := "2024-05-01T12:00:00";
     post_out _ := Ok accepted; sleep_out := Ok tt |}.

Definition bad_frame_cycle : CycleEnv :=
  {| read_out := Ok (true, Some empty_frame); now := "2024-05-01T12:00:05";
     post_out _ := Ok accepted; sleep_out := Ok tt |}.

Definition network_error_cycle : CycleEnv :=
  {| read_out := Ok (true, Some checker_frame); now := "2024-05-01T12:00:10";
     post_out _ := Raise (Exception "Connection refused");
     sleep_out := Ok tt |}.

(** A good cycle, and one whose sleep is cut short by the user. *)
Definition good_cycle : CycleEnv :=
  {| read_out := Ok (true, Some checker_frame); now := "2024-05-01T12:00:15";
     post_out _ := Ok accepted; sleep_out := Ok tt |}.

Definition interrupted_sleep_cycle : CycleEnv :=
  {| read_out := Ok (true, Some checker_frame); now := "2024-05-01T12:00:20";
     post_out _ := Ok accepted; sleep_out := Raise KeyboardInterrupt |}.

(** The camera opens; each of the first three cycles fails in its own way,
    the fourth succeeds and the user interrupts the sleep of the fifth. *)
Definition session : Env :=
  {| open_out := Ok true;
     cycle k :=
       match k with
       | 0%nat => no_frame_cycle
       | 1%nat => bad_frame_cycle
       | 2%nat => network_error_cycle
       | 3%nat => good_cycle
       | _ => interrupted_sleep_cycle
       end |}.

(** The camera opens and every cycle is good. *)
Definition calm : Env := {| open_out := Ok true; cycle _ := good_cycle |}.

(** The camera opens and the user interrupts the first sleep. *)
Definition short_session : Env :=
  {| open_out := Ok true; cycle _ := interrupted_sleep_cycle |}.

End Sample.

(** ** Runs of the monitor in the sample environment *)

Module Runs.
Import Sample.

(** A monitor in its loop: camera open, [running] set. *)
Definition looping_monitor : World (V := blind_vision) :=
  mk_world (V := blind_vision) (Some true) O true [].

Definition final (a : Args) (e : Env) (fuel : nat) : World (V := blind_vision) :=
  snd (main (V := blind_vision) (J := plain_json) a e fuel new_monitor).

Definition exit_status (a : Args) (e : Env) (fuel : nat) : option (result Z) :=
  fst (main (V := blind_vision) (J := plain_json) a e fuel new_monitor).

End Runs.

(** ** More readings of a trace *)

Module Observe.

Definition is_read (ev : event) : bool :=
  match ev with CapRead => true | _ => false end.

Definition is_open (ev : event) : bool :=
  match ev with CapOpen _ => true | _ => false end.

(** The requests posted, in order. *)
Definition posts (tr : list event) : list request :=
  flat_map (fun ev => match ev with Post req => [req] | _ => [] end) tr.

Definition reads (tr : list event) : nat := Trace.count is_read tr.

Definition cycles (tr : list event) : nat := Trace.count Trace.is_cycle_start tr.

(** Not a sleep, or a sleep of [secs] seconds with [secs] not negative. *)
Definition sleeps_for (secs : Z) (ev : event) : bool :=
  match ev with
  | Sleep s => (s =? secs) && (0 <=? s)
  | _ => true
  end.

(** Neither a read of the camera nor a request. *)
Definition offline (ev : event) : bool :=
  negb (is_read ev || Trace.is_post ev).

End Observe.

(** The endpoint accepted the request: status 200 and a JSON object whose
    [success] field is true. *)
Definition accepted (ce : CycleEnv) (req : request) : Prop :=
  exists resp body,
    post_out ce req = Ok resp /\
    status_code resp = 200 /\
    json resp = Ret body /\
    truthy (dict_get body "success" (VBool false)) = true.

Section TraceOnly.
Context `{V : Vision}.

(** Whatever [c] does, it only adds events that satisfy [p]. *)
Definition only {A : Type} (p : event -> bool) (c : M A) : Prop :=
  forall w, exists evs,
    trace (snd (c w)) = (trace w ++ evs)%list /\ forallb p evs = true.

End TraceOnly.

(** ** The scripts beside the monitor: values, printed lines, computations *)

(** Python values as [json.load] builds them.  An object is the list of its
    fields, each key once, in the order of the document. *)
Module Py.

Inductive json : Type :=
| JNull
| JBool (b : bool)
| JInt (z : Z)
| JFloat (x : pyfloat)
| JStr (s : string)
| JList (items : list json)
| JObj (fields : list (string * json)).

Fixpoint lookup (fields : list (string * json)) (key : string) : option json :=
  match fields with
  | [] => None
  | (k, v) :: rest => if String.eqb k key then Some v else lookup rest key
  end.

(** [v[key]] for a string key: [KeyError] on an object without the key,
    [TypeError] on anything that is not an object. *)
Definition getitem (v : json) (key : string) : outcome json :=
  match v with
  | JObj fields =>
      match lookup fields key with
      | Some x => Ret x
      | None => Err ("'" +:+ key +:+ "'")
      end
  | JList _ => Err "list indices must be integers or slices, not str"
  | JStr _ => Err "string indices must be integers, not 'str'"
  | _ => Err "object is not subscriptable"
  end.

(** [v.get(key, default)]: [AttributeError] on anything but an object. *)
Definition get (v : json) (key : string) (dflt : json) : outcome json :=
  match v with
  | JObj fields => Ret (default dflt (lookup fields key))
  | _ => Err "object has no attribute 'get'"
  end.

Definition truthy (v : json) : bool :=
  match v with
  | JNull => false
  | JBool b => b
  | JInt z => negb (z =? 0)
  | JFloat (Fin q) => negb (Qeq_bool q 0)
  | JFloat _ => true
  | JStr s => negb (String.eqb s "")
  | JList items => match items with [] => false | _ :: _ => true end
  | JObj fields => match fields with [] => false | _ :: _ => true end
  end.

Fixpoint chars (s : string) : list json :=
  match s with
  | EmptyString => []
  | String c rest => JStr (String c EmptyString) :: chars rest
  end.

(** The items a [for] loop sees: the elements of a list, the keys of an
    object, the characters of a string; [TypeError] on the rest. *)
Definition iterate (v : json) : outcome (list json) :=
  match v with
  | JList items => Ret items
  | JObj fields => Ret (map (fun kv => JStr (fst kv)) fields)
  | JStr s => Ret (chars s)
  | _ => Err "object is not iterable"
  end.

(** [v == s] for a string literal [s]. *)
Definition eq_str (v : json) (s : string) : bool :=
  match v with
  | JStr t => String.eqb t s
  | _ => false
  end.

End Py.

Module Script.

(** A value shown in a printed line. *)
Inductive arg : Type :=
| Val (v : pyval)
| Dict (d : dict)
| Tuple (t : list Z)
| Json (j : Py.json).

(** A call of [print]: the text of its argument as the source writes it,
    and the values of its placeholders. *)
Inductive line : Type :=
| Line (template : string) (args : list arg).

Section Prog.
Context {X : Type}.

(** A script works on a state [X] and on standard output.  As for the
    monitor, a result is a value or an exception; [None] is the answer of a
    computation cut off by its fuel, which no script is. *)
Definition Prog (A : Type) : Type :=
  X -> list line -> option (result A) * X * list line.

Definition ret {A : Type} (a : A) : Prog A :=
  fun x out => (Some (Ok a), x, out).

Definition raise {A : Type} (e : exn) : Prog A :=
  fun x out => (Some (Raise e), x, out).

Definition bind {A B : Type} (c : Prog A) (k : A -> Prog B) : Prog B :=
  fun x out =>
    match c x out with
    | (Some (Ok a), x', out') => k a x' out'
    | (Some (Raise e), x', out') => (Some (Raise e), x', out')
    | (None, x', out') => (None, x', out')
    end.

Definition print (template : string) (args : list arg) : Prog unit :=
  fun x out => (Some (Ok tt), x, (out ++ [Line template args])%list).

(** A computation on the state alone. *)
Definition on_state {A : Type} (c : X -> option (result A) * X) : Prog A :=
  fun x out => let '(r, x') := c x in (r, x', out).

(** The value of an expression that may raise. *)
Definition eval {A : Type} (o : outcome A) : Prog A :=
  fun x out => (Some (lift o), x, out).

(** [try: body  except Exception as e: handler] *)
Definition try_except {A : Type} (body : Prog A) (handler : string -> Prog A)
  : Prog A :=
  fun x out =>
    match body x out with
    | (Some (Raise (Exception msg)), x', out') => handler msg x' out'
    | other => other
    end.

(** [try: body  finally: final] *)
Definition try_finally {A : Type} (body : Prog A) (final : Prog unit)
  : Prog A :=
  fun x out =>
    match body x out with
    | (Some r, x', out') =>
        match final x' out' with
        | (Some (Ok _), x'', out'') => (Some r, x'', out'')
        | (Some (Raise e), x'', out'') => (Some (Raise e), x'', out'')
        | (None, x'', out'') => (None, x'', out'')
        end
    | (None, x', out') => (None, x', out')
    end.

End Prog.

Definition result_of {X A : Type} (r : option (result A) * X * list line)
  : option (result A) := fst (fst r).

Definition state_of {X A : Type} (r : option (result A) * X * list line) : X :=
  snd (fst r).

Definition output_of {X A : Type} (r : option (result A) * X * list line)
  : list line := snd r.

(** A script that answers [a] or [b], or is interrupted. *)
Definition settled {A : Type} (o : option (result A)) (a b : A) : Prop :=
  o = Some (Ok a) \/ o = Some (Ok b) \/ o = Some (Raise KeyboardInterrupt).

End Script.

Declare Scope script_scope.
Delimit Scope script_scope with script.
Notation "x <- c1 ;; c2" := (Script.bind c1 (fun x => c2))
  (at level 100, c1 at next level, right associativity) : script_scope.
Notation "c1 ;;; c2" := (Script.bind c1 (fun _ => c2))
  (at level 100, right associativity) : script_scope.

(** ** test_system.py *)

Module TestSystem.

(** What the outside world answers to the test script: the opening of the
    camera and the read of a frame in [test_camera_capture] and in
    [test_full_cycle], the random image with its rectangle and circle built
    by [test_busyness_evaluation], and the clock. *)
Record TestEnv : Type := mk_test_env {
  capture_open : result bool;
  capture_read : result (bool * option ndarray);
  test_image : ndarray;
  cycle_open : result bool;
  cycle_read : result (bool * option ndarray);
  strftime : string
}.

(** The environment of [capture_image] and of [initialize_camera] when only
    the camera is used: no request is made and nothing sleeps. *)
Definition reading (r : result (bool * option ndarray)) : CycleEnv :=
  {| read_out := r; now := "";
     post_out _ := Raise (Exception "no request is made");
     sleep_out := Ok tt |}.

Definition opening (r : result bool) : Env :=
  {| open_out := r; cycle _ := reading (Raise (Exception "no frame is read")) |}.

(** [format(v, '.3f')]: numbers are formatted, anything else raises. *)
Definition format_f (v : pyval) : outcome Script.arg :=
  match v with
  | VInt _ | VFloat _ | VBool _ => Ret (Script.Val v)
  | VStr _ => Err "Unknown format code 'f' for object of type 'str'"
  | VNone => Err "unsupported format string passed to NoneType.__format__"
  | VList _ => Err "unsupported format string passed to list.__format__"
  end.

(** The verdict of a camera test on the answers of the camera: a frame is
    read from an opened camera. *)
Definition gets_frame (o : result bool) (r : result (bool * option ndarray))
  : bool :=
  match o, r with
  | Ok true, Ok (true, Some _) => true
  | _, _ => false
  end.

Definition interrupts (o : result bool) (r : result (bool * option ndarray))
  : bool :=
  match o, r with
  | Raise KeyboardInterrupt, _ => true
  | Ok true, Raise KeyboardInterrupt => true
  | _, _ => false
  end.

Section Tests.
Context `{V : Vision}.

Local Open Scope script_scope.

(** [CameraCapture(0)] and [BusynessEvaluator()]: fresh objects. *)
Definition new_camera : M unit := set_cap None.

Definition new_evaluator : M unit :=
  fun w => (Some (Ok tt),
            {| cap := cap w; bg := createBackgroundSubtractorMOG2;
               running := running w; trace := trace w |}).

Definition test_camera_capture (te : TestEnv) : Script.Prog (X := World) bool :=
  Script.print "Testing camera capture..." [] ;;;
  Script.on_state new_camera ;;;
  ok <- Script.on_state (initialize_camera 0 (opening (capture_open te))) ;;
  if negb ok then
    Script.print "❌ Failed to initialize camera" [] ;;;
    Script.ret false
  else
    image <- Script.on_state (capture_image (reading (capture_read te))) ;;
    match image with
    | None =>
        Script.print "❌ Failed to capture image" [] ;;;
        Script.on_state release_camera ;;;
        Script.ret false
    | Some img =>
        Script.print "✅ Successfully captured image: {image.shape}"
          [Script.Tuple (shape img)] ;;;
        Script.on_state release_camera ;;;
        Script.ret true
    end.

Definition test_busyness_evaluation (te : TestEnv) : Script.Prog (X := World) bool :=
  Script.print "Testing busyness evaluation..." [] ;;;
  Script.on_state new_evaluator ;;;
  r <- Script.on_state (evaluate (test_image te)) ;;
  let '(score, metadata) := r in
  Script.print "✅ Busyness evaluation completed:" [] ;;;
  Script.print "   Score: {score}/10" [Script.Val (VInt score)] ;;;
  v <- Script.eval (format_f (dict_get metadata "motion_ratio" (VInt 0))) ;;
  Script.print "   Motion ratio: {metadata.get('motion_ratio', 0):.3f}" [v] ;;;
  v <- Script.eval (format_f (dict_get metadata "edge_ratio" (VInt 0))) ;;
  Script.print "   Edge ratio: {metadata.get('edge_ratio', 0):.3f}" [v] ;;;
  v <- Script.eval (format_f (dict_get metadata "color_variance" (VInt 0))) ;;
  Script.print "   Color variance: {metadata.get('color_variance', 0):.1f}"
    [v] ;;;
  Script.print "   Contour count: {metadata.get('contour_count', 0)}"
    [Script.Val (dict_get metadata "contour_count" (VInt 0))] ;;;
  Script.ret true.

Definition test_full_cycle (te : TestEnv) : Script.Prog (X := World) bool :=
  Script.print "Testing full capture and analysis cycle..." [] ;;;
  Script.on_state new_camera ;;;
  Script.on_state new_evaluator ;;;
  Script.try_finally
    (Script.try_except
       (ok <- Script.on_state
                (initialize_camera 0 (opening (cycle_open te))) ;;
        if negb ok then
          Script.print "❌ Failed to initialize camera" [] ;;;
          Script.ret false
        else
          image <- Script.on_state (capture_image (reading (cycle_read te))) ;;
          match image with
          | None =>
              Script.print "❌ Failed to capture image" [] ;;;
              Script.ret false
          | Some img =>
              Script.print "✅ Captured image: {image.shape}"
                [Script.Tuple (shape img)] ;;;
              r <- Script.on_state (evaluate img) ;;
              let '(score, metadata) := r in
              Script.print "✅ Analysis complete:" [] ;;;
              Script.print
                "   Timestamp: {time.strftime('%Y-%m-%d %H:%M:%S')}"
                [Script.Val (VStr (strftime te))] ;;;
              Script.print "   Busyness Score: {score}/10"
                [Script.Val (VInt score)] ;;;
              Script.print "   Metadata: {metadata}" [Script.Dict metadata] ;;;
              Script.ret true
          end)
       (fun msg =>
          Script.print "❌ Error in full cycle test: {e}"
            [Script.Val (VStr msg)] ;;;
          Script.ret false))
    (Script.on_state release_camera).

(** The [for] loop of [main] over the tests, with the count of those that
    passed. *)
Fixpoint run_tests (tests : list (string * Script.Prog (X := World) bool))
    (passed : Z) : Script.Prog (X := World) Z :=
  match tests with
  | [] => Script.ret passed
  | (test_name, test_func) :: rest =>
      Script.print "\n🔍 Running {test_name} test..."
        [Script.Val (VStr test_name)] ;;;
      passed' <-
        Script.try_except
          (ok <- test_func ;;
           if ok then
             Script.print "✅ {test_name} test passed"
               [Script.Val (VStr test_name)] ;;;
             Script.ret (passed + 1)
           else
             Script.print "❌ {test_name} test failed"
               [Script.Val (VStr test_name)] ;;;
             Script.ret passed)
          (fun msg =>
             Script.print "❌ {test_name} test failed with error: {e}"
               [Script.Val (VStr test_name); Script.Val (VStr msg)] ;;;
             Script.ret passed) ;;
      run_tests rest passed'
  end.

Definition tests (te : TestEnv)
  : list (string * Script.Prog (X := World) bool) :=
  [ ("Camera Capture", test_camera_capture te);
    ("Busyness Evaluation", test_busyness_evaluation te);
    ("Full Cycle", test_full_cycle te) ].

Definition rule (n : nat) : string :=
  String.concat "" (List.repeat "=" n).

Definition main (te : TestEnv) : Script.Prog (X := World) Z :=
  Script.print "🧪 Testing MacBook Camera Busyness Monitor System" [] ;;;
  Script.print (rule 50) [] ;;;
  let total := Z.of_nat (length (tests te)) in
  passed <- run_tests (tests te) 0 ;;
  Script.print ("\n" +:+ rule 50) [] ;;;
  Script.print "📊 Test Results: {passed}/{total} tests passed"
    [Script.Val (VInt passed); Script.Val (VInt total)] ;;;
  if passed =? total then
    Script.print "🎉 All tests passed! Your system is ready to use." [] ;;;
    Script.print "\nNext steps:" [] ;;;
    Script.print "1. Set up your Cloudflare credentials" [] ;;;
    Script.print
      "2. Run: python main.py --api-token YOUR_TOKEN --account-id YOUR_ACCOUNT_ID --database-id YOUR_DATABASE_ID --once"
      [] ;;;
    Script.ret 0
  else
    Script.print "⚠️  Some tests failed. Please check the errors above." [] ;;;
    Script.ret 1.

End Tests.

End TestSystem.

(** ** init_database.py *)

Module InitDatabase.

(** A POST to
    [https://api.cloudflare.com/client/v4/accounts/{account_id}/d1/database/{database_id}/query]
    with the header [Authorization: Bearer {api_token}], the JSON body
    [{'sql': statement}] and a timeout of 30 seconds. *)
Record query : Type := mk_query {
  token : Py.json;
  account : Py.json;
  database : Py.json;
  statement : string
}.

Record reply : Type := mk_reply {
  status : Z;
  reply_text : string;
  reply_json : outcome Py.json
}.

(** What opening and parsing [config.json] gives: no such file, a file that
    is not JSON, a value, or another error of the file system. *)
Inductive file_outcome : Type :=
| Missing
| Malformed (msg : string)
| Loaded (config : Py.json)
| Unreadable (e : exn).

(** The file, and the answer of the endpoint to each request, by its
    position in the run. *)
Record DbEnv : Type := mk_db_env {
  config_file : file_outcome;
  answer : nat -> query -> result reply
}.

Definition sql_create_table : string :=
"
        CREATE TABLE IF NOT EXISTS busyness_data (
            id INTEGER PRIMARY KEY AUTOINCREMENT,
            timestamp TEXT NOT NULL,
            score INTEGER NOT NULL CHECK (score >= 1 AND score <= 10),
            motion_ratio REAL,
            edge_ratio REAL,
            color_variance REAL,
            texture_variance REAL,
            contour_count INTEGER,
            combined_raw REAL,
            metadata TEXT,
            notes TEXT,
            camera_name TEXT,
            created_at DATETIME DEFAULT CURRENT_TIMESTAMP
        )
        ".

Definition sql_index_timestamp : string :=
"
        CREATE INDEX IF NOT EXISTS idx_busyness_timestamp ON busyness_data(timestamp)
        ".

Definition sql_index_score : string :=
"
        CREATE INDEX IF NOT EXISTS idx_busyness_score ON busyness_data(score)
        ".

Definition sql_statements : list string :=
  [sql_create_table; sql_index_timestamp; sql_index_score].

Definition dq : string := String "034"%char EmptyString.

(** The query of [test_database_connection]. *)
Definition sql_probe : string :=
  "SELECT name FROM sqlite_master WHERE type=" +:+ dq +:+ "table" +:+ dq
  +:+ " AND name=" +:+ dq +:+ "busyness_data" +:+ dq.

(** The three lookups that open [create_database_schema] and
    [test_database_connection]. *)
Definition credentials (config : Py.json)
  : outcome (Py.json * Py.json * Py.json) :=
  (cloudflare <- Py.getitem config "cloudflare" ;;
   api_token <- Py.getitem cloudflare "api_token" ;;
   cloudflare <- Py.getitem config "cloudflare" ;;
   account_id <- Py.getitem cloudflare "account_id" ;;
   cloudflare <- Py.getitem config "cloudflare" ;;
   database_id <- Py.getitem cloudflare "database_id" ;;
   Ret (api_token, account_id, database_id))%outcome.

Definition query_for (creds : Py.json * Py.json * Py.json) (sql : string)
  : query :=
  let '(api_token, account_id, database_id) := creds in
  {| token := api_token; account := account_id; database := database_id;
     statement := sql |}.

(** [any(table.get('name') == 'busyness_data' for table in tables)] *)
Fixpoint any_named (tables : list Py.json) : outcome bool :=
  match tables with
  | [] => Ret false
  | table :: rest =>
      (name <- Py.get table "name" Py.JNull ;;
       if Py.eq_str name "busyness_data" then Ret true else any_named rest)%outcome
  end.

(** The endpoint took the request: status 200 and a JSON object whose
    [success] field is true. *)
Definition reply_accepts (r : result reply) : bool :=
  match r with
  | Ok rep =>
      (status rep =? 200) &&
      match reply_json rep with
      | Ret body =>
          match Py.get body "success" (Py.JBool false) with
          | Ret success => Py.truthy success
          | Err _ => false
          end
      | Err _ => false
      end
  | Raise _ => false
  end.

Definition interrupted_reply (r : result reply) : bool :=
  match r with
  | Raise KeyboardInterrupt => true
  | _ => false
  end.

Section Programs.
Variable env : DbEnv.

Local Open Scope script_scope.

Definition Db (A : Type) : Type := Script.Prog (X := list query) A.

(** [requests.post]: the request is sent, then answered. *)
Definition post (q : query) : Db reply :=
  fun sent out =>
    (Some (answer env (length sent) q), (sent ++ [q])%list, out).

Definition load_config : Db (option Py.json) :=
  match config_file env with
  | Missing =>
      Script.print "❌ config.json not found. Please run setup.py first." [] ;;;
      Script.ret None
  | Malformed msg =>
      Script.print "❌ Error parsing config.json: {e}"
        [Script.Val (VStr msg)] ;;;
      Script.ret None
  | Loaded config => Script.ret (Some config)
  | Unreadable e => Script.raise e
  end.

(** The [for] loop of [create_database_schema] from statement number [i] on:
    [Some false] inside it is the [return False] of a failed statement. *)
Fixpoint run_statements (creds : Py.json * Py.json * Py.json)
    (total : Z) (statements : list string) (i : Z) : Db bool :=
  match statements with
  | [] =>
      Script.print "✅ Database schema created successfully!" [] ;;;
      Script.ret true
  | sql :: rest =>
      Script.print "   Executing statement {i}/{len(sql_statements)}..."
        [Script.Val (VInt i); Script.Val (VInt total)] ;;;
      returned <-
        Script.try_except
          (response <- post (query_for creds sql) ;;
           if status response =? 200 then
             result <- Script.eval (reply_json response) ;;
             success <- Script.eval (Py.get result "success" (Py.JBool false)) ;;
             if Py.truthy success then
               Script.print "   ✅ Statement {i} executed successfully"
                 [Script.Val (VInt i)] ;;;
               Script.ret None
             else
               errors <- Script.eval
                           (Py.get result "errors" (Py.JStr "Unknown error")) ;;
               Script.print
                 "   ❌ Statement {i} failed: {result.get('errors', 'Unknown error')}"
                 [Script.Val (VInt i); Script.Json errors] ;;;
               Script.ret (Some false)
           else
             Script.print
               "   ❌ Statement {i} failed: {response.status_code} - {response.text}"
               [Script.Val (VInt i); Script.Val (VInt (status response));
                Script.Val (VStr (reply_text response))] ;;;
             Script.ret (Some false))
          (fun msg =>
             Script.print "   ❌ Error executing statement {i}: {e}"
               [Script.Val (VInt i); Script.Val (VStr msg)] ;;;
             Script.ret (Some false)) ;;
      match returned with
      | Some verdict => Script.ret verdict
      | None => run_statements creds total rest (i + 1)
      end
  end.

Definition create_database_schema (config : Py.json) : Db bool :=
  creds <- Script.eval (credentials config) ;;
  Script.print "🔧 Creating database schema..." [] ;;;
  run_statements creds (Z.of_nat (length sql_statements)) sql_statements 1.

Definition test_database_connection (config : Py.json) : Db bool :=
  creds <- Script.eval (credentials config) ;;
  Script.try_except
    (response <- post (query_for creds sql_probe) ;;
     if status response =? 200 then
       result <- Script.eval (reply_json response) ;;
       success <- Script.eval (Py.get result "success" (Py.JBool false)) ;;
       if Py.truthy success then
         tables <- Script.eval (Py.get result "result" (Py.JList [])) ;;
         items <- Script.eval (Py.iterate tables) ;;
         found <- Script.eval (any_named items) ;;
         if found then
           Script.print
             "✅ Database connection successful - busyness_data table exists"
             [] ;;;
           Script.ret true
         else
           Script.print
             "✅ Database connection successful - busyness_data table will be created"
             [] ;;;
           Script.ret true
       else
         errors <- Script.eval
                     (Py.get result "errors" (Py.JStr "Unknown error")) ;;
         Script.print
           "❌ Database query failed: {result.get('errors', 'Unknown error')}"
           [Script.Json errors] ;;;
         Script.ret false
     else
       Script.print
         "❌ Database connection failed: {response.status_code} - {response.text}"
         [Script.Val (VInt (status response));
          Script.Val (VStr (reply_text response))] ;;;
       Script.ret false)
    (fun msg =>
       Script.print "❌ Error testing database connection: {e}"
         [Script.Val (VStr msg)] ;;;
       Script.ret false).

Definition main : Db Z :=
  Script.print "🚀 Initializing D1 Database Schema" [] ;;;
  Script.print (TestSystem.rule 40) [] ;;;
  loaded <- load_config ;;
  match loaded with
  | None => Script.ret 1
  | Some config =>
      if negb (Py.truthy config) then Script.ret 1
      else
        database_id <-
          Script.eval
            (cloudflare <- Py.getitem config "cloudflare" ;;
             Py.getitem cloudflare "database_id")%outcome ;;
        Script.print "📋 Using database: {config['cloudflare']['database_id']}"
          [Script.Json database_id] ;;;
        Script.print "\n🔍 Testing database connection..." [] ;;;
        connected <- test_database_connection config ;;
        if negb connected then
          Script.print "❌ Database connection test failed" [] ;;;
          Script.ret 1
        else
          Script.print "\n🔧 Creating database schema..." [] ;;;
          created <- create_database_schema config ;;
          if negb created then
            Script.print "❌ Failed to create database schema" [] ;;;
            Script.ret 1
          else
            Script.print "\n🔍 Verifying schema creation..." [] ;;;
            verified <- test_database_connection config ;;
            if verified then
              Script.print "\n🎉 Database initialization complete!" [] ;;;
              Script.print "   You can now run the busyness monitor." [] ;;;
              Script.ret 0
            else
              Script.print "\n❌ Schema verification failed" [] ;;;
              Script.ret 1
  end.

End Programs.

(** The statements of a run that goes through, in order, and its
    requests. *)
Definition script : list string :=
  (sql_probe :: sql_statements ++ [sql_probe])%list.

Definition plan (creds : Py.json * Py.json * Py.json) : list query :=
  map (query_for creds) script.

(** The endpoint accepts [sql] when it is the request number [position]. *)
Definition accepted_at (env : DbEnv) (creds : Py.json * Py.json * Py.json)
    (position : nat) (sql : string) : bool :=
  reply_accepts (answer env position (query_for creds sql)).

(** How many of [statements] the endpoint accepts before it first does not,
    when they are sent one after the other from [position] on. *)
Fixpoint leading_accepted (env : DbEnv) (creds : Py.json * Py.json * Py.json)
    (position : nat) (statements : list string) : nat :=
  match statements with
  | [] => O
  | sql :: rest =>
      if accepted_at env creds position sql
      then S (leading_accepted env creds (S position) rest)
      else O
  end.

(** The tables that a reply lists, when its [result] is a list. *)
Definition listing (r : result reply) : option (list Py.json) :=
  match r with
  | Ok rep =>
      match reply_json rep with
      | Ret body =>
          match Py.get body "result" (Py.JList []) with
          | Ret (Py.JList tables) => Some tables
          | _ => None
          end
      | Err _ => None
      end
  | Raise _ => None
  end.

Definition is_object (v : Py.json) : bool :=
  match v with Py.JObj _ => true | _ => false end.

End InitDatabase.

(** ** setup.py *)

Module Setup.

(** The items of a version tuple: numbers and the release level. *)
Inductive item : Type :=
| INum (z : Z)
| IStr (s : string).

(** [sys.version_info] *)
Record version : Type := mk_version {
  major : Z;
  minor : Z;
  micro : Z;
  releaselevel : string;
  serial : Z
}.

Definition as_tuple (v : version) : list item :=
  [INum (major v); INum (minor v); INum (micro v); IStr (releaselevel v);
   INum (serial v)].

Definition item_eqb (x y : item) : bool :=
  match x, y with
  | INum m, INum n => m =? n
  | IStr s, IStr t => String.eqb s t
  | _, _ => false
  end.

Definition item_lt (x y : item) : outcome bool :=
  match x, y with
  | INum m, INum n => Ret (m <? n)
  | IStr s, IStr t =>
      Ret (match String.compare s t with Lt => true | _ => false end)
  | INum _, IStr _ =>
      Err "'<' not supported between instances of 'int' and 'str'"
  | IStr _, INum _ =>
      Err "'<' not supported between instances of 'str' and 'int'"
  end.

(** [a < b] on tuples: the first pair of items that differ decides, and a
    tuple is smaller than each of its proper extensions. *)
Fixpoint tuple_lt (a b : list item) : outcome bool :=
  match a, b with
  | _, [] => Ret false
  | [], _ :: _ => Ret true
  | x :: a', y :: b' => if item_eqb x y then tuple_lt a' b' else item_lt x y
  end.

(** What [subprocess.run] gives for the test script. *)
Inductive run_outcome : Type :=
| Completed (returncode : Z) (stderr : string)
| TimeoutExpired
| RunFails (e : exn).

(** What [import cv2] gives. *)
Inductive import_outcome : Type :=
| Imported
| ImportError (msg : string)
| ImportFails (e : exn).

(** The file [config.json]: a text, or the dump of a value by [json.dump]
    with the given indentation. *)
Inductive content : Type :=
| Text (s : string)
| Dump (v : Py.json) (indent : Z).

Record SetupEnv : Type := mk_setup_env {
  version_info : version;
  pip : result Z;
  cv2_import : import_outcome;
  video_capture : result bool;
  write_out : result unit;
  test_run : run_outcome
}.

(** What the script does to the machine. *)
Inductive action : Type :=
| PipInstall
| OpenCamera
| ReleaseCamera
| WriteConfig
| RunTestScript.

Record Machine : Type := mk_machine {
  config_json : option content;
  actions : list action
}.

Definition config_template : Py.json :=
  Py.JObj
    [ ("cloudflare",
       Py.JObj [ ("api_token", Py.JStr "YOUR_API_TOKEN_HERE");
                 ("account_id", Py.JStr "YOUR_ACCOUNT_ID_HERE");
                 ("database_id", Py.JStr "YOUR_DATABASE_ID_HERE") ]);
      ("camera",
       Py.JObj [ ("index", Py.JInt 0); ("interval", Py.JInt 30) ]);
      ("logging",
       Py.JObj [ ("level", Py.JStr "INFO");
                 ("file", Py.JStr "busyness_monitor.log") ]) ].

Section Programs.
Variable env : SetupEnv.

Local Open Scope script_scope.

Definition Step (A : Type) : Type := Script.Prog (X := Machine) A.

Definition act (a : action) : Step unit :=
  fun m out =>
    (Some (Ok tt),
     {| config_json := config_json m; actions := (actions m ++ [a])%list |},
     out).

(** A call to the outside that may raise. *)
Definition call {A : Type} (a : action) (r : result A) : Step A :=
  act a ;;; fun m out => (Some r, m, out).

Definition path_exists : Step bool :=
  fun m out =>
    (Some (Ok match config_json m with Some _ => true | None => false end),
     m, out).

(** [with open(config_path, 'w') as f: json.dump(v, f, indent=2)] *)
Definition dump_config (v : Py.json) (indent : Z) : Step unit :=
  call WriteConfig (write_out env) ;;;
  fun m out =>
    (Some (Ok tt),
     {| config_json := Some (Dump v indent); actions := actions m |}, out).

Definition check_python_version : Step bool :=
  too_old <- Script.eval
               (tuple_lt (as_tuple (version_info env)) [INum 3; INum 7]) ;;
  if too_old then
    Script.print "❌ Python 3.7 or higher is required" [] ;;;
    Script.ret false
  else
    Script.print
      "✅ Python {sys.version_info.major}.{sys.version_info.minor} detected"
      [Script.Val (VInt (major (version_info env)));
       Script.Val (VInt (minor (version_info env)))] ;;;
    Script.ret true.

(** [check_call] raises [CalledProcessError] exactly on a return code that
    is not zero; the handler catches nothing else. *)
Definition install_dependencies : Step bool :=
  Script.print "📦 Installing dependencies..." [] ;;;
  returncode <- call PipInstall (pip env) ;;
  if returncode =? 0 then
    Script.print "✅ Dependencies installed successfully" [] ;;;
    Script.ret true
  else
    Script.print "❌ Failed to install dependencies: {e}"
      [Script.Val (VInt returncode)] ;;;
    Script.ret false.

Definition check_camera_access : Step bool :=
  Script.print "📷 Checking camera access..." [] ;;;
  let failed msg :=
    Script.print "❌ Camera check failed: {e}" [Script.Val (VStr msg)] ;;;
    Script.ret false in
  match cv2_import env with
  | ImportError _ =>
      Script.print
        "❌ OpenCV not installed. Run 'pip install -r requirements.txt' first."
        [] ;;;
      Script.ret false
  | ImportFails e => Script.try_except (Script.raise e) failed
  | Imported =>
      Script.try_except
        (opened <- call OpenCamera (video_capture env) ;;
         if negb opened then
           Script.print
             "❌ Camera not accessible. Please check camera permissions." [] ;;;
           Script.ret false
         else
           act ReleaseCamera ;;;
           Script.print "✅ Camera is accessible" [] ;;;
           Script.ret true)
        failed
  end.

Definition create_config_template : Step string :=
  let config_path := "config.json" in
  found <- path_exists ;;
  (if negb found then
     dump_config config_template 2 ;;;
     Script.print "✅ Configuration template created: {config_path}"
       [Script.Val (VStr config_path)] ;;;
     Script.print
       "   Please edit the configuration file with your Cloudflare credentials"
       []
   else
     Script.print "✅ Configuration file already exists: {config_path}"
       [Script.Val (VStr config_path)]) ;;;
  Script.ret config_path.

Definition run_tests : Step bool :=
  Script.print "🧪 Running system tests..." [] ;;;
  act RunTestScript ;;;
  match test_run env with
  | Completed returncode stderr =>
      if returncode =? 0 then
        Script.print "✅ All tests passed" [] ;;;
        Script.ret true
      else
        Script.print "❌ Tests failed: {result.stderr}"
          [Script.Val (VStr stderr)] ;;;
        Script.ret false
  | TimeoutExpired =>
      Script.print "❌ Tests timed out" [] ;;;
      Script.ret false
  | RunFails e =>
      Script.try_except (Script.raise e)
        (fun msg =>
           Script.print "❌ Error running tests: {e}" [Script.Val (VStr msg)] ;;;
           Script.ret false)
  end.

Definition show_next_steps : Step unit :=
  Script.print ("\n" +:+ TestSystem.rule 60) [] ;;;
  Script.print
    "🎉 Setup Complete! Next Steps:" [] ;;;
  Script.print (TestSystem.rule 60) [] ;;;
  Script.print "" [] ;;;
  Script.print
    "1. 📝 Edit config.json with your Cloudflare credentials:" [] ;;;
  Script.print
    "   - Get your API token from: https://dash.cloudflare.com/profile/api-tokens" [] ;;;
  Script.print
    "   - Get your Account ID from: https://dash.cloudflare.com/" [] ;;;
  Script.print
    "   - Your Database ID is: c934d24d-3b7e-49b8-ba4d-b2c696aa8958" [] ;;;
  Script.print "" [] ;;;
  Script.print
    "2. 🚀 Deploy your Cloudflare Worker:" [] ;;;
  Script.print
    "   cd ../beezee" [] ;;;
  Script.print
    "   npx wrangler deploy" [] ;;;
  Script.print "" [] ;;;
  Script.print
    "3. 🧪 Test the system:" [] ;;;
  Script.print
    "   python test_system.py" [] ;;;
  Script.print "" [] ;;;
  Script.print
    "4. 📊 Run the monitor:" [] ;;;
  Script.print
    "   # Test run (once):" [] ;;;
  Script.print
    "   python main.py --api-token YOUR_TOKEN --account-id YOUR_ACCOUNT_ID --database-id c934d24d-3b7e-49b8-ba4d-b2c696aa8958 --once" [] ;;;
  Script.print "" [] ;;;
  Script.print
    "   # Continuous monitoring:" [] ;;;
  Script.print
    "   python main.py --api-token YOUR_TOKEN --account-id YOUR_ACCOUNT_ID --database-id c934d24d-3b7e-49b8-ba4d-b2c696aa8958" [] ;;;
  Script.print "" [] ;;;
  Script.print
    "5. 🌐 View your data:" [] ;;;
  Script.print
    "   Visit your deployed worker URL + /busyness" [] ;;;
  Script.print
    "   Example: https://your-worker.your-subdomain.workers.dev/busyness" [] ;;;
  Script.print "" [].

(** The [for] loop of [main]: [false] is its [return 1]. *)
Fixpoint run_steps (steps : list (string * Step bool)) : Step bool :=
  match steps with
  | [] => Script.ret true
  | (step_name, step_func) :: rest =>
      Script.print "\n🔍 {step_name}..." [Script.Val (VStr step_name)] ;;;
      ok <- step_func ;;
      if negb ok then
        Script.print "❌ Setup failed at: {step_name}"
          [Script.Val (VStr step_name)] ;;;
        Script.ret false
      else run_steps rest
  end.

(** The steps, each with the truth value of what it returns: the path
    returned by [create_config_template] is true when it is not empty. *)
Definition steps : list (string * Step bool) :=
  [ ("Checking Python version", check_python_version);
    ("Installing dependencies", install_dependencies);
    ("Checking camera access", check_camera_access);
    ("Creating configuration template",
     config_path <- create_config_template ;;
     Script.ret (negb (String.eqb config_path "")));
    ("Running system tests", run_tests) ].

Definition main : Step Z :=
  Script.print "🚀 MacBook Camera Busyness Monitor Setup" [] ;;;
  Script.print (TestSystem.rule 50) [] ;;;
  completed <- run_steps steps ;;
  if completed then
    show_next_steps ;;;
    Script.ret 0
  else Script.ret 1.

End Programs.

(** A version that the check accepts. *)
Definition supported (v : version) : bool :=
  (3 <? major v) || ((major v =? 3) && (7 <=? minor v)).

(** How far the answers of the machine let the steps go: the version is
    accepted; then pip succeeds; then OpenCV is there; then the camera
    opens; then [config.json] is there or can be written; then the test
    script exits with 0. *)
Definition python_ok (env : SetupEnv) : Prop :=
  supported (version_info env) = true.

Definition pip_ok (env : SetupEnv) : Prop :=
  python_ok env /\ pip env = Ok 0.

Definition camera_tried (env : SetupEnv) : Prop :=
  pip_ok env /\ cv2_import env = Imported.

Definition camera_ok (env : SetupEnv) : Prop :=
  camera_tried env /\ video_capture env = Ok true.

Definition config_ok (env : SetupEnv) (m : Machine) : Prop :=
  camera_ok env /\ (config_json m = None -> write_out env = Ok tt).

Definition tests_ok (env : SetupEnv) (m : Machine) : Prop :=
  config_ok env m /\ exists stderr, test_run env = Completed 0 stderr.

(** What a run that passes every step does, in order, on a machine with
    or without a [config.json]. *)
Definition schedule (config : option content) : list action :=
  [PipInstall; OpenCamera; ReleaseCamera]
  ++ match config with None => [WriteConfig] | Some _ => [] end
  ++ [RunTestScript].

End Setup.

(** ** The table of init_database.py and the rows of main.py *)

Module Schema.

Fixpoint strip_prefix (pat s : string) : option string :=
  match pat, s with
  | EmptyString, _ => Some s
  | String a pat', String b s' =>
      if Ascii.eqb a b then strip_prefix pat' s' else None
  | String _ _, EmptyString => None
  end.

(** The text after the first occurrence of [pat]. *)
Fixpoint after_text (pat s : string) : option string :=
  match strip_prefix pat s with
  | Some rest => Some rest
  | None =>
      match s with
      | EmptyString => None
      | String _ s' => after_text pat s'
      end
  end.

Definition digit (c : ascii) : option Z :=
  let n := Z.of_nat (nat_of_ascii c) in
  if (48 <=? n) && (n <=? 57) then Some (n - 48) else None.

Fixpoint number_from (acc : Z) (s : string) : Z :=
  match s with
  | EmptyString => acc
  | String c s' =>
      match digit c with
      | Some d => number_from (10 * acc + d) s'
      | None => acc
      end
  end.

(** The decimal number at the head of [s]. *)
Definition number (s : string) : option Z :=
  match s with
  | EmptyString => None
  | String c _ =>
      match digit c with
      | Some _ => Some (number_from 0 s)
      | None => None
      end
  end.

(** The bounds of [CHECK (column >= lo AND column <= hi)]. *)
Definition check_bounds (table column : string) : option (Z * Z) :=
  match after_text ("CHECK (" +:+ column +:+ " >= ") table with
  | Some rest =>
      match number rest, after_text (" AND " +:+ column +:+ " <= ") rest with
      | Some lo, Some rest' =>
          match number rest' with
          | Some hi => Some (lo, hi)
          | None => None
          end
      | _, _ => None
      end
  | None => None
  end.

Fixpoint skip_space (s : string) : string :=
  match s with
  | EmptyString => EmptyString
  | String c s' => if Ascii.is_space c then skip_space s' else s
  end.

Fixpoint word (s : string) : string :=
  match s with
  | EmptyString => EmptyString
  | String c s' => if Ascii.is_space c then EmptyString else String c (word s')
  end.

(** The column definitions of a [CREATE TABLE] statement: the pieces between
    the commas after the first parenthesis. *)
Definition column_definitions (table : string) : list string :=
  map skip_space (Sql.split "," (Sql.after "(" table))%char.

Definition table_columns (table : string) : list string :=
  map word (column_definitions table).

Definition mentions (pat s : string) : bool :=
  match after_text pat s with Some _ => true | None => false end.

(** The columns declared [NOT NULL]. *)
Definition required_columns (table : string) : list string :=
  map word (List.filter (mentions "NOT NULL") (column_definitions table)).

Fixpoint assoc (key : string) (l : list (string * pyval)) : option pyval :=
  match l with
  | [] => None
  | (k, v) :: rest => if String.eqb k key then Some v else assoc key rest
  end.

(** The value that a request binds to a column of its INSERT statement. *)
Definition bound (req : request) (column : string) : option pyval :=
  assoc column (combine (Sql.insert_columns (sql req)) (params req)).

(** A request inserts a row that the table takes: it names columns of the
    table only, with one parameter each; it gives a value other than [None]
    to every [NOT NULL] column; and its score is an integer within the bounds
    of the [CHECK] clause. *)
Definition fits (table : string) (req : request) : bool :=
  (length (Sql.insert_columns (sql req)) =? length (params req))%nat
  && forallb (fun c => existsb (String.eqb c) (table_columns table))
       (Sql.insert_columns (sql req))
  && forallb (fun c => match bound req c with
                       | Some VNone | None => false
                       | Some _ => true
                       end)
       (required_columns table)
  && match check_bounds table "score", bound req "score" with
     | Some (lo, hi), Some (VInt s) => (lo <=? s) && (s <=? hi)
     | _, _ => false
     end.

Definition fitting (table : string) (ev : event) : bool :=
  match ev with
  | Post req => fits table req
  | _ => true
  end.

End Schema.

(** ** Concrete runs of the scripts *)

Module Cases.

(** The camera works in the first test and is gone in the last one. *)
Definition unplugged : TestSystem.TestEnv :=
  {| TestSystem.capture_open := Ok true;
     TestSystem.capture_read := Ok (true, Some Sample.checker_frame);
     TestSystem.test_image := Sample.checker_frame;
     TestSystem.cycle_open := Ok false;
     TestSystem.cycle_read := Ok (false, None);
     TestSystem.strftime := "2024-05-01 12:00:00" |}.

Definition config : Py.json :=
  Py.JObj
    [ ("cloudflare",
       Py.JObj [ ("api_token", Py.JStr "token");
                 ("account_id", Py.JStr "account");
                 ("database_id", Py.JStr "db") ]) ].

Definition creds : Py.json * Py.json * Py.json :=
  (Py.JStr "token", Py.JStr "account", Py.JStr "db").

Definition reply_ok (tables : list Py.json) : InitDatabase.reply :=
  {| InitDatabase.status := 200;
     InitDatabase.reply_text := "{}";
     InitDatabase.reply_json :=
       Ret (Py.JObj [ ("success", Py.JBool true);
                      ("result", Py.JList tables) ]) |}.

Definition reply_forbidden : InitDatabase.reply :=
  {| InitDatabase.status := 403;
     InitDatabase.reply_text := "Authentication error";
     InitDatabase.reply_json := Err "Expecting value" |}.

(** A database without tables that accepts every statement but creates
    nothing. *)
Definition idle_database : InitDatabase.DbEnv :=
  {| InitDatabase.config_file := InitDatabase.Loaded config;
     InitDatabase.answer _ _ := Ok (reply_ok []) |}.

(** A database that accepts the probe and the table, and refuses the first
    index. *)
Definition no_index_database : InitDatabase.DbEnv :=
  {| InitDatabase.config_file := InitDatabase.Loaded config;
     InitDatabase.answer n _ :=
       match n with
       | 2%nat => Ok reply_forbidden
       | _ => Ok (reply_ok [])
       end |}.

(** Python 3.6 on a machine where everything else would work. *)
Definition old_python : Setup.SetupEnv :=
  {| Setup.version_info :=
       {| Setup.major := 3; Setup.minor := 6; Setup.micro := 15;
          Setup.releaselevel := "final"; Setup.serial := 0 |};
     Setup.pip := Ok 0;
     Setup.cv2_import := Setup.Imported;
     Setup.video_capture := Ok true;
     Setup.write_out := Ok tt;
     Setup.test_run := Setup.Completed 0 "" |}.

(** Python 3.11 on a machine where every step passes. *)
Definition ready : Setup.SetupEnv :=
  {| Setup.version_info :=
       {| Setup.major := 3; Setup.minor := 11; Setup.micro := 4;
          Setup.releaselevel := "final"; Setup.serial := 0 |};
     Setup.pip := Ok 0;
     Setup.cv2_import := Setup.Imported;
     Setup.video_capture := Ok true;
     Setup.write_out := Ok tt;
     Setup.test_run := Setup.Completed 0 "" |}.

Definition fresh_machine : Setup.Machine :=
  {| Setup.config_json := None; Setup.actions := [] |}.

Definition configured_machine : Setup.Machine :=
  {| Setup.config_json := Some (Setup.Text "{}"); Setup.actions := [] |}.

End Cases.

(** * Properties of the evaluator *)

Import BusynessEvaluator.

Lemma obind_ret_inv {A B : Type} (o : outcome A) (k : A -> outcome B) (b : B) :
  obind o k = Ret b -> exists a, o = Ret a /\ k a = Ret b.
Proof. destruct o as [a | msg]; simpl; [eauto | discriminate]. Qed.

(** Peels the successful steps off a chain of binds that returned. *)
Ltac peel H :=
  repeat match type of H with
         | obind _ _ = Ret _ =>
             let a := fresh "a" in
             let Ha := fresh "Ha" in
             apply obind_ret_inv in H; destruct H as (a & Ha & H)
         end.

Section EvaluatorFacts.
Context `{V : Vision}.

(** The clamp bounds the score whatever the combined value is; a value that
    is not finite makes [int] raise. *)
Lemma busyness_score_range (combined : pyfloat) (n : Z) :
  busyness_score combined = Ret n -> 1 <= n <= 10.
Proof.
  unfold busyness_score. intros H. peel H.
  injection H as <-. lia.
Qed.

Lemma busyness_score_not_finite (combined : pyfloat) :
  (forall q, combined <> Fin q) -> exists msg, busyness_score combined = Err msg.
Proof.
  intros Hnf. destruct combined as [q | | |]; [destruct (Hnf q); reflexivity | | |];
    simpl; eauto.
Qed.

Lemma score_from_range (image gray mask : ndarray) (score : Z) (metadata : dict) :
  score_from image gray mask = Ret (score, metadata) -> 1 <= score <= 10.
Proof.
  unfold score_from. intros H. peel H.
  injection H as <- _. eauto using busyness_score_range.
Qed.

Lemma try_score_range (bg : bg_model) (image : ndarray) (score : Z)
    (metadata : dict) :
  fst (try_score bg image) = Ret (score, metadata) -> 1 <= score <= 10.
Proof.
  unfold try_score.
  destruct (cvtColor_BGR2GRAY image) as [gray | msg]; [| discriminate].
  destruct (bg_apply bg image) as [mask bg']. simpl. intros H. peel H.
  eauto using score_from_range.
Qed.

(** The two exits of [calculate_busyness_score]. *)
Lemma calculate_scored (bg : bg_model) (image : ndarray) (r : Z * dict) :
  fst (try_score bg image) = Ret r ->
  calculate_busyness_score bg image = (r, snd (try_score bg image), []).
Proof.
  unfold calculate_busyness_score.
  destruct (try_score bg image) as [[r' | msg] bg']; simpl; congruence.
Qed.

Lemma calculate_degraded (bg : bg_model) (image : ndarray) (msg : string) :
  fst (try_score bg image) = Err msg ->
  calculate_busyness_score bg image =
    ((fallback_score, error_metadata msg), snd (try_score bg image),
     [Log ERROR "Error calculating busyness score: {e}" [VStr msg]]).
Proof.
  unfold calculate_busyness_score.
  destruct (try_score bg image) as [[r' | msg'] bg']; simpl; congruence.
Qed.

(** C1.  Whatever the frame and the background model, and whatever the
    vision library computes from them, [calculate_busyness_score] returns a
    score between 1 and 10. *)
Theorem score_between_1_and_10 (bg : bg_model) (image : ndarray) :
  let '(score, _, _, _) := calculate_busyness_score bg image in
  1 <= score <= 10.
Proof.
  destruct (fst (try_score bg image)) as [[score metadata] | msg] eqn:E.
  - rewrite (calculate_scored _ _ _ E). eauto using try_score_range.
  - rewrite (calculate_degraded _ _ _ E). unfold fallback_score. lia.
Qed.

(** C3.  When a step of the scoring computation raises, with message [msg],
    [calculate_busyness_score] still returns: the score is the fallback 5
    and the metadata is the record with the single field ['error'],
    holding [msg]. *)
Theorem fallback_when_scoring_raises (bg : bg_model) (image : ndarray)
    (msg : string) :
  fst (try_score bg image) = Err msg ->
  let '(score, metadata, _, _) := calculate_busyness_score bg image in
  score = 5 /\
  metadata !! "error" = Some (VStr msg) /\
  metadata = {[ "error" := VStr msg ]}.
Proof.
  intros E. rewrite (calculate_degraded _ _ _ E).
  unfold fallback_score, error_metadata.
  split; [reflexivity |]. split; [apply lookup_singleton_eq | reflexivity].
Qed.

End EvaluatorFacts.

Lemma fallback_when_scoring_raises_witness :
  fst (try_score (V := Sample.blind_vision) O Sample.empty_frame)
    = Err "(-215:Assertion failed) !_src.empty() in function 'cvtColor'" /\
  let '(score, metadata, _, _) :=
    calculate_busyness_score (V := Sample.blind_vision) O Sample.empty_frame in
  score = 5 /\
  metadata !! "error"
    = Some (VStr "(-215:Assertion failed) !_src.empty() in function 'cvtColor'") /\
  metadata
    = {[ "error" :=
           VStr "(-215:Assertion failed) !_src.empty() in function 'cvtColor'" ]}.
Proof.
  split; [reflexivity |].
  apply (fallback_when_scoring_raises (V := Sample.blind_vision) O
           Sample.empty_frame).
  reflexivity.
Defined.

Section MetadataFacts.
Context `{V : Vision}.

Lemma metadata_of_lookup (m e v t : pyfloat) (n : Z) (c : pyfloat) :
  let md := metadata_of m e v t n c in
  md !! "motion_ratio" = Some (VFloat m) /\
  md !! "edge_ratio" = Some (VFloat e) /\
  md !! "color_variance" = Some (VFloat v) /\
  md !! "texture_variance" = Some (VFloat t) /\
  md !! "contour_count" = Some (VInt n) /\
  md !! "combined_raw" = Some (VFloat c) /\
  md !! "error" = None.
Proof. repeat split. Qed.

Lemma metadata_of_carries (m e v t : pyfloat) (n : Z) (c : pyfloat) :
  Spec.carries_signals (metadata_of m e v t n c).
Proof.
  unfold Spec.carries_signals, Spec.signal_fields.
  repeat constructor; eexists; reflexivity.
Qed.

Lemma error_metadata_lacks_signals (msg : string) :
  ~ Spec.carries_signals (error_metadata msg).
Proof.
  unfold Spec.carries_signals, Spec.signal_fields. intros H.
  apply Forall_cons_1 in H as [[v Hv] _].
  unfold error_metadata in Hv. rewrite lookup_singleton_ne in Hv; discriminate.
Qed.

(** C8, amended.  When the frame is scored (no step raises), the metadata
    returned holds the five raw values, as the library computed them and
    before any normalisation, and the combined score of their normalised
    forms.  The metadata of a degraded result holds none of them. *)
Theorem scored_metadata_carries_raw_signals (bg : bg_model) (image : ndarray)
    (score : Z) (metadata : dict) :
  fst (try_score bg image) = Ret (score, metadata) ->
  fst (fst (calculate_busyness_score bg image)) = (score, metadata) /\
  Spec.carries_signals metadata /\
  (exists gray motion_mask edges contours motion_pixels edge_pixels h w
          color_variance laplacian_var contour_count,
     cvtColor_BGR2GRAY image = Ret gray /\
     fst (bg_apply bg image) = Ret motion_mask /\
     np_sum_gt0 motion_mask = Ret motion_pixels /\
     tuple_get (shape image) 0 = Ret h /\
     tuple_get (shape image) 1 = Ret w /\
     Canny gray 50 150 = Ret edges /\
     np_sum_gt0 edges = Ret edge_pixels /\
     np_var image = Ret color_variance /\
     Laplacian_var gray = Ret laplacian_var /\
     findContours edges = Ret contours /\
     count_large_contours contours = Ret contour_count /\
     metadata !! "motion_ratio"
       = Some (VFloat (np_true_divide motion_pixels (h * w))) /\
     metadata !! "edge_ratio"
       = Some (VFloat (np_true_divide edge_pixels (h * w))) /\
     metadata !! "color_variance" = Some (VFloat color_variance) /\
     metadata !! "texture_variance" = Some (VFloat laplacian_var) /\
     metadata !! "contour_count" = Some (VInt contour_count) /\
     metadata !! "combined_raw"
       = Some (VFloat
           (combined_score
              (np_true_divide motion_pixels (h * w))
              (np_true_divide edge_pixels (h * w))
              (py_min (fdiv_const color_variance 10000) (Fin 1))
              (py_min (fdiv_const laplacian_var 1000) (Fin 1))
              (py_min (int_div_const contour_count 20) (Fin 1))))) /\
  (forall msg, ~ Spec.carries_signals (error_metadata msg)).
Proof.
  intros E. split; [| split; [| split]].
  - rewrite (calculate_scored _ _ _ E). reflexivity.
  - revert E. unfold try_score.
    destruct (cvtColor_BGR2GRAY image) as [gray | msg]; [| discriminate].
    destruct (bg_apply bg image) as [mask bg']. simpl. intros H. peel H.
    unfold score_from in H. peel H. injection H as _ <-.
    apply metadata_of_carries.
  - revert E. unfold try_score.
    destruct (cvtColor_BGR2GRAY image) as [gray | msg] eqn:Eg; [| discriminate].
    destruct (bg_apply bg image) as [mask bg'] eqn:Eb. simpl. intros H.
    apply obind_ret_inv in H as (motion_mask & -> & H). unfold score_from in H.
    apply obind_ret_inv in H as (motion_pixels & Hmp & H).
    apply obind_ret_inv in H as (h & Hh & H).
    apply obind_ret_inv in H as (w & Hw & H).
    apply obind_ret_inv in H as (edges & Hed & H).
    apply obind_ret_inv in H as (edge_pixels & Hep & H).
    apply obind_ret_inv in H as (color_variance & Hcv & H).
    apply obind_ret_inv in H as (laplacian_var & Hlv & H).
    apply obind_ret_inv in H as (contours & Hcs & H).
    apply obind_ret_inv in H as (contour_count & Hcc & H).
    apply obind_ret_inv in H as (score' & _ & H).
    injection H as _ <-.
    match goal with
    | |- context [metadata_of ?m ?e ?v ?t ?n ?c] =>
        destruct (metadata_of_lookup m e v t n c)
          as (L1 & L2 & L3 & L4 & L5 & L6 & _)
    end.
    exists gray, motion_mask, edges, contours, motion_pixels, edge_pixels, h, w,
      color_variance, laplacian_var, contour_count.
    repeat match goal with |- _ /\ _ => split end; assumption || reflexivity.
  - apply error_metadata_lacks_signals.
Qed.

End MetadataFacts.

Lemma scored_metadata_carries_raw_signals_witness :
  let r := fst (fst (calculate_busyness_score (V := Sample.blind_vision) O
                       Sample.checker_frame)) in
  fst r = 2 /\ Spec.carries_signals (snd r).
Proof.
  split; [reflexivity |].
  apply (scored_metadata_carries_raw_signals (V := Sample.blind_vision) O
           Sample.checker_frame 2
           (snd (fst (fst (calculate_busyness_score (V := Sample.blind_vision) O
                             Sample.checker_frame))))).
  vm_compute. reflexivity.
Defined.

(** C8, as stated, fails on the degraded path: on a frame without pixels the
    metadata returned carries no signal field. *)
Lemma degraded_metadata_lacks_signals :
  let '(_, metadata, _, _) :=
    calculate_busyness_score (V := Sample.blind_vision) O Sample.empty_frame in
  ~ Spec.carries_signals metadata.
Proof.
  change (~ Spec.carries_signals
            (error_metadata
               "(-215:Assertion failed) !_src.empty() in function 'cvtColor'")).
  apply error_metadata_lacks_signals.
Qed.

(** * The weights and the final score *)

Section ScoreFacts.
Local Open Scope Q_scope.

Lemma weight_values :
  weight "motion" = Fin (3 # 10) /\
  weight "edges" = Fin (2 # 10) /\
  weight "variance" = Fin (2 # 10) /\
  weight "texture" = Fin (15 # 100) /\
  weight "contours" = Fin (15 # 100).
Proof. repeat split. Qed.

Lemma combined_score_finite (m e v t c : Q) :
  combined_score (Fin m) (Fin e) (Fin v) (Fin t) (Fin c)
  = Fin ((3 # 10) * m + (2 # 10) * e + (2 # 10) * v + (15 # 100) * t
         + (15 # 100) * c).
Proof. reflexivity. Qed.

(** C9.  The weights are the constants 0.30, 0.20, 0.20, 0.15 and 0.15; they
    add up to 1; and the weighted sum of five values in [0,1] is a finite
    value in [0,1]. *)
Theorem weighted_sum_in_unit_interval (m e v t c : Q) :
  0 <= m <= 1 -> 0 <= e <= 1 -> 0 <= v <= 1 -> 0 <= t <= 1 -> 0 <= c <= 1 ->
  (weight "motion" = Fin (3 # 10) /\
   weight "edges" = Fin (2 # 10) /\
   weight "variance" = Fin (2 # 10) /\
   weight "texture" = Fin (15 # 100) /\
   weight "contours" = Fin (15 # 100)) /\
  map fst weights = ["motion"; "edges"; "variance"; "texture"; "contours"]%string /\
  fold_right Qplus 0 (map snd weights) == 1 /\
  exists x, combined_score (Fin m) (Fin e) (Fin v) (Fin t) (Fin c) = Fin x /\
            0 <= x <= 1.
Proof.
  intros Hm He Hv Ht Hc. split; [| split; [| split]].
  - repeat split.
  - reflexivity.
  - reflexivity.
  - rewrite combined_score_finite. eexists. split; [reflexivity |]. lra.
Qed.

Lemma Qfloor_unique (x : Q) (z : Z) :
  inject_Z z <= x -> x < inject_Z (z + 1) -> Qfloor x = z.
Proof.
  intros Hlo Hhi.
  pose proof (Qfloor_le x) as Hf. pose proof (Qlt_floor x) as Hg.
  assert (H1 : inject_Z z < inject_Z (Qfloor x + 1)) by (eapply Qle_lt_trans; eassumption).
  assert (H2 : inject_Z (Qfloor x) < inject_Z (z + 1)) by (eapply Qle_lt_trans; eassumption).
  rewrite <- Zlt_Qlt in H1, H2. lia.
Qed.

Lemma Qfloor_succ (x : Q) : Qfloor (x + 1) = (Qfloor x + 1)%Z.
Proof.
  apply Qfloor_unique.
  - rewrite inject_Z_plus. pose proof (Qfloor_le x).
    change (inject_Z 1) with 1. lra.
  - rewrite !inject_Z_plus. pose proof (Qlt_floor x) as H.
    rewrite inject_Z_plus in H. change (inject_Z 1) with 1 in *. lra.
Qed.

Lemma Qtrunc_floor (q : Q) : 0 <= q -> Qtrunc q = Qfloor q.
Proof.
  destruct q as [n d]. unfold Qle, Qtrunc, Qfloor. simpl. intros H.
  apply Z.quot_div_nonneg; lia.
Qed.

Lemma Qfloor_nine_times (c : Q) :
  0 <= c <= 1 -> (0 <= Qfloor (c * 9) <= 9)%Z.
Proof.
  intros [H0 H1]. split.
  - apply (Qfloor_resp_le 0 (c * 9)). lra.
  - apply (Qfloor_resp_le (c * 9) 9). lra.
Qed.

End ScoreFacts.

(** * The score on binary64 numbers *)

Section Binary64Facts.
Local Open Scope Q_scope.

Lemma Qtrunc_inject (z : Z) : Qtrunc (inject_Z z) = z.
Proof. unfold Qtrunc. cbn. apply Z.quot_1_r. Qed.

Lemma Qtrunc_opp (q : Q) : Qtrunc (- q) = (- Qtrunc q)%Z.
Proof. destruct q as [n d]. unfold Qtrunc. cbn. apply Z.quot_opp_l. lia. Qed.

Lemma py_int_truncates (x : float) (q : Q) :
  Binary64.value x = Some q -> Binary64.py_int x = Ret (Qtrunc q).
Proof.
  unfold Binary64.value, Binary64.py_int.
  destruct (FloatOps.Prim2SF x) as [s | s | | s m e]; try discriminate.
  - intros [= <-]. reflexivity.
  - intros [= <-]. f_equal.
    assert (Ha : Z.shiftl (Zpos m) e
                 = Qtrunc (if 0 <=? e then inject_Z (Zpos m * 2 ^ e)
                           else (Zpos m # 2 ^ Z.to_pos (- e))%Q)).
    { destruct (Z.leb_spec 0 e) as [He | He].
      - rewrite Qtrunc_inject. apply Z.shiftl_mul_pow2. exact He.
      - unfold Qtrunc. cbn [Qnum Qden].
        rewrite Z.quot_div_nonneg by lia.
        rewrite Pos2Z.inj_pow, Z2Pos.id by lia.
        rewrite (Z.shiftl_div_pow2 (Zpos m) e) by lia. reflexivity. }
    cbv zeta. destruct s; [rewrite Qtrunc_opp |]; rewrite Ha; reflexivity.
Qed.

(** Below zero the truncation is the ceiling. *)
Lemma Qtrunc_ceiling (q : Q) : q < 0 -> Qtrunc q = Qceiling q.
Proof.
  intros H. unfold Qceiling.
  rewrite <- (Qtrunc_floor (- q)) by lra.
  rewrite Qtrunc_opp. lia.
Qed.

(** The score of a combined value whose [combined_score * 9 + 1] is a
    finite binary64 number of value [q]. *)
Lemma binary64_score_value (c : float) (q : Q) :
  Binary64.value (c * 9 + 1)%float = Some q ->
  Binary64.busyness_score c = Ret (Spec.clamp 1 10 (Qtrunc q)).
Proof.
  intros H. unfold Binary64.busyness_score.
  rewrite (py_int_truncates _ _ H). reflexivity.
Qed.

Lemma binary64_score_raises (c : float) :
  Binary64.value (c * 9 + 1)%float = None ->
  exists msg, Binary64.busyness_score c = Err msg.
Proof.
  unfold Binary64.value, Binary64.busyness_score, Binary64.py_int.
  destruct (FloatOps.Prim2SF (c * 9 + 1)%float) as [s | s | | s m e];
    try discriminate; intros _; eexists; reflexivity.
Qed.

(** C4, amended.  On binary64 numbers, as Python computes them, the score is
    [clamp(trunc(x), 1, 10)] for [x] the binary64 value of
    [combined_score * 9 + 1], its product and its sum each rounded: the
    conversion drops the fraction of [x], towards zero, it does not round to
    the nearest integer.  Where the product and the sum are exact for a
    combined value [c] in [0,1], the score is [floor(c*9) + 1].  When [x] is
    an infinity or NaN the conversion raises. *)
Theorem score_truncates_binary64 (c : float) :
  match Binary64.value (c * 9 + 1)%float with
  | Some q =>
      Binary64.busyness_score c = Ret (Spec.clamp 1 10 (Qtrunc q)) /\
      (0 <= q -> inject_Z (Qtrunc q) <= q < inject_Z (Qtrunc q) + 1) /\
      (q < 0 -> q <= inject_Z (Qtrunc q) < q + 1) /\
      (forall qc : Q,
         Binary64.value c = Some qc ->
         0 <= qc <= 1 ->
         q == qc * 9 + 1 ->
         Binary64.busyness_score c = Ret (Qfloor (qc * 9) + 1)%Z)
  | None => exists msg, Binary64.busyness_score c = Err msg
  end.
Proof.
  destruct (Binary64.value (c * 9 + 1)%float) as [q |] eqn:Hv;
    [| apply binary64_score_raises, Hv].
  pose proof (binary64_score_value c q Hv) as Hs.
  split; [exact Hs |]. split; [| split].
  - intros Hq. rewrite Qtrunc_floor by exact Hq.
    pose proof (Qfloor_le q) as H1. pose proof (Qlt_floor q) as H2.
    rewrite inject_Z_plus in H2. change (inject_Z 1) with 1 in H2.
    split; assumption.
  - intros Hq. rewrite Qtrunc_ceiling by exact Hq.
    pose proof (Qle_ceiling q) as H1. pose proof (Qceiling_lt q) as H2.
    unfold Z.sub in H2. rewrite inject_Z_plus in H2.
    rewrite inject_Z_opp in H2. change (inject_Z 1) with 1 in H2.
    split; [exact H1 | lra].
  - intros qc _ Hc Hexact. rewrite Hs. f_equal.
    pose proof (Qfloor_nine_times qc Hc) as Hf.
    rewrite Qtrunc_floor by lra.
    rewrite (Qfloor_comp _ _ Hexact), Qfloor_succ.
    unfold Spec.clamp. lia.
Qed.

End Binary64Facts.

(** The same sum in binary64, as Python computes it: the five literals,
    added in the order of the source, give exactly 1.0, and so does the
    weighted sum of five signals equal to 1.0. *)
#[local] Set Warnings "-inexact-float".
Example weights_sum_binary64 :
  PrimFloat.eqb (0.3 + 0.2 + 0.2 + 0.15 + 0.15)%float 1%float = true /\
  PrimFloat.eqb
    (0.3 * 1 + 0.2 * 1 + 0.2 * 1 + 0.15 * 1 + 0.15 * 1)%float 1%float = true.
Proof. split; reflexivity. Qed.

Lemma weighted_sum_in_unit_interval_witness :
  exists x, combined_score (Fin 1) (Fin (1 # 2)) (Fin 0) (Fin 1) (Fin (1 # 4))
            = Fin x /\ (0 <= x <= 1)%Q.
Proof.
  apply (weighted_sum_in_unit_interval 1 (1 # 2) 0 1 (1 # 4));
    split; discriminate.
Defined.

Lemma score_truncates_binary64_witness :
  Binary64.busyness_score 0.75%float = Ret 7.
Proof.
  pose proof (score_truncates_binary64 0.75%float) as H.
  vm_compute in H. destruct H as [H _]. exact H.
Defined.

(** The rounding of the product moves the score.  The binary64 number
    written [0.3333333333333333] is below 1/3, so that [floor(c*9) + 1] is 3,
    but its product with 9 rounds to 3.0 and the score is 4; in the same way
    the quotient [1 / 9] is below 1/9 and its score is 2. *)
Example rounding_moves_the_score :
  (exists q, Binary64.value 0.3333333333333333%float = Some q /\
             (q < 1 # 3)%Q /\ (Qfloor (q * 9) + 1 = 3)%Z) /\
  Binary64.busyness_score 0.3333333333333333%float = Ret 4 /\
  (exists q, Binary64.value (1 / 9)%float = Some q /\
             (q < 1 # 9)%Q /\ (Qfloor (q * 9) + 1 = 1)%Z) /\
  Binary64.busyness_score (1 / 9)%float = Ret 2.
Proof.
  split; [eexists; split; [reflexivity | split; reflexivity] |].
  split; [reflexivity |].
  split; [eexists; split; [reflexivity | split; reflexivity] |].
  reflexivity.
Qed.

(** C4, as stated, fails at [c = 0.75]: [c*9 = 6.75] rounds to 7, so the
    stated score is 8, while [int(7.75)] is 7.  The binary64 number [0.75] is
    exactly 3/4 and its product with 9 and the sum with 1 are exact, so that
    the score of the program is 7 as well. *)
Lemma score_is_not_rounded :
  (0 <= 3 # 4 <= 1)%Q /\
  busyness_score (Fin (3 # 4)) = Ret 7 /\
  Spec.score_by_rounding (3 # 4) = 8 /\
  busyness_score (Fin (3 # 4)) <> Ret (Spec.score_by_rounding (3 # 4)) /\
  (exists q, Binary64.value 0.75%float = Some q /\ (q == 3 # 4)%Q) /\
  Binary64.busyness_score 0.75%float = Ret 7 /\
  Binary64.busyness_score 0.75%float <> Ret (Spec.score_by_rounding (3 # 4)).
Proof.
  split; [split; discriminate |]. split; [reflexivity |].
  split; [reflexivity |]. split; [discriminate |].
  split; [eexists; split; reflexivity |].
  split; [reflexivity | discriminate].
Qed.

(** * Reasoning about computations *)

Section Rules.
Context `{V : Vision} `{J : Json}.

Lemma continues_refl (p : event -> bool) (w : World) : continues p w w.
Proof.
  repeat split. exists []. split; [symmetry; apply app_nil_r | reflexivity].
Qed.

Lemma continues_trans (p : event -> bool) (w1 w2 w3 : World) :
  continues p w1 w2 -> continues p w2 w3 -> continues p w1 w3.
Proof.
  intros (R1 & C1 & evs1 & T1 & F1) (R2 & C2 & evs2 & T2 & F2).
  repeat split; [congruence | congruence |].
  exists (evs1 ++ evs2)%list. split.
  - rewrite T2, T1. symmetry. apply app_assoc.
  - rewrite forallb_app, F1, F2. reflexivity.
Qed.

Lemma continues_weaken (p q : event -> bool) (w w' : World) :
  (forall ev, p ev = true -> q ev = true) ->
  continues p w w' -> continues q w w'.
Proof.
  intros Hpq (R1 & C1 & evs & T1 & F1). repeat split; try assumption.
  exists evs. split; [assumption |].
  rewrite forallb_forall in *. auto.
Qed.

Lemma finishes_of_returns {A : Type} (I : Prop) (o : option (result A)) :
  returns_or I o -> finishes I o.
Proof. destruct o as [[a | [msg |]] |]; simpl; tauto. Qed.

Lemma emits_weaken {A : Type} (p : event -> bool) (I : Prop) (c : M A) :
  emits p (returns_or I) c -> emits p (finishes I) c.
Proof. intros H w. destruct (H w). split; auto using finishes_of_returns. Qed.

Lemma emits_mono {A : Type} (p : event -> bool) (I I' : Prop) (c : M A) :
  (I -> I') -> emits p (returns_or I) c -> emits p (returns_or I') c.
Proof.
  intros HI H w. destruct (H w) as [HR HC]. split; [| exact HC].
  destruct (fst (c w)) as [[a | [msg |]] |]; simpl in *; tauto.
Qed.

Lemma emits_ret {A : Type} (p : event -> bool) (I : Prop) (a : A) :
  emits p (returns_or I) (ret a).
Proof. intros w. split; [exact Logic.I | apply continues_refl]. Qed.

Lemma emits_raise {A : Type} (p : event -> bool) (I : Prop) (msg : string) :
  emits p (finishes I) (raise (A := A) (Exception msg)).
Proof. intros w. split; [exact Logic.I | apply continues_refl]. Qed.

Lemma emits_emit (p : event -> bool) (I : Prop) (ev : event) :
  p ev = true -> emits p (returns_or I) (emit ev).
Proof.
  intros Hp w. split; [exact Logic.I |]. repeat split.
  exists [ev]. split; [reflexivity | simpl; rewrite Hp; reflexivity].
Qed.

Lemma emits_get_cap (p : event -> bool) (I : Prop) :
  emits p (returns_or I) get_cap.
Proof. intros w. split; [exact Logic.I | apply continues_refl]. Qed.

Lemma emits_call {A : Type} (p : event -> bool) (I : Prop) (r : result A) :
  (r = Raise KeyboardInterrupt -> I) -> emits p (finishes I) (call r).
Proof.
  intros HI w. split; [| apply continues_refl].
  destruct r as [a | [msg |]]; simpl; auto.
Qed.

Lemma emits_bind {A B : Type} (p : event -> bool) (I : Prop) (c : M A)
    (k : A -> M B) :
  emits p (finishes I) c -> (forall a, emits p (finishes I) (k a)) ->
  emits p (finishes I) (bind c k).
Proof.
  intros Hc Hk w. unfold bind. destruct (Hc w) as [HR HC].
  destruct (c w) as [[[a | e] |] w1]; simpl in *.
  - destruct (Hk a w1) as [HR' HC']. split; [exact HR' |].
    eapply continues_trans; eassumption.
  - split; assumption.
  - contradiction.
Qed.

Lemma emits_bind_ret {A B : Type} (p : event -> bool) (I : Prop) (c : M A)
    (k : A -> M B) :
  emits p (returns_or I) c -> (forall a, emits p (returns_or I) (k a)) ->
  emits p (returns_or I) (bind c k).
Proof.
  intros Hc Hk w. unfold bind. destruct (Hc w) as [HR HC].
  destruct (c w) as [[[a | [msg |]] |] w1]; simpl in *; try contradiction.
  - destruct (Hk a w1) as [HR' HC']. split; [exact HR' |].
    eapply continues_trans; eassumption.
  - split; assumption.
Qed.

Lemma emits_try_except {A : Type} (p : event -> bool) (I : Prop) (body : M A)
    (handler : string -> M A) :
  emits p (finishes I) body ->
  (forall msg, emits p (returns_or I) (handler msg)) ->
  emits p (returns_or I) (try_except body handler).
Proof.
  intros Hb Hh w. unfold try_except. destruct (Hb w) as [HR HC].
  destruct (body w) as [[[a | [msg |]] |] w1]; simpl in *; try contradiction.
  - split; [exact Logic.I | assumption].
  - destruct (Hh msg w1) as [HR' HC']. split; [exact HR' |].
    eapply continues_trans; eassumption.
  - split; assumption.
Qed.

Lemma emits_evaluate (I : Prop) (image : ndarray) :
  emits Trace.inner (returns_or I) (evaluate image).
Proof.
  intros w. unfold evaluate, calculate_busyness_score.
  destruct (try_score (bg w) image) as [[r | msg] bg']; simpl.
  - split; [exact Logic.I |]. repeat split. exists [].
    split; reflexivity.
  - split; [exact Logic.I |]. repeat split. eexists.
    split; reflexivity.
Qed.

End Rules.

(** Applies the rules along the structure of a computation. *)
Ltac emits_step :=
  lazymatch goal with
  | |- emits _ (returns_or _) (try_except _ _) => apply emits_try_except; [| intros ?]
  | |- emits _ (returns_or _) (ret _) => apply emits_ret
  | |- emits _ (returns_or _) (emit _) => apply emits_emit; reflexivity
  | |- emits _ (returns_or _) (log _ _ _) => apply emits_emit; reflexivity
  | |- emits _ (returns_or _) get_cap => apply emits_get_cap
  | |- emits _ (returns_or _) (evaluate _) => apply emits_evaluate
  | |- emits _ (returns_or _) (bind _ _) => apply emits_bind_ret; [| intros ?]
  | |- emits _ (finishes _) (bind _ _) => apply emits_bind; [| intros ?]
  | |- emits _ (finishes _) (raise (Exception _)) => apply emits_raise
  | |- emits _ (finishes _) (call _) => apply emits_call
  | |- emits _ (finishes _) (if ?b then _ else _) => destruct b
  | |- emits _ (returns_or _) (if ?b then _ else _) => destruct b
  | |- emits _ (finishes _) _ => apply emits_weaken
  end.

Section CycleFacts.
Context `{V : Vision} `{J : Json}.

Lemma capture_image_emits (ce : CycleEnv) :
  emits Trace.inner (returns_or (read_out ce = Raise KeyboardInterrupt))
    (capture_image ce).
Proof.
  unfold capture_image. emits_step; [| repeat emits_step].
  emits_step; [repeat emits_step |].
  destruct a as [[|] |]; [| repeat emits_step ..].
  emits_step; [repeat emits_step |].
  emits_step; [emits_step; tauto |].
  destruct a0 as [ok frame]. repeat emits_step.
Qed.

Lemma upload_emits (a : Args) (ce : CycleEnv) (score : Z) (metadata : dict)
    (timestamp notes camera_name : string) :
  emits Trace.inner
    (returns_or (exists req, post_out ce req = Raise KeyboardInterrupt))
    (upload_busyness_data a ce score metadata timestamp notes camera_name).
Proof.
  unfold upload_busyness_data. cbv zeta.
  emits_step; [| repeat emits_step].
  emits_step; [repeat emits_step |].
  emits_step; [emits_step; eauto |].
  emits_step; [| repeat emits_step].
  emits_step; [emits_step; destruct (json a1); discriminate |].
  repeat emits_step.
Qed.

Lemma capture_and_analyze_emits (ce : CycleEnv) :
  emits Trace.inner (returns_or (read_out ce = Raise KeyboardInterrupt))
    (capture_and_analyze ce).
Proof.
  unfold capture_and_analyze. emits_step; [| repeat emits_step].
  emits_step; [apply emits_weaken, capture_image_emits |].
  destruct a as [img |]; [| repeat emits_step].
  emits_step; [repeat emits_step |].
  destruct a as [score metadata]. repeat emits_step.
Qed.

End CycleFacts.

(** * Properties of the upload client *)

Section UploadFacts.
Context `{V : Vision} `{J : Json}.

Lemma try_except_emit {A : Type} (ev : event) (c : M A)
    (handler : string -> M A) (w : World) :
  try_except (bind (emit ev) (fun _ => c)) handler w
  = try_except c handler (snd (emit ev w)).
Proof. reflexivity. Qed.

Lemma upload_posts_once (a : Args) (ce : CycleEnv) (score : Z) (metadata : dict)
    (timestamp notes camera_name : string) (w : World) :
  exists rest,
    trace (snd (upload_busyness_data a ce score metadata timestamp notes
                  camera_name w))
    = (trace w
       ++ Post (upload_request a score metadata timestamp notes camera_name)
       :: rest)%list /\
    forallb (fun ev => negb (Trace.is_post ev)) rest = true.
Proof.
  unfold upload_busyness_data. cbv zeta. rewrite try_except_emit.
  match goal with
  | |- context [try_except ?c ?h ?w1] =>
      assert (H : emits (fun ev => negb (Trace.is_post ev))
                    (returns_or
                       (exists req, post_out ce req = Raise KeyboardInterrupt))
                    (try_except c h));
      [| destruct (H w1) as (_ & _ & _ & rest & T & F)]
  end.
  - emits_step; [| repeat emits_step].
    emits_step; [emits_step; eauto |].
    emits_step; [| repeat emits_step].
    emits_step; [emits_step; destruct (json a0); discriminate |].
    repeat emits_step.
  - exists rest. split; [| exact F]. rewrite T. simpl.
    rewrite <- app_assoc. reflexivity.
Qed.

(** C5.  The request posted for an observation binds eleven parameters, one
    for each placeholder and each column of the INSERT statement, and the
    parameter at each position is the observation's value for the column
    declared at that position: timestamp, score, the six metrics, the
    serialised metadata, notes and camera name. *)
Theorem payload_matches_columns (a : Args) (score : Z) (metadata : dict)
    (timestamp notes camera_name : string) :
  let req := upload_request a score metadata timestamp notes camera_name in
  length (params req) = 11%nat /\
  Sql.placeholders (sql req) = 11%nat /\
  Sql.insert_columns (sql req) = Spec.column_order /\
  params req
  = map (Spec.column_value score metadata timestamp notes camera_name)
      Spec.column_order /\
  params req
  = [ VStr timestamp; VInt score;
      dict_get metadata "motion_ratio" (VInt 0);
      dict_get metadata "edge_ratio" (VInt 0);
      dict_get metadata "color_variance" (VInt 0);
      dict_get metadata "texture_variance" (VInt 0);
      dict_get metadata "contour_count" (VInt 0);
      dict_get metadata "combined_raw" (VInt 0);
      VStr (json_dumps metadata); VStr notes; VStr camera_name ] /\
  forall ce w, exists rest,
    trace (snd (upload_busyness_data a ce score metadata timestamp notes
                  camera_name w))
    = (trace w ++ Post req :: rest)%list /\
    forallb (fun ev => negb (Trace.is_post ev)) rest = true.
Proof.
  cbv zeta. repeat split; try reflexivity.
  intros ce w. apply upload_posts_once.
Qed.

(** Metadata without the metric fields: every metric defaults to 0. *)
Lemma params_without_metrics (score : Z) (metadata : dict)
    (timestamp notes camera_name : string) :
  Forall (fun key => metadata !! key = None) Spec.signal_fields ->
  upload_params score metadata timestamp notes camera_name
  = [ VStr timestamp; VInt score; VInt 0; VInt 0; VInt 0; VInt 0; VInt 0;
      VInt 0; VStr (json_dumps metadata); VStr notes; VStr camera_name ].
Proof.
  unfold Spec.signal_fields. intros H.
  repeat match goal with
         | H : Forall _ (_ :: _) |- _ =>
             apply Forall_cons_1 in H; destruct H as [? H]
         end.
  unfold upload_params, dict_get.
  repeat match goal with E : _ !! _ = None |- _ => rewrite E; clear E end.
  reflexivity.
Qed.

(** C10.  When scoring raised, the parameters built for the degraded result
    are still eleven: the timestamp, the fallback score 5, a 0 for each of
    the six metrics, the serialised metadata, the notes and the camera
    name. *)
Theorem degraded_payload_defaults (bg : bg_model) (image : ndarray)
    (msg timestamp notes camera_name : string) :
  fst (try_score bg image) = Err msg ->
  let '(score, metadata, _, _) := calculate_busyness_score bg image in
  let ps := upload_params score metadata timestamp notes camera_name in
  length ps = 11%nat /\
  ps = [ VStr timestamp; VInt 5; VInt 0; VInt 0; VInt 0; VInt 0; VInt 0;
         VInt 0; VStr (json_dumps {[ "error" := VStr msg ]}); VStr notes;
         VStr camera_name ].
Proof.
  intros E. rewrite (calculate_degraded _ _ _ E). cbv zeta.
  split; [reflexivity |].
  unfold fallback_score, error_metadata. apply params_without_metrics.
  unfold Spec.signal_fields. repeat constructor.
Qed.

End UploadFacts.

Lemma degraded_payload_defaults_witness :
  let '(score, metadata, _, _) :=
    calculate_busyness_score (V := Sample.blind_vision) O Sample.empty_frame in
  upload_params (J := Sample.plain_json) score metadata
    "2024-05-01T12:00:00" "lobby" "MacBook Camera"
  = [ VStr "2024-05-01T12:00:00"; VInt 5; VInt 0; VInt 0; VInt 0; VInt 0;
      VInt 0; VInt 0; VStr "{}"; VStr "lobby"; VStr "MacBook Camera" ].
Proof.
  apply (degraded_payload_defaults (V := Sample.blind_vision)
           (J := Sample.plain_json) O Sample.empty_frame
           "(-215:Assertion failed) !_src.empty() in function 'cvtColor'"
           "2024-05-01T12:00:00" "lobby" "MacBook Camera").
  reflexivity.
Defined.

(** * Properties of the monitor *)

Section LoopFacts.
Context `{V : Vision} `{J : Json}.

Lemma inner_looping (ev : event) :
  Trace.inner ev = true -> Trace.looping ev = true.
Proof.
  unfold Trace.inner, Trace.looping.
  destruct (Trace.is_sleep ev), (Trace.is_release ev),
    (Trace.is_cleanup_done ev), (Trace.is_cycle_start ev);
    simpl; congruence.
Qed.

(** What follows the first log line of [run_once], and its handler. *)
Lemma cycle_steps_emit (a : Args) (ce : CycleEnv) :
  emits Trace.inner (returns_or (interrupted ce))
    (try_except
       (bind (capture_and_analyze ce) (fun data =>
          match data with
          | None =>
              bind (log ERROR "Failed to capture and analyze" [])
                (fun _ => ret false)
          | Some d =>
              bind (upload_data a ce d) (fun ok =>
                if ok then
                  bind (log INFO "Cycle completed successfully" [])
                    (fun _ => ret true)
                else
                  bind (log ERROR "Failed to upload data" [])
                    (fun _ => ret false))
          end))
       (fun msg =>
          bind (log ERROR "Error in monitoring cycle: {e}" [VStr msg])
            (fun _ => ret false))).
Proof.
  emits_step; [| repeat emits_step].
  emits_step.
  - apply emits_weaken.
    apply (emits_mono _ (read_out ce = Raise KeyboardInterrupt));
      [left; assumption | apply capture_and_analyze_emits].
  - destruct a0 as [d |]; [| repeat emits_step].
    emits_step; [| repeat emits_step].
    apply emits_weaken.
    apply (emits_mono _
             (exists req, post_out ce req = Raise KeyboardInterrupt));
      [right; assumption | apply upload_emits].
Qed.

(** A cycle returns a verdict unless it is interrupted; it opens with the
    line that starts a cycle, and neither sleeps nor releases the camera. *)
Lemma run_once_shape (a : Args) (ce : CycleEnv) (w : World) :
  returns_or (interrupted ce) (fst (run_once a ce w)) /\
  running (snd (run_once a ce w)) = running w /\
  cap (snd (run_once a ce w)) = cap w /\
  exists evs,
    trace (snd (run_once a ce w))
    = (trace w ++ Trace.cycle_start :: evs)%list /\
    forallb Trace.inner evs = true.
Proof.
  unfold run_once, log. rewrite try_except_emit.
  destruct (cycle_steps_emit a ce (snd (emit Trace.cycle_start w)))
    as (HR & Hrun & Hcap & evs & T & F).
  split; [exact HR |]. split; [exact Hrun |]. split; [exact Hcap |].
  exists evs. split; [| exact F].
  etransitivity; [exact T |]. simpl. rewrite <- app_assoc. reflexivity.
Qed.

Lemma run_once_emits (a : Args) (ce : CycleEnv) :
  emits Trace.looping (returns_or (interrupted ce)) (run_once a ce).
Proof.
  intros w. destruct (run_once_shape a ce w) as (HR & Hrun & Hcap & evs & T & F).
  split; [exact HR |]. split; [exact Hrun |]. split; [exact Hcap |].
  exists (Trace.cycle_start :: evs). split; [exact T |].
  simpl. rewrite forallb_forall in *. auto using inner_looping.
Qed.

Lemma time_sleep_emits (ce : CycleEnv) (secs : Z) :
  emits Trace.looping (finishes (sleep_out ce = Raise KeyboardInterrupt))
    (time_sleep ce secs).
Proof.
  unfold time_sleep. destruct (secs <? 0); [apply emits_raise |].
  emits_step; [repeat emits_step |]. emits_step. tauto.
Qed.

Lemma wait_emits (ce : CycleEnv) (secs : Z) :
  emits Trace.looping (finishes (sleep_out ce = Raise KeyboardInterrupt))
    (bind (log INFO "Waiting {self.interval} seconds until next capture..."
             [VInt secs])
       (fun _ => time_sleep ce secs)).
Proof. emits_step; [repeat emits_step | apply time_sleep_emits]. Qed.

Lemma loop_body_emits (a : Args) (ce : CycleEnv) :
  emits Trace.looping
    (finishes (interrupted ce \/ sleep_out ce = Raise KeyboardInterrupt))
    (loop_body a ce).
Proof.
  unfold loop_body. emits_step.
  - apply emits_weaken.
    apply (emits_mono _ (interrupted ce)); [tauto | apply run_once_emits].
  - intros w. destruct (wait_emits ce (interval a) w) as [HR HC].
    split; [| exact HC].
    match goal with
    | |- finishes _ (fst ?x) =>
        destruct (fst x) as [[u | [msg |]] |]; simpl in *; tauto
    end.
Qed.

(** The loop only adds events of the loop, leaves [running] and the capture
    object alone, and, entered with [running] set, never ends normally: it
    is stopped by an exception or cut off by its fuel. *)
Lemma while_running_continues (a : Args) (e : Env) (fuel k : nat) (w : World) :
  continues Trace.looping w (snd (while_running a e fuel k w)) /\
  (running w = true ->
   forall u, fst (while_running a e fuel k w) <> Some (Ok u)).
Proof.
  revert k w. induction fuel as [| fuel IH]; intros k w; simpl.
  - split; [apply continues_refl | discriminate].
  - destruct (running w) eqn:Hrun.
    + destruct (loop_body_emits a (cycle e k) w) as [_ HC].
      destruct (loop_body a (cycle e k) w) as [[[u | ex] |] w1]; simpl in *.
      * destruct (IH (S k) w1) as [HC' Hne]. split.
        -- eapply continues_trans; eassumption.
        -- intros _. apply Hne. destruct HC as (-> & _). exact Hrun.
      * split; [exact HC | discriminate].
      * split; [exact HC | discriminate].
    + split; [apply continues_refl | discriminate].
Qed.

(** Entered with [running] set and some fuel, the loop starts a cycle. *)
Lemma while_running_starts (a : Args) (e : Env) (fuel k : nat) (w : World) :
  running w = true ->
  exists rest,
    trace (snd (while_running a e (S fuel) k w))
    = (trace w ++ Trace.cycle_start :: rest)%list.
Proof.
  intros Hrun. simpl. rewrite Hrun. unfold loop_body. unfold bind at 1.
  destruct (run_once_shape a (cycle e k) w) as (_ & _ & _ & evs & T & _).
  destruct (run_once a (cycle e k) w) as [[[ok | ex] |] w1]; simpl in *;
    [| exists evs; exact T ..].
  destruct (wait_emits (cycle e k) (interval a) w1)
    as (_ & _ & _ & evs1 & T1 & _).
  match goal with
  | |- context [match ?c with _ => _ end] =>
      destruct c as [[[u | ex] |] w2]; simpl in *
  end.
  - destruct (while_running_continues a e fuel (S k) w2)
      as ((_ & _ & evs2 & T2 & _) & _).
    exists (evs ++ evs1 ++ evs2)%list. rewrite T2, T1, T.
    rewrite <- !app_assoc. reflexivity.
  - exists (evs ++ evs1)%list. rewrite T1, T. rewrite <- !app_assoc. reflexivity.
  - exists (evs ++ evs1)%list. rewrite T1, T. rewrite <- !app_assoc. reflexivity.
Qed.

Lemma while_running_step (a : Args) (e : Env) (fuel k : nat) (w w' : World) :
  running w = true ->
  loop_body a (cycle e k) w = (Some (Ok tt), w') ->
  while_running a e (S fuel) k w = while_running a e fuel (S k) w'.
Proof. intros Hrun Hbody. cbn [while_running]. rewrite Hrun, Hbody. reflexivity. Qed.

(** One turn of the loop that is not interrupted: the cycle gives its
    verdict, then the loop writes the waiting line and sleeps once. *)
Lemma loop_body_quiet (a : Args) (ce : CycleEnv) (w : World) :
  0 <= interval a ->
  sleep_out ce = Ok tt ->
  ~ interrupted ce ->
  exists ok w1,
    run_once a ce w = (Some (Ok ok), w1) /\
    loop_body a ce w
    = (Some (Ok tt),
       snd (emit (Sleep (interval a))
              (snd (emit (Trace.waiting (interval a)) w1)))).
Proof.
  intros Hint Hsleep Hquiet.
  destruct (run_once_shape a ce w) as (HR & _).
  unfold loop_body. unfold bind at 1.
  destruct (run_once a ce w) as [[[ok | [msg |]] |] w1];
    simpl in HR; try contradiction.
  exists ok, w1. split; [reflexivity |].
  unfold bind, log, emit, time_sleep, call.
  destruct (Z.ltb_spec (interval a) 0) as [Hneg | _]; [lia |].
  rewrite Hsleep. reflexivity.
Qed.

(** C2.  Take a cycle of the running loop that is not cut short by the stop
    signal, and whose sleep is not either.  Whatever happens to its steps
    (no frame, an exception while scoring, an upload that fails), [run_once]
    returns its verdict, the loop goes on, and the trace reads: the start of
    this cycle, events of the cycle (no sleep among them), the waiting line,
    one sleep of the configured interval, the start of the next cycle. *)
Theorem failed_cycle_does_not_stop_loop (a : Args) (e : Env) (fuel k : nat)
    (w : World) :
  running w = true ->
  0 <= interval a ->
  sleep_out (cycle e k) = Ok tt ->
  ~ interrupted (cycle e k) ->
  exists ok evs rest,
    fst (run_once a (cycle e k) w) = Some (Ok ok) /\
    forallb Trace.inner evs = true /\
    trace (snd (while_running a e (S (S fuel)) k w))
    = (trace w ++ Trace.cycle_start :: evs
       ++ Trace.waiting (interval a) :: Sleep (interval a)
       :: Trace.cycle_start :: rest)%list.
Proof.
  intros Hrun Hint Hsleep Hquiet.
  destruct (run_once_shape a (cycle e k) w) as (_ & Hrun1 & _ & evs & T & F).
  destruct (loop_body_quiet a (cycle e k) w Hint Hsleep Hquiet)
    as (ok & w1 & Honce & Hbody).
  rewrite Honce in Hrun1, T. cbn [fst snd] in Hrun1, T.
  rewrite (while_running_step a e (S fuel) k w _ Hrun Hbody).
  match goal with
  | |- context [while_running a e (S fuel) (S k) ?w2] =>
      destruct (while_running_starts a e fuel (S k) w2) as [rest Hrest];
      [cbn; congruence |]
  end.
  exists ok, evs, rest. rewrite Honce.
  split; [reflexivity |]. split; [exact F |].
  etransitivity; [exact Hrest |]. cbn [emit snd trace]. rewrite T.
  rewrite <- !app_assoc. reflexivity.
Qed.

End LoopFacts.

Section StopFacts.
Context `{V : Vision} `{J : Json}.

Lemma count_app (p : event -> bool) (l1 l2 : list event) :
  Trace.count p (l1 ++ l2) = (Trace.count p l1 + Trace.count p l2)%nat.
Proof. unfold Trace.count. rewrite List.filter_app. apply length_app. Qed.

Lemma looping_counts (evs : list event) :
  forallb Trace.looping evs = true ->
  Trace.releases evs = O /\ Trace.cleanups evs = O.
Proof.
  unfold Trace.releases, Trace.cleanups, Trace.count.
  induction evs as [| ev evs IH]; simpl; [auto |].
  intros H. apply andb_prop in H as [Hev Hevs]. destruct (IH Hevs) as [IH1 IH2].
  unfold Trace.looping in Hev.
  destruct (Trace.is_release ev), (Trace.is_cleanup_done ev);
    simpl in *; try discriminate. auto.
Qed.

(** Counts after a computation that only adds events of the loop. *)
Lemma continues_counts (w w' : World) :
  continues Trace.looping w w' ->
  Trace.releases (trace w') = Trace.releases (trace w) /\
  Trace.cleanups (trace w') = Trace.cleanups (trace w).
Proof.
  intros (_ & _ & evs & -> & F). destruct (looping_counts evs F) as [R C].
  unfold Trace.releases, Trace.cleanups in *. rewrite !count_app, R, C. lia.
Qed.

(** [cleanup] always returns.  It clears [running], releases the capture
    object whenever there is one, also when it was released before, and
    writes its closing line. *)
Lemma cleanup_effect (w : World) :
  exists w',
    cleanup w = (Some (Ok tt), w') /\
    running w' = false /\
    cap w' = match cap w with Some _ => Some false | None => None end /\
    Trace.releases (trace w')
    = (Trace.releases (trace w)
       + match cap w with Some _ => 1 | None => 0 end)%nat /\
    Trace.cleanups (trace w') = S (Trace.cleanups (trace w)).
Proof.
  unfold cleanup, release_camera, bind, set_running, get_cap, set_cap, log,
    emit, ret. cbn [cap].
  destruct (cap w) as [opened |]; eexists; (split; [reflexivity |]);
    cbn [running cap trace]; unfold Trace.releases, Trace.cleanups;
    rewrite ?count_app; cbn; repeat split; lia.
Qed.

(** The continuous run, when it stops, has returned normally whatever
    stopped the loop, and has run [cleanup] once. *)
Lemma run_continuous_stops (a : Args) (e : Env) (fuel : nat) (w w' : World)
    (r : result unit) :
  run_continuous a e fuel w = (Some r, w') ->
  r = Ok tt /\
  running w' = false /\
  cap w' = match cap w with Some _ => Some false | None => None end /\
  Trace.releases (trace w')
  = (Trace.releases (trace w)
     + match cap w with Some _ => 1 | None => 0 end)%nat /\
  Trace.cleanups (trace w') = S (Trace.cleanups (trace w)).
Proof.
  unfold run_continuous. unfold bind at 1 2, set_running, log at 1, emit at 1.
  cbn [fst snd]. unfold try_finally, try_catch.
  match goal with
  | |- context [while_running a e fuel 0 ?w1] =>
      destruct (while_running_continues a e fuel 0 w1) as [HC Hne];
      destruct (while_running a e fuel 0 w1) as [[[u | ex] |] w2]
  end; cbn [fst snd] in *.
  - destruct (Hne eq_refl u). reflexivity.
  - assert (Hlog : exists w3, continues Trace.looping w2 w3 /\
               match ex with
               | KeyboardInterrupt => log INFO "Monitoring stopped by user" []
               | Exception msg =>
                   log ERROR "Error in continuous monitoring: {e}" [VStr msg]
               end w2 = (Some (Ok tt), w3)).
    { destruct ex as [msg |]; eexists; (split; [| reflexivity]);
        repeat split; eexists; split; reflexivity. }
    destruct Hlog as (w3 & HC3 & ->).
    destruct (cleanup_effect w3) as (w4 & -> & Hrun4 & Hcap4 & Hrel4 & Hcl4).
    intros [= <- <-].
    pose proof (continues_trans _ _ _ _ HC HC3) as HC'.
    destruct (continues_counts _ _ HC') as [Hrel Hcl].
    destruct HC' as (_ & Hcap & _).
    cbn [cap trace] in *. unfold Trace.releases, Trace.cleanups in *.
    rewrite count_app in Hrel, Hcl. cbn in Hrel, Hcl.
    rewrite Hcap in *. repeat split; try assumption; lia.
  - discriminate.
Qed.

Lemma initialize_opened (a : Args) (e : Env) :
  open_out e = Ok true ->
  exists w0,
    initialize a e new_monitor = (Some (Ok true), w0) /\
    cap w0 = Some true /\
    Trace.releases (trace w0) = O /\
    Trace.cleanups (trace w0) = O.
Proof.
  intros Hopen. unfold initialize, initialize_camera, try_except, bind, log,
    emit, call, set_cap, ret. cbn [fst snd]. rewrite Hopen. cbn.
  eexists. repeat split.
Qed.

(** The exits of [main] once the camera has opened. *)
Lemma main_stops (a : Args) (e : Env) (fuel : nat) (w : World) (r : result Z) :
  open_out e = Ok true ->
  main a e fuel new_monitor = (Some r, w) ->
  running w = false /\
  cap w = Some false /\
  Trace.releases (trace w) = (if once a then 1 else 2)%nat /\
  Trace.cleanups (trace w) = (if once a then 1 else 2)%nat /\
  (if once a
   then r = Ok 0 \/ r = Ok 1 \/ r = Raise KeyboardInterrupt
   else r = Ok 0).
Proof.
  intros Hopen. destruct (initialize_opened a e Hopen) as (w0 & Hinit & Hcap0 & Hrel0 & Hcl0).
  unfold main. unfold bind at 1. rewrite Hinit. cbn [negb].
  unfold try_finally, try_except. destruct (once a).
  - unfold bind.
    destruct (run_once_emits a (cycle e 0) w0) as [HR HC].
    destruct (run_once a (cycle e 0) w0) as [[[ok | [msg |]] |] w1];
      cbn [fst snd] in *; try contradiction;
      destruct (continues_counts _ _ HC) as [Hrel Hcl];
      destruct HC as (_ & Hcap & _);
      unfold ret;
      destruct (cleanup_effect w1) as (w2 & -> & Hrun2 & Hcap2 & Hrel2 & Hcl2);
      intros [= <- <-]; rewrite Hcap, Hcap0 in *;
      (repeat split; [assumption | assumption | lia | lia |]).
    + destruct ok; auto.
    + auto.
  - unfold bind.
    destruct (run_continuous a e fuel w0) as [[r1 |] w1] eqn:Hcont;
      [| discriminate].
    destruct (run_continuous_stops a e fuel w0 w1 r1 Hcont)
      as (-> & Hrun1 & Hcap1 & Hrel1 & Hcl1).
    unfold ret.
    destruct (cleanup_effect w1) as (w2 & -> & Hrun2 & Hcap2 & Hrel2 & Hcl2).
    intros [= <- <-]. rewrite Hcap0 in *. rewrite Hcap1 in *.
    repeat split; try assumption; lia.
Qed.

(** C6, amended.  Once the camera has opened, every stop of [main] has run
    the cleanup, and left the monitor not running and the device closed.
    The cleanup, and with it the release of the capture object, has run
    once when [main] ran a single cycle and twice when it ran the loop: at
    the end of [run_continuous] and again at the end of [main]. *)
Theorem cleanup_runs_on_every_stop (a : Args) (e : Env) (fuel : nat)
    (w : World) (r : result Z) :
  open_out e = Ok true ->
  main a e fuel new_monitor = (Some r, w) ->
  Trace.cleanups (trace w) = (if once a then 1 else 2)%nat /\
  Trace.releases (trace w) = (if once a then 1 else 2)%nat /\
  (1 <= Trace.releases (trace w))%nat /\
  cap w = Some false /\
  running w = false.
Proof.
  intros Hopen Hmain.
  destruct (main_stops a e fuel w r Hopen Hmain) as (Hrun & Hcap & Hrel & Hcl & _).
  repeat split; try assumption. rewrite Hrel. destruct (once a); lia.
Qed.

(** In continuous mode [main] has one exit status, whatever ended the loop. *)
Lemma continuous_exit_status (a : Args) (e : Env) (fuel : nat) (w : World)
    (r : result Z) :
  once a = false ->
  open_out e = Ok true ->
  main a e fuel new_monitor = (Some r, w) ->
  r = Ok 0.
Proof.
  intros Honce Hopen Hmain.
  destruct (main_stops a e fuel w r Hopen Hmain) as (_ & _ & _ & _ & Hr).
  rewrite Honce in Hr. exact Hr.
Qed.

End StopFacts.

(** * Termination of the monitor *)

Section Liveness.
Context `{V : Vision} `{J : Json}.

Lemma loop_body_interrupted_sleep (a : Args) (ce : CycleEnv) (w : World) :
  0 <= interval a ->
  sleep_out ce = Raise KeyboardInterrupt ->
  exists ex, fst (loop_body a ce w) = Some (Raise ex).
Proof.
  intros Hint Hsleep. destruct (run_once_emits a ce w) as [HR _].
  unfold loop_body. unfold bind at 1.
  destruct (run_once a ce w) as [[[ok | ex] |] w1]; cbn [fst snd] in *;
    [| eauto | contradiction].
  unfold bind, log, emit, time_sleep, call.
  destruct (Z.ltb_spec (interval a) 0) as [Hneg | _]; [lia |].
  rewrite Hsleep. eauto.
Qed.

(** The loop stops at the latest in the cycle whose sleep is interrupted,
    given the fuel to get there. *)
Lemma loop_stops_when_interrupted (a : Args) (e : Env) (n : nat) :
  0 <= interval a ->
  forall fuel k w,
    running w = true ->
    sleep_out (cycle e (k + n)) = Raise KeyboardInterrupt ->
    (n < fuel)%nat ->
    exists ex, fst (while_running a e fuel k w) = Some (Raise ex).
Proof.
  intros Hint. induction n as [| n IH]; intros fuel k w Hrun Hsleep Hfuel;
    (destruct fuel as [| fuel]; [lia |]); cbn [while_running]; rewrite Hrun.
  - rewrite Nat.add_0_r in Hsleep.
    destruct (loop_body_interrupted_sleep a (cycle e k) w Hint Hsleep)
      as [ex Hex].
    destruct (loop_body a (cycle e k) w) as [o w1]. cbn [fst] in Hex.
    subst o. eauto.
  - destruct (loop_body_emits a (cycle e k) w) as [HR (Hrun1 & _)].
    destruct (loop_body a (cycle e k) w) as [[[u | ex] |] w1];
      cbn [fst snd] in *; [| eauto | contradiction].
    apply IH; [congruence | | lia].
    replace (S k + n)%nat with (k + S n)%nat by lia. exact Hsleep.
Qed.

(** Once the camera has opened, [main] returns when it runs a single cycle,
    and when the loop is given the fuel to reach an interrupted sleep. *)
Lemma main_stops_when_interrupted (a : Args) (e : Env) (n fuel : nat) :
  open_out e = Ok true ->
  once a = true \/
  (0 <= interval a /\ sleep_out (cycle e n) = Raise KeyboardInterrupt /\
   (n < fuel)%nat) ->
  exists r w, main a e fuel new_monitor = (Some r, w).
Proof.
  intros Hopen Hstop.
  destruct (initialize_opened a e Hopen) as (w0 & Hinit & _).
  unfold main. unfold bind at 1. rewrite Hinit. cbn [negb].
  unfold try_finally, try_except.
  destruct (once a) eqn:Honce.
  - unfold bind. destruct (run_once_emits a (cycle e 0) w0) as [HR _].
    destruct (run_once a (cycle e 0) w0) as [[[ok | [msg |]] |] w1];
      cbn [fst snd] in *; try contradiction; unfold ret;
      destruct (cleanup_effect w1) as (w2 & -> & _); eauto.
  - destruct Hstop as [? | (Hint & Hsleep & Hfuel)]; [discriminate |].
    unfold bind at 1. unfold run_continuous.
    unfold bind at 1 2, set_running, log at 1, emit at 1. cbn [fst snd].
    unfold try_finally, try_catch.
    match goal with
    | |- context [while_running a e fuel 0 ?w1] =>
        destruct (loop_stops_when_interrupted a e n Hint fuel 0%nat w1
                    eq_refl Hsleep Hfuel) as [ex Hex];
        destruct (while_running a e fuel 0 w1) as [o w2]
    end.
    cbn [fst] in Hex. subst o.
    destruct ex as [msg |]; unfold log, emit;
      match goal with
      | |- context [cleanup ?w3] =>
          destruct (cleanup_effect w3) as (w4 & -> & _)
      end; unfold ret;
      match goal with
      | |- context [cleanup ?w5] =>
          destruct (cleanup_effect w5) as (w6 & -> & _)
      end; eauto.
Qed.

End Liveness.

(** * The monitor on the sample sessions *)

Lemma failed_cycle_does_not_stop_loop_witness :
  exists ok evs rest,
    fst (run_once (V := Sample.blind_vision) (J := Sample.plain_json)
           (Sample.args false 5) Sample.no_frame_cycle Runs.looping_monitor)
    = Some (Ok ok) /\
    forallb Trace.inner evs = true /\
    trace (snd (while_running (V := Sample.blind_vision)
                  (J := Sample.plain_json) (Sample.args false 5)
                  Sample.session 2 0 Runs.looping_monitor))
    = (Trace.cycle_start :: evs
       ++ Trace.waiting 5 :: Sleep 5 :: Trace.cycle_start :: rest)%list.
Proof.
  apply (failed_cycle_does_not_stop_loop (V := Sample.blind_vision)
           (J := Sample.plain_json) (Sample.args false 5) Sample.session
           0 0 Runs.looping_monitor).
  - reflexivity.
  - simpl. lia.
  - reflexivity.
  - intros [H | [req H]]; discriminate H.
Defined.

(** The three failures of the sample session, one per cycle, and the run as
    a whole: five cycles start, each followed by one sleep of five seconds,
    until the user interrupts the fifth sleep. *)
Example no_frame_cycle_fails :
  fst (run_once (V := Sample.blind_vision) (J := Sample.plain_json)
         (Sample.args false 5) Sample.no_frame_cycle Runs.looping_monitor)
  = Some (Ok false).
Proof. reflexivity. Qed.

Example bad_frame_cycle_uploads_fallback :
  let '(r, w) :=
    run_once (V := Sample.blind_vision) (J := Sample.plain_json)
      (Sample.args false 5) Sample.bad_frame_cycle Runs.looping_monitor in
  r = Some (Ok true) /\
  exists req, In (Post req) (trace w) /\ nth 1 (params req) VNone = VInt 5.
Proof.
  vm_compute. split; [reflexivity |]. eexists.
  split; [do 4 right; left |]; reflexivity.
Qed.

Example network_error_cycle_fails :
  fst (run_once (V := Sample.blind_vision) (J := Sample.plain_json)
         (Sample.args false 5) Sample.network_error_cycle Runs.looping_monitor)
  = Some (Ok false).
Proof. vm_compute. reflexivity. Qed.

Example session_runs_five_cycles :
  Runs.exit_status (Sample.args false 5) Sample.session 5 = Some (Ok 0) /\
  Trace.count Trace.is_cycle_start
    (trace (Runs.final (Sample.args false 5) Sample.session 5)) = 5%nat /\
  Trace.sleeps (trace (Runs.final (Sample.args false 5) Sample.session 5))
  = [5; 5; 5; 5; 5].
Proof. vm_compute. repeat split. Qed.

Lemma cleanup_runs_on_every_stop_witness :
  let w := Runs.final (Sample.args true 5) Sample.calm 0 in
  Trace.cleanups (trace w) = 1%nat /\
  Trace.releases (trace w) = 1%nat /\
  (1 <= Trace.releases (trace w))%nat /\
  cap w = Some false /\
  running w = false.
Proof.
  apply (cleanup_runs_on_every_stop (V := Sample.blind_vision)
           (J := Sample.plain_json) (Sample.args true 5) Sample.calm 0
           (Runs.final (Sample.args true 5) Sample.calm 0) (Ok 0)).
  - reflexivity.
  - vm_compute. reflexivity.
Defined.

(** C6, as stated, fails in continuous mode: when the user interrupts the
    first sleep, the run ends with two cleanups and two releases of the
    capture object. *)
Lemma cleanup_runs_twice_in_continuous_mode :
  let w := Runs.final (Sample.args false 5) Sample.short_session 1 in
  Runs.exit_status (Sample.args false 5) Sample.short_session 1 = Some (Ok 0) /\
  Trace.cleanups (trace w) = 2%nat /\
  Trace.releases (trace w) = 2%nat /\
  Trace.releases (trace w) <> 1%nat.
Proof. vm_compute. repeat split. discriminate. Qed.

(** C7 on the code: with [--interval -1] in continuous mode the first
    [time.sleep] raises [ValueError].  The error leaves the loop, is logged
    by [run_continuous], the cleanup runs, and [main] returns 0. *)
Theorem negative_interval_exits_zero :
  let w := Runs.final (Sample.args false (-1)) Sample.calm 1 in
  Runs.exit_status (Sample.args false (-1)) Sample.calm 1 = Some (Ok 0) /\
  In (Log ERROR "Error in continuous monitoring: {e}"
        [VStr "sleep length must be non-negative"]) (trace w) /\
  Trace.count Trace.is_cycle_start (trace w) = 1%nat /\
  Trace.sleeps (trace w) = [] /\
  (1 <= Trace.cleanups (trace w))%nat.
Proof.
  vm_compute. split; [reflexivity |]. split; [| repeat split; lia].
  repeat match goal with |- _ \/ _ => first [left; reflexivity | right] end.
Qed.

(** * Further properties of the evaluator *)

Section ScoreBands.
Local Open Scope Q_scope.

Lemma Qtrunc_neg (q : Q) : q < 0 -> (Qtrunc q <= 0)%Z.
Proof.
  destruct q as [n d]. unfold Qlt, Qtrunc. simpl. intros H.
  assert (Hn : (n < 0)%Z) by lia.
  replace n with (- (- n))%Z by lia.
  rewrite Z.quot_opp_l by lia.
  pose proof (Z.quot_pos (- n) (Zpos d)). lia.
Qed.


Lemma Qfloor_ge (x : Q) (z : Z) : (z <= Qfloor x)%Z <-> inject_Z z <= x.
Proof.
  split; intros H.
  - eapply Qle_trans; [| apply Qfloor_le]. rewrite <- Zle_Qle. exact H.
  - rewrite <- (Qfloor_Z z). apply Qfloor_resp_le. exact H.
Qed.



(** X2.  The thresholds of the score, on binary64 numbers: for [k] from 2
    to 10, the score is at least [k] exactly when the binary64 value of
    [combined_score * 9 + 1] is at least [k].  So the score is 1 below 2.0
    and 10 from 10.0 on; the thresholds are those of the rounded value. *)
Theorem score_thresholds (c : float) (q : Q) (k : Z) :
  Binary64.value (c * 9 + 1)%float = Some q ->
  (2 <= k <= 10)%Z ->
  exists n,
    Binary64.busyness_score c = Ret n /\
    ((k <= n)%Z <-> (inject_Z k <= q)%Q).
Proof.
  intros Hv Hk. eexists. split; [apply (binary64_score_value c q Hv) |].
  destruct (Qlt_le_dec q 0) as [Hneg | Hpos].
  - pose proof (Qtrunc_neg _ Hneg) as Ht.
    assert (Hz : (inject_Z 0 < inject_Z k)%Q) by (rewrite <- Zlt_Qlt; lia).
    change (inject_Z 0) with 0%Q in Hz.
    unfold Spec.clamp. split; [lia | intros H; lra].
  - rewrite Qtrunc_floor by exact Hpos. rewrite <- Qfloor_ge.
    unfold Spec.clamp. lia.
Qed.

(** The three normalisations. *)
Lemma ratio_in_unit (n d : Z) :
  (0 < d)%Z -> (0 <= n <= d)%Z ->
  exists q, np_true_divide n d = Fin q /\ 0 <= q <= 1.
Proof.
  intros Hd Hn. unfold np_true_divide.
  destruct (Z.eqb_spec d 0) as [-> | _]; [lia |].
  eexists. split; [reflexivity |].
  assert (Hd' : 0 < inject_Z d) by (rewrite <- (Zlt_Qlt 0); exact Hd).
  split.
  - apply Qle_shift_div_l; [exact Hd' |]. rewrite Qmult_0_l.
    rewrite <- (Zle_Qle 0). lia.
  - apply Qle_shift_div_r; [exact Hd' |]. rewrite Qmult_1_l.
    rewrite <- Zle_Qle. lia.
Qed.

Lemma capped_in_unit (x : Q) :
  0 <= x -> exists q, py_min (Fin x) (Fin 1) = Fin q /\ 0 <= q <= 1 /\
                      (1 <= x -> q == 1).
Proof.
  intros Hx. unfold py_min, flt.
  destruct (Qle_bool x 1) eqn:E; simpl.
  - apply Qle_bool_iff in E. exists x. repeat split; try assumption.
    intros H1. apply Qle_antisym; assumption.
  - exists 1. split; [reflexivity |]. split; [split; discriminate |].
    intros _. reflexivity.
Qed.

(** X3.  When the library's counts and variances are what they mean (a
    pixel count between 0 and the number of pixels, a variance and a contour
    count that are not negative), the combined value computed from them is
    finite and lies in [0,1]: the two ratios are in [0,1] and the three
    other signals are capped at 1. *)
Theorem combined_raw_in_unit_interval (motion_pixels edge_pixels h w : Z)
    (color_variance laplacian_var : Q) (contour_count : Z) :
  (0 < h * w)%Z ->
  (0 <= motion_pixels <= h * w)%Z ->
  (0 <= edge_pixels <= h * w)%Z ->
  0 <= color_variance ->
  0 <= laplacian_var ->
  (0 <= contour_count)%Z ->
  exists x,
    combined_score
      (np_true_divide motion_pixels (h * w))
      (np_true_divide edge_pixels (h * w))
      (py_min (fdiv_const (Fin color_variance) 10000) (Fin 1))
      (py_min (fdiv_const (Fin laplacian_var) 1000) (Fin 1))
      (py_min (int_div_const contour_count 20) (Fin 1))
    = Fin x /\
    0 <= x <= 1.
Proof.
  intros Hhw Hm He Hcv Hlv Hcc.
  destruct (ratio_in_unit motion_pixels (h * w) Hhw Hm) as (m & -> & Hm').
  destruct (ratio_in_unit edge_pixels (h * w) Hhw He) as (e & -> & He').
  destruct (capped_in_unit (color_variance / inject_Z 10000))
    as (v & Ev & Hv' & _).
  { apply Qle_shift_div_l; [reflexivity | lra]. }
  destruct (capped_in_unit (laplacian_var / inject_Z 1000))
    as (t & Et & Ht' & _).
  { apply Qle_shift_div_l; [reflexivity | lra]. }
  destruct (capped_in_unit (inject_Z contour_count / inject_Z 20))
    as (c & Ec & Hc' & _).
  { apply Qle_shift_div_l; [reflexivity |]. rewrite Qmult_0_l.
    rewrite <- (Zle_Qle 0). exact Hcc. }
  unfold fdiv_const, int_div_const. rewrite Ev, Et, Ec.
  rewrite combined_score_finite. eexists. split; [reflexivity |]. lra.
Qed.

End ScoreBands.


Lemma score_thresholds_witness :
  exists n,
    Binary64.busyness_score 0.3333333333333333%float = Ret n /\
    ((4 <= n)%Z <-> (inject_Z 4 <= 4503599627370496 # 1125899906842624)%Q).
Proof.
  apply (score_thresholds 0.3333333333333333%float _ 4); [reflexivity | lia].
Defined.

Lemma combined_raw_in_unit_interval_witness :
  exists x,
    combined_score
      (np_true_divide 100 (480 * 640))
      (np_true_divide 2000 (480 * 640))
      (py_min (fdiv_const (Fin 16256) 10000) (Fin 1))
      (py_min (fdiv_const (Fin 250) 1000) (Fin 1))
      (py_min (int_div_const 31 20) (Fin 1))
    = Fin x /\
    (0 <= x <= 1)%Q.
Proof.
  apply (combined_raw_in_unit_interval 100 2000 480 640 16256 250 31);
    try lia; discriminate.
Defined.

(** * Further properties of the monitor *)

(** Runs a computation through its cases. *)
Ltac run_cases :=
  repeat (cbn -[try_score upload_request] in *;
          match goal with
          | |- context [match ?x with _ => _ end] =>
              lazymatch x with
              | context [match _ with _ => _ end] => fail
              | _ => destruct x eqn:?
              end
          end);
  cbn -[try_score upload_request] in *.

(** Brings appended lists to the same shape. *)
Ltac list_norm := repeat (progress (rewrite <- ?app_assoc; cbn [app])).

Ltac unfold_cycle :=
  unfold run_once, capture_and_analyze, capture_image, evaluate, upload_data,
    upload_busyness_data, calculate_busyness_score, try_except, bind, emit,
    call, log, ret, get_cap, lift.

Section CycleEquations.
Context `{V : Vision} `{J : Json}.

Lemma posts_app (l1 l2 : list event) :
  Observe.posts (l1 ++ l2) = (Observe.posts l1 ++ Observe.posts l2)%list.
Proof. apply flat_map_app. Qed.

Lemma count_posts_none (evs : list event) :
  forallb (fun ev => negb (Trace.is_post ev)) evs = true ->
  Observe.posts evs = [].
Proof.
  induction evs as [| ev evs IH]; simpl; [reflexivity |].
  intros H. apply andb_prop in H as [Hev Hevs].
  destruct ev; simpl in *; try discriminate; auto.
Qed.

Lemma upload_result (a : Args) (ce : CycleEnv) (score : Z) (metadata : dict)
    (timestamp notes camera_name : string) (w : World) :
  let req := upload_request a score metadata timestamp notes camera_name in
  let r := fst (upload_busyness_data a ce score metadata timestamp notes
                  camera_name w) in
  (r = Some (Ok true) <-> accepted ce req) /\
  (r = Some (Ok false) \/ r = Some (Ok true)
   \/ (r = Some (Raise KeyboardInterrupt)
       /\ post_out ce req = Raise KeyboardInterrupt)).
Proof.
  cbv zeta. unfold accepted.
  unfold upload_busyness_data, try_except, bind, emit, call, log, ret, lift.
  cbn -[upload_request].
  destruct (post_out ce _) as [resp | [msg |]] eqn:Hpost;
    cbn -[upload_request].
  - destruct (Z.eqb_spec (status_code resp) 200) as [Hs | Hs];
      cbn -[upload_request].
    + destruct (json resp) as [body | msg] eqn:Hjson; cbn -[upload_request].
      * destruct (truthy (dict_get body "success" (VBool false))) eqn:Ht;
          cbn -[upload_request]; (split; [| auto]).
        -- split; [intros _; eauto 10 | reflexivity].
        -- split; [discriminate |].
           intros (resp' & body' & [= <-] & _ & Hj & Ht').
           rewrite Hjson in Hj. injection Hj as <-. congruence.
      * split; [| auto]. split; [discriminate |].
        intros (resp' & body' & [= <-] & _ & Hj & _). congruence.
    + split; [| auto]. split; [discriminate |].
      intros (resp' & body' & [= <-] & Hs' & _). contradiction.
  - split; [| auto]. split; [discriminate |].
    intros (resp' & body' & [=] & _).
  - split; [| auto]. split; [discriminate |].
    intros (resp' & body' & [=] & _).
Qed.

(** X4.  The verdict of an upload: [upload_busyness_data] returns [True]
    exactly when the endpoint answered with status 200 and a JSON object
    whose [success] field is true.  Any other answer, and any exception of
    the request or of the decoding, gives [False]: the function never raises
    an [Exception]. *)
Theorem upload_verdict (a : Args) (ce : CycleEnv) (score : Z) (metadata : dict)
    (timestamp notes camera_name : string) (w : World) :
  let req := upload_request a score metadata timestamp notes camera_name in
  let r := fst (upload_busyness_data a ce score metadata timestamp notes
                  camera_name w) in
  (r = Some (Ok true) <-> accepted ce req) /\
  (r = Some (Ok false) \/ r = Some (Ok true)
   \/ (r = Some (Raise KeyboardInterrupt)
       /\ post_out ce req = Raise KeyboardInterrupt)).
Proof. apply upload_result. Qed.

Lemma capture_image_closed (ce : CycleEnv) (w : World) :
  cap w <> Some true ->
  capture_image ce w
  = (Some (Ok None), snd (emit (Log ERROR "Camera not initialized" []) w)).
Proof.
  intros Hcap. unfold capture_image, try_except, bind, get_cap, log, emit, ret.
  cbn. destruct (cap w) as [[|] |] eqn:E; [congruence | |];
    destruct w; cbn in *; subst; reflexivity.
Qed.

Lemma run_once_closed (a : Args) (ce : CycleEnv) (w : World) :
  cap w <> Some true ->
  run_once a ce w
  = (Some (Ok false),
     {| cap := cap w; bg := bg w; running := running w;
        trace := trace w
                 ++ [ Trace.cycle_start;
                      Log ERROR "Camera not initialized" [];
                      Log ERROR "Failed to capture image" [];
                      Log ERROR "Failed to capture and analyze" [] ] |}).
Proof.
  intros Hcap. unfold run_once, capture_and_analyze.
  unfold try_except, bind, log. cbn [emit fst snd].
  rewrite capture_image_closed by exact Hcap.
  cbn. rewrite <- !app_assoc. reflexivity.
Qed.

(** X5.  A cycle on a camera that is not open (never initialised, failed to
    open, or released) fails at once: [run_once] returns [False] after four
    log lines, without reading the camera or posting a request, and leaves
    the monitor as it was. *)
Theorem closed_camera_cycle_fails (a : Args) (ce : CycleEnv) (w : World) :
  cap w <> Some true ->
  fst (run_once a ce w) = Some (Ok false) /\
  trace (snd (run_once a ce w))
  = (trace w
     ++ [ Trace.cycle_start;
          Log ERROR "Camera not initialized" [];
          Log ERROR "Failed to capture image" [];
          Log ERROR "Failed to capture and analyze" [] ])%list /\
  cap (snd (run_once a ce w)) = cap w /\
  bg (snd (run_once a ce w)) = bg w /\
  running (snd (run_once a ce w)) = running w.
Proof.
  intros Hcap. rewrite (run_once_closed a ce w Hcap). repeat split.
Qed.

(** X6.  When the camera cannot be opened (the device does not open, or
    opening raises), [main] returns exit status 1 at once: no cycle runs,
    nothing is read or posted, and no cleanup runs, so the capture object of
    a failed open is never released. *)
Theorem failed_open_exits_one (a : Args) (e : Env) (fuel : nat) :
  open_out e = Ok false \/ (exists msg, open_out e = Raise (Exception msg)) ->
  exists w,
    main a e fuel new_monitor = (Some (Ok 1), w) /\
    Observe.cycles (trace w) = O /\
    Observe.reads (trace w) = O /\
    Observe.posts (trace w) = [] /\
    Trace.releases (trace w) = O /\
    Trace.cleanups (trace w) = O /\
    cap w <> Some true.
Proof.
  intros Hopen.
  unfold main, initialize, initialize_camera, try_except, bind, log, emit,
    call, set_cap, ret. cbn [fst snd].
  destruct Hopen as [-> | [msg ->]]; cbn; eexists;
    (split; [reflexivity |]); repeat split; discriminate.
Qed.

Lemma upload_keeps_state (a : Args) (ce : CycleEnv) (score : Z)
    (metadata : dict) (timestamp notes camera_name : string) (w : World) :
  let w' := snd (upload_busyness_data a ce score metadata timestamp notes
                   camera_name w) in
  bg w' = bg w /\ cap w' = cap w /\ running w' = running w.
Proof.
  cbv zeta.
  unfold upload_busyness_data, try_except, bind, emit, call, log, ret, lift.
  run_cases; repeat split.
Qed.

Lemma try_score_model (b : bg_model) (image : ndarray) :
  snd (try_score b image)
  = match cvtColor_BGR2GRAY image with
    | Ret _ => snd (bg_apply b image)
    | Err _ => b
    end.
Proof.
  unfold try_score. destruct (cvtColor_BGR2GRAY image); [| reflexivity].
  destruct (bg_apply b image). reflexivity.
Qed.

Lemma calculate_model (b : bg_model) (image : ndarray) :
  snd (fst (calculate_busyness_score b image)) = snd (try_score b image).
Proof.
  unfold calculate_busyness_score.
  destruct (try_score b image) as [[r | msg] b']; reflexivity.
Qed.

Lemma capture_and_analyze_frame (ce : CycleEnv) (w : World) (img : ndarray) :
  cap w = Some true ->
  read_out ce = Ok (true, Some img) ->
  capture_and_analyze ce w
  = let '(score, metadata, bg', logged) :=
      calculate_busyness_score (bg w) img in
    (Some (Ok (Some {| data_timestamp := now ce; data_score := score;
                       data_metadata := metadata |})),
     {| cap := cap w; bg := bg'; running := running w;
        trace := trace w
                 ++ CapRead :: logged
                 ++ [Log INFO
                       "Analysis complete: Score={score}, Timestamp={timestamp}"
                       [VInt score; VStr (now ce)]] |}).
Proof.
  intros Hcap Hread.
  unfold capture_and_analyze, capture_image, evaluate, try_except, bind,
    get_cap, log, emit, call, ret.
  cbn. rewrite Hcap, Hread. cbn.
  destruct (calculate_busyness_score (bg w) img) as [[[score md] bg'] logged].
  cbn. rewrite Hcap. rewrite <- !app_assoc. reflexivity.
Qed.

Lemma calculate_logged (b : bg_model) (image : ndarray) :
  Observe.posts (snd (calculate_busyness_score b image)) = [].
Proof.
  unfold calculate_busyness_score.
  destruct (try_score b image) as [[r | msg] b']; reflexivity.
Qed.

(** A cycle that gets a frame: what it posts, what it returns and where it
    leaves the background model. *)
Lemma run_once_frame (a : Args) (ce : CycleEnv) (w : World) (img : ndarray) :
  cap w = Some true ->
  read_out ce = Ok (true, Some img) ->
  let '(score, metadata, bg', logged) :=
    calculate_busyness_score (bg w) img in
  let req :=
    upload_request a score metadata (now ce) (notes a) (camera_name a) in
  exists o w' rest,
    run_once a ce w = (o, w') /\
    trace w'
    = (trace w
       ++ Trace.cycle_start :: CapRead :: logged
       ++ Log INFO "Analysis complete: Score={score}, Timestamp={timestamp}"
            [VInt score; VStr (now ce)]
       :: Post req :: rest)%list /\
    forallb (fun ev => negb (Trace.is_post ev)) rest = true /\
    bg w' = bg' /\
    (o = Some (Ok true) <-> accepted ce req).
Proof.
  intros Hcap Hread.
  pose proof (capture_and_analyze_frame ce
                (snd (emit Trace.cycle_start w)) img Hcap Hread) as Hca.
  cbn [emit snd bg cap running trace] in Hca.
  destruct (calculate_busyness_score (bg w) img) as [[[score md] bg'] logged].
  cbv zeta.
  unfold run_once. unfold log at 1. rewrite try_except_emit.
  unfold try_except at 1. unfold bind at 1.
  change (Log INFO "Starting monitoring cycle..." []) with Trace.cycle_start.
  cbn [emit snd]. rewrite Hca. unfold upload_data. cbn [data_score
    data_metadata data_timestamp]. unfold bind at 1.
  match goal with
  | |- context [upload_busyness_data a ce score md ?ts ?n ?c ?w1] =>
      destruct (upload_result a ce score md ts n c w1) as [Hiff Hcases];
      destruct (upload_posts_once a ce score md ts n c w1) as (rest & T & F);
      destruct (upload_keeps_state a ce score md ts n c w1) as (Hbg & _);
      destruct (upload_busyness_data a ce score md ts n c w1) as [o w2]
  end.
  cbn [fst snd trace bg] in *.
  destruct Hcases as [-> | [-> | [-> Hki]]]; unfold log, emit, ret; cbn;
    do 3 eexists; (split; [reflexivity |]); cbn; rewrite T.
  - split; [| split; [| split; [exact Hbg |]]].
    + list_norm. reflexivity.
    + rewrite forallb_app, F. reflexivity.
    + rewrite <- Hiff. split; discriminate.
  - split; [| split; [| split; [exact Hbg |]]].
    + list_norm. reflexivity.
    + rewrite forallb_app, F. reflexivity.
    + rewrite <- Hiff. split; reflexivity.
  - split; [| split; [exact F | split; [exact Hbg |]]].
    + list_norm. reflexivity.
    + rewrite <- Hiff. split; discriminate.
Qed.

(** X7.  A cycle that reads a frame posts exactly one request, and it is
    the request built from the score and the metadata that the evaluator
    computed for that frame, stamped with the time of the cycle and the
    monitor's notes and camera name.  The cycle succeeds exactly when the
    endpoint accepts this request. *)
Theorem cycle_posts_computed_score (a : Args) (ce : CycleEnv) (w : World)
    (img : ndarray) :
  cap w = Some true ->
  read_out ce = Ok (true, Some img) ->
  let '(score, metadata, _, _) := calculate_busyness_score (bg w) img in
  let req :=
    upload_request a score metadata (now ce) (notes a) (camera_name a) in
  Observe.posts (trace (snd (run_once a ce w)))
  = (Observe.posts (trace w) ++ [req])%list /\
  (fst (run_once a ce w) = Some (Ok true) <-> accepted ce req).
Proof.
  intros Hcap Hread. pose proof (run_once_frame a ce w img Hcap Hread) as H.
  pose proof (calculate_logged (bg w) img) as Hlog.
  destruct (calculate_busyness_score (bg w) img) as [[[score md] bg'] logged].
  cbv zeta in *. destruct H as (o & w' & rest & -> & T & F & _ & Hiff).
  cbn [fst snd] in *. split; [| exact Hiff]. rewrite T.
  rewrite posts_app. f_equal.
  pose proof (count_posts_none rest F) as Hrest.
  unfold Observe.posts in *. cbn [flat_map Trace.cycle_start app].
  rewrite flat_map_app, Hlog. cbn [flat_map app]. rewrite Hrest. reflexivity.
Qed.

(** X8.  What a cycle does to the background model.  On an open camera,
    a cycle that reads a frame leaves the model as [apply] updated it, also
    when a later step of scoring raises and when the upload fails; only when
    the conversion to grayscale raises, before [apply], is the model left
    alone.  A cycle that reads no frame does not touch the model. *)
Theorem cycle_updates_background_model (a : Args) (ce : CycleEnv) (w : World) :
  cap w = Some true ->
  bg (snd (run_once a ce w))
  = match read_out ce with
    | Ok (true, Some img) =>
        match cvtColor_BGR2GRAY img with
        | Ret _ => snd (bg_apply (bg w) img)
        | Err _ => bg w
        end
    | _ => bg w
    end.
Proof.
  intros Hcap.
  destruct (read_out ce) as [[[|] [img |]] | [msg |]] eqn:Hread.
  - pose proof (run_once_frame a ce w img Hcap Hread) as H.
    pose proof (calculate_model (bg w) img) as Hm.
    destruct (calculate_busyness_score (bg w) img)
      as [[[score md] bg'] logged].
    cbv zeta in H. destruct H as (o & w' & rest & Heq & _ & _ & Hbg & _).
    rewrite Heq. cbn [snd]. rewrite Hbg.
    cbn in Hm. rewrite Hm. apply try_score_model.
  - unfold_cycle. cbn. rewrite Hcap, Hread. reflexivity.
  - unfold_cycle. cbn. rewrite Hcap, Hread. reflexivity.
  - unfold_cycle. cbn. rewrite Hcap, Hread. reflexivity.
  - unfold_cycle. cbn. rewrite Hcap, Hread. reflexivity.
  - unfold_cycle. cbn. rewrite Hcap, Hread. reflexivity.
Qed.

(** X9.  A cycle never opens or releases the camera and never changes the
    [running] flag: after [run_once] the capture object and the flag are as
    before, and the events it added hold no release, no sleep and no end of
    cleanup. *)
Theorem cycle_keeps_camera (a : Args) (ce : CycleEnv) (w : World) :
  cap (snd (run_once a ce w)) = cap w /\
  running (snd (run_once a ce w)) = running w /\
  exists evs,
    trace (snd (run_once a ce w)) = (trace w ++ evs)%list /\
    Trace.releases evs = O /\
    Trace.cleanups evs = O /\
    Trace.sleeps evs = [].
Proof.
  destruct (run_once_shape a ce w) as (_ & Hrun & Hcap & evs & T & F).
  split; [exact Hcap |]. split; [exact Hrun |].
  exists (Trace.cycle_start :: evs). split; [exact T |].
  assert (Hloop : forallb Trace.looping (Trace.cycle_start :: evs) = true).
  { simpl. rewrite forallb_forall in *. auto using inner_looping. }
  destruct (looping_counts _ Hloop) as [Hr Hc].
  split; [exact Hr |]. split; [exact Hc |].
  cbn. clear -F. induction evs as [| ev evs IH]; [reflexivity |].
  simpl in F. apply andb_prop in F as [Hev Hevs].
  destruct ev; cbn in *; try discriminate; auto.
Qed.

End CycleEquations.

Lemma closed_camera_cycle_fails_witness :
  fst (run_once (V := Sample.blind_vision) (J := Sample.plain_json)
         (Sample.args false 5) Sample.good_cycle
         (snd (cleanup Runs.looping_monitor)))
  = Some (Ok false).
Proof.
  apply (closed_camera_cycle_fails (V := Sample.blind_vision)
           (J := Sample.plain_json) (Sample.args false 5) Sample.good_cycle
           (snd (cleanup Runs.looping_monitor))).
  discriminate.
Defined.

Lemma failed_open_exits_one_witness :
  exists w,
    main (V := Sample.blind_vision) (J := Sample.plain_json)
      (Sample.args false 5)
      {| open_out := Ok false; cycle _ := Sample.good_cycle |} 3 new_monitor
    = (Some (Ok 1), w) /\
    Observe.cycles (trace w) = O /\
    Observe.reads (trace w) = O /\
    Observe.posts (trace w) = [] /\
    Trace.releases (trace w) = O /\
    Trace.cleanups (trace w) = O /\
    cap w <> Some true.
Proof.
  apply (failed_open_exits_one (V := Sample.blind_vision)
           (J := Sample.plain_json) (Sample.args false 5)
           {| open_out := Ok false; cycle _ := Sample.good_cycle |} 3).
  left. reflexivity.
Defined.

Lemma cycle_posts_computed_score_witness :
  let '(score, metadata, _, _) :=
    calculate_busyness_score (V := Sample.blind_vision)
      (bg Runs.looping_monitor) Sample.checker_frame in
  let req :=
    upload_request (J := Sample.plain_json) (Sample.args false 5) score
      metadata "2024-05-01T12:00:15" "lobby" "MacBook Camera" in
  Observe.posts
    (trace (snd (run_once (V := Sample.blind_vision) (J := Sample.plain_json)
                   (Sample.args false 5) Sample.good_cycle
                   Runs.looping_monitor)))
  = [req] /\
  (fst (run_once (V := Sample.blind_vision) (J := Sample.plain_json)
          (Sample.args false 5) Sample.good_cycle Runs.looping_monitor)
   = Some (Ok true) <-> accepted Sample.good_cycle req).
Proof.
  apply (cycle_posts_computed_score (V := Sample.blind_vision)
           (J := Sample.plain_json) (Sample.args false 5) Sample.good_cycle
           Runs.looping_monitor Sample.checker_frame); reflexivity.
Defined.

Lemma cycle_updates_background_model_witness :
  bg (snd (run_once (V := Sample.blind_vision) (J := Sample.plain_json)
             (Sample.args false 5) Sample.network_error_cycle
             Runs.looping_monitor))
  = 1%nat.
Proof.
  apply (cycle_updates_background_model (V := Sample.blind_vision)
           (J := Sample.plain_json) (Sample.args false 5)
           Sample.network_error_cycle Runs.looping_monitor).
  reflexivity.
Defined.

Section ContourFacts.
Context `{V : Vision}.

(** X10.  The contour count.  When [count_large_contours] returns, the area
    of every contour was computed, and the count is the number of contours
    whose area is greater than 100: a contour of area exactly 100 is not
    counted.  So the count lies between 0 and the number of contours. *)
Theorem contour_count_bounds (contours : list contour) (n : Z) :
  count_large_contours contours = Ret n ->
  Forall (fun c => exists area, contourArea c = Ret area) contours /\
  n = Z.of_nat
        (length
           (List.filter
              (fun c => match contourArea c with
                        | Ret area => flt (Fin 100) area
                        | Err _ => false
                        end) contours)) /\
  0 <= n <= Z.of_nat (length contours).
Proof.
  revert n. induction contours as [| c rest IH]; intros n H.
  - cbn in H. injection H as <-.
    split; [constructor |]. split; [reflexivity | cbn; lia].
  - change (count_large_contours (c :: rest))
      with (obind (contourArea c) (fun area =>
              obind (count_large_contours rest) (fun m =>
                Ret (if flt (Fin 100) area then 1 + m else m)))) in H.
    apply obind_ret_inv in H as (area & Harea & H).
    apply obind_ret_inv in H as (m & Hm & H). injection H as <-.
    destruct (IH m Hm) as (Hall & -> & Hb).
    split; [constructor; eauto |].
    match goal with
    | |- context [List.filter ?f (c :: rest)] =>
        change (List.filter f (c :: rest))
          with (if f c then c :: List.filter f rest else List.filter f rest)
    end.
    cbv beta. rewrite Harea. unfold flt in *.
    destruct area as [b | | |]; [destruct (Qle_bool b 100) | ..];
      cbn [negb length]; rewrite ?Nat2Z.inj_succ; split; lia.
Qed.

End ContourFacts.

Lemma contour_count_bounds_witness :
  count_large_contours (V := Sample.blind_vision) [100; 101; 5000; 3]
  = Ret 2 /\
  0 <= 2 <= Z.of_nat (length [100; 101; 5000; 3]).
Proof.
  split; [reflexivity |].
  apply (contour_count_bounds (V := Sample.blind_vision)
           [100; 101; 5000; 3] 2).
  reflexivity.
Defined.

(** * What the whole run emits *)

Section OnlyRules.
Context `{V : Vision} `{J : Json}.

Lemma only_ret {A : Type} (p : event -> bool) (a : A) : only p (ret a).
Proof. intros w. exists []. split; [symmetry; apply app_nil_r | reflexivity]. Qed.

Lemma only_raise {A : Type} (p : event -> bool) (e : exn) :
  only p (raise (A := A) e).
Proof. intros w. exists []. split; [symmetry; apply app_nil_r | reflexivity]. Qed.

Lemma only_call {A : Type} (p : event -> bool) (r : result A) : only p (call r).
Proof. intros w. exists []. split; [symmetry; apply app_nil_r | reflexivity]. Qed.

Lemma only_get_cap (p : event -> bool) : only p get_cap.
Proof. intros w. exists []. split; [symmetry; apply app_nil_r | reflexivity]. Qed.

Lemma only_set_cap (p : event -> bool) (c : option bool) : only p (set_cap c).
Proof. intros w. exists []. split; [symmetry; apply app_nil_r | reflexivity]. Qed.

Lemma only_set_running (p : event -> bool) (b : bool) :
  only p (set_running b).
Proof. intros w. exists []. split; [symmetry; apply app_nil_r | reflexivity]. Qed.

Lemma only_emit (p : event -> bool) (ev : event) :
  p ev = true -> only p (emit ev).
Proof.
  intros Hp w. exists [ev]. split; [reflexivity |]. simpl. rewrite Hp. reflexivity.
Qed.

Lemma only_seq (p : event -> bool) (w w1 w2 : World) :
  (exists evs, trace w1 = (trace w ++ evs)%list /\ forallb p evs = true) ->
  (exists evs, trace w2 = (trace w1 ++ evs)%list /\ forallb p evs = true) ->
  exists evs, trace w2 = (trace w ++ evs)%list /\ forallb p evs = true.
Proof.
  intros (evs1 & T1 & F1) (evs2 & T2 & F2). exists (evs1 ++ evs2)%list.
  split; [rewrite T2, T1; symmetry; apply app_assoc |].
  rewrite forallb_app, F1, F2. reflexivity.
Qed.

Lemma only_bind {A B : Type} (p : event -> bool) (c : M A) (k : A -> M B) :
  only p c -> (forall a, only p (k a)) -> only p (bind c k).
Proof.
  intros Hc Hk w. unfold bind. specialize (Hc w).
  destruct (c w) as [[[a | e] |] w1]; cbn [snd] in *; try exact Hc.
  eapply only_seq; [exact Hc | apply Hk].
Qed.

Lemma only_try_except {A : Type} (p : event -> bool) (body : M A)
    (handler : string -> M A) :
  only p body -> (forall msg, only p (handler msg)) ->
  only p (try_except body handler).
Proof.
  intros Hb Hh w. unfold try_except. specialize (Hb w).
  destruct (body w) as [[[a | [msg |]] |] w1]; cbn [snd] in *; try exact Hb.
  eapply only_seq; [exact Hb | apply Hh].
Qed.

Lemma only_try_catch {A : Type} (p : event -> bool) (body : M A)
    (handler : exn -> M A) :
  only p body -> (forall e, only p (handler e)) ->
  only p (try_catch body handler).
Proof.
  intros Hb Hh w. unfold try_catch. specialize (Hb w).
  destruct (body w) as [[[a | e] |] w1]; cbn [snd] in *; try exact Hb.
  eapply only_seq; [exact Hb | apply Hh].
Qed.

Lemma only_try_finally {A : Type} (p : event -> bool) (body : M A)
    (final : M unit) :
  only p body -> only p final -> only p (try_finally body final).
Proof.
  intros Hb Hf w. unfold try_finally. specialize (Hb w).
  destruct (body w) as [[r |] w1]; cbn [snd] in *; try exact Hb.
  specialize (Hf w1).
  destruct (final w1) as [[[u | e] |] w2]; cbn [snd] in *;
    (eapply only_seq; [exact Hb | exact Hf]).
Qed.

(** A cycle, for a predicate that holds of the start of a cycle and of the
    events inside one. *)
Lemma only_run_once (p : event -> bool) (a : Args) (ce : CycleEnv) :
  p Trace.cycle_start = true ->
  (forall ev, Trace.inner ev = true -> p ev = true) ->
  only p (run_once a ce).
Proof.
  intros Hstart Hinner w.
  destruct (run_once_shape a ce w) as (_ & _ & _ & evs & T & F).
  exists (Trace.cycle_start :: evs). split; [exact T |].
  cbn [forallb]. rewrite Hstart. cbn [andb].
  rewrite forallb_forall in *. auto.
Qed.

Lemma only_while (p : event -> bool) (a : Args) (e : Env) :
  (forall k, only p (loop_body a (cycle e k))) ->
  forall fuel k, only p (while_running a e fuel k).
Proof.
  intros Hbody. induction fuel as [| fuel IH]; intros k w; cbn [while_running].
  - exists []. split; [symmetry; apply app_nil_r | reflexivity].
  - destruct (running w).
    + specialize (Hbody k w).
      destruct (loop_body a (cycle e k) w) as [[[u | ex] |] w1];
        cbn [snd] in *; try exact Hbody.
      eapply only_seq; [exact Hbody | apply IH].
    + exists []. split; [symmetry; apply app_nil_r | reflexivity].
Qed.

End OnlyRules.

(** Applies the rules along a computation built from the combinators. *)
Ltac only_step :=
  lazymatch goal with
  | |- only _ (ret _) => apply only_ret
  | |- only _ (raise _) => apply only_raise
  | |- only _ (call _) => apply only_call
  | |- only _ get_cap => apply only_get_cap
  | |- only _ (set_cap _) => apply only_set_cap
  | |- only _ (set_running _) => apply only_set_running
  | |- only _ (emit _) => apply only_emit; reflexivity
  | |- only _ (log _ _ _) => apply only_emit; reflexivity
  | |- only _ (bind _ _) => apply only_bind; [| intros ?]
  | |- only _ (try_except _ _) => apply only_try_except; [| intros ?]
  | |- only _ (try_catch _ _) => apply only_try_catch; [| intros ?]
  | |- only _ (try_finally _ _) => apply only_try_finally
  | |- only _ (if ?b then _ else _) => destruct b
  | |- only _ (match ?x with _ => _ end) => destruct x
  end.

Section WholeRun.
Context `{V : Vision} `{J : Json}.

Lemma sleeps_for_inner (secs : Z) (ev : event) :
  Trace.inner ev = true -> Observe.sleeps_for secs ev = true.
Proof. destruct ev; cbn; congruence. Qed.

Lemma only_main_sleeps (a : Args) (e : Env) (fuel : nat) :
  only (Observe.sleeps_for (interval a)) (main a e fuel).
Proof.
  assert (Hclean : only (Observe.sleeps_for (interval a)) cleanup).
  { unfold cleanup, release_camera. repeat only_step. }
  assert (Honce : forall ce,
             only (Observe.sleeps_for (interval a)) (run_once a ce)).
  { intros ce. apply only_run_once;
      [reflexivity | apply sleeps_for_inner]. }
  unfold main, initialize, initialize_camera. only_step.
  { repeat only_step. }
  only_step; [repeat only_step |].
  only_step; [| exact Hclean].
  only_step; [| repeat only_step].
  only_step.
  - only_step; [apply Honce | repeat only_step].
  - only_step; [| repeat only_step].
    unfold run_continuous. only_step; [repeat only_step |].
    only_step; [repeat only_step |].
    only_step; [| exact Hclean].
    only_step; [| repeat only_step].
    apply only_while. intros k. unfold loop_body.
    only_step; [apply Honce |].
    only_step; [repeat only_step |].
    unfold time_sleep.
    destruct (Z.ltb_spec (interval a) 0) as [Hneg | Hpos];
      [apply only_raise |].
    only_step; [| only_step].
    apply only_emit. cbn. rewrite Z.eqb_refl. cbn.
    apply Z.leb_le. exact Hpos.
Qed.

Lemma sleeps_of_sleeps_for (secs : Z) (evs : list event) :
  forallb (Observe.sleeps_for secs) evs = true ->
  Forall (fun s => s = secs /\ 0 <= s) (Trace.sleeps evs).
Proof.
  induction evs as [| ev evs IH]; cbn; [constructor |].
  intros H. apply andb_prop in H as [Hev Hevs].
  destruct ev; cbn in *; auto.
  apply andb_prop in Hev as [H1 H2].
  constructor; [| auto]. split; [apply Z.eqb_eq, H1 | apply Z.leb_le, H2].
Qed.

(** X11.  Every sleep of a run lasts the configured interval, and the
    program never sleeps for a negative time: whatever the mode, the
    environment and the number of turns, each [Sleep] in the trace of
    [main] is of [interval] seconds, with [interval >= 0]. *)
Theorem sleeps_have_interval (a : Args) (e : Env) (fuel : nat) :
  Forall (fun s => s = interval a /\ 0 <= s)
    (Trace.sleeps (trace (snd (main a e fuel new_monitor)))).
Proof.
  destruct (only_main_sleeps a e fuel new_monitor) as (evs & T & F).
  rewrite T. cbn [new_monitor trace app]. apply sleeps_of_sleeps_for, F.
Qed.

End WholeRun.

Section OnceMode.
Context `{V : Vision} `{J : Json}.

Lemma cycles_app (l1 l2 : list event) :
  Observe.cycles (l1 ++ l2) = (Observe.cycles l1 + Observe.cycles l2)%nat.
Proof. apply count_app. Qed.

Lemma sleeps_app (l1 l2 : list event) :
  Trace.sleeps (l1 ++ l2) = (Trace.sleeps l1 ++ Trace.sleeps l2)%list.
Proof. apply flat_map_app. Qed.

Lemma inner_quiet (evs : list event) :
  forallb Trace.inner evs = true ->
  Observe.cycles evs = O /\ Trace.sleeps evs = [].
Proof.
  unfold Observe.cycles, Trace.count.
  induction evs as [| ev evs IH]; [split; reflexivity |].
  cbn [forallb]. intros H. apply andb_prop in H as [Hev Hevs].
  destruct (IH Hevs) as [IH1 IH2]. unfold Trace.inner in Hev.
  cbn [List.filter Trace.sleeps flat_map].
  destruct (Trace.is_cycle_start ev) eqn:Hc;
    [rewrite !orb_true_r in Hev; discriminate |].
  destruct ev; cbn in *; try discriminate; auto.
Qed.

Lemma initialize_opened_quiet (a : Args) (e : Env) :
  open_out e = Ok true ->
  exists w0,
    initialize a e new_monitor = (Some (Ok true), w0) /\
    cap w0 = Some true /\
    Observe.cycles (trace w0) = O /\
    Trace.sleeps (trace w0) = [] /\
    Observe.posts (trace w0) = [].
Proof.
  intros Hopen. unfold initialize, initialize_camera, try_except, bind, log,
    emit, call, set_cap, ret. cbn [fst snd]. rewrite Hopen. cbn.
  eexists. repeat split.
Qed.

Lemma cleanup_quiet (w : World) :
  exists w' evs,
    cleanup w = (Some (Ok tt), w') /\
    trace w' = (trace w ++ evs)%list /\
    Observe.cycles evs = O /\
    Trace.sleeps evs = [] /\
    Observe.posts evs = [].
Proof.
  unfold cleanup, release_camera, bind, set_running, get_cap, set_cap, log,
    emit, ret. cbn [cap].
  destruct (cap w) as [opened |]; do 2 eexists;
    (split; [reflexivity |]); cbn [trace]; (split; [list_norm; reflexivity |]);
    repeat split.
Qed.

(** A cycle returns [True] only when it read a frame; otherwise it posts
    nothing. *)
Lemma run_once_without_frame (a : Args) (ce : CycleEnv) (w : World) :
  (cap w = Some true /\ exists img, read_out ce = Ok (true, Some img)) \/
  (fst (run_once a ce w) <> Some (Ok true) /\
   Observe.posts (trace (snd (run_once a ce w))) = Observe.posts (trace w)).
Proof.
  destruct (cap w) as [[|] |] eqn:Hcap.
  - destruct (read_out ce) as [[[|] [img |]] | [msg |]] eqn:Hread;
      [left; eauto | right ..];
      unfold_cycle; cbn; rewrite Hcap, Hread; cbn;
      (split; [discriminate |]);
      rewrite <- ?app_assoc, posts_app; cbn; apply app_nil_r.
  - right. rewrite run_once_closed by congruence. cbn.
    split; [discriminate |]. rewrite posts_app. apply app_nil_r.
  - right. rewrite run_once_closed by congruence. cbn.
    split; [discriminate |]. rewrite posts_app. apply app_nil_r.
Qed.

(** X12.  The single run.  With [--once], once the camera has opened,
    [main] always returns, whatever the environment: it runs one cycle, never
    sleeps and posts at most one request.  Its exit status is 0 only when
    that cycle read a frame and the endpoint accepted the one request posted
    for it; otherwise it is 1, or the interrupt of the user passes through. *)
Theorem once_mode_single_cycle (a : Args) (e : Env) :
  once a = true ->
  open_out e = Ok true ->
  exists r w,
    (forall fuel, main a e fuel new_monitor = (Some r, w)) /\
    Observe.cycles (trace w) = 1%nat /\
    Trace.sleeps (trace w) = [] /\
    (length (Observe.posts (trace w)) <= 1)%nat /\
    (r = Ok 0 \/ r = Ok 1 \/ r = Raise KeyboardInterrupt) /\
    (r = Ok 0 ->
     exists req,
       Observe.posts (trace w) = [req] /\ accepted (cycle e 0) req).
Proof.
  intros Honce Hopen.
  destruct (initialize_opened_quiet a e Hopen)
    as (w0 & Hinit & Hcap0 & Hcy0 & Hsl0 & Hpo0).
  pose proof (run_once_shape a (cycle e 0) w0) as (HR & _ & _ & evs & T & F).
  pose proof (run_once_without_frame a (cycle e 0) w0) as Hframe.
  assert (Hposts :
    (fst (run_once a (cycle e 0) w0) = Some (Ok true) ->
     exists req,
       Observe.posts (trace (snd (run_once a (cycle e 0) w0))) = [req] /\
       accepted (cycle e 0) req) /\
    (length (Observe.posts (trace (snd (run_once a (cycle e 0) w0)))) <= 1)%nat).
  { destruct Hframe as [(Hc & img & Hread) | (Hne & Hp)].
    - pose proof (run_once_frame a (cycle e 0) w0 img Hc Hread) as Hf.
      pose proof (calculate_logged (bg w0) img) as Hlog.
      destruct (calculate_busyness_score (bg w0) img)
        as [[[score md] bg'] logged].
      cbv zeta in Hf. cbn [snd] in Hlog.
      destruct Hf as (o & w' & rest & Heq & T' & F' & _ & Hiff).
      rewrite Heq. cbn [fst snd].
      pose proof (count_posts_none rest F') as Hrest.
      assert (Hp : Observe.posts (trace w') =
                   [upload_request a score md (now (cycle e 0)) (notes a)
                      (camera_name a)]).
      { rewrite T', posts_app, Hpo0. unfold Observe.posts in *.
        cbn [flat_map Trace.cycle_start app].
        rewrite flat_map_app, Hlog. cbn [flat_map app]. rewrite Hrest.
        reflexivity. }
      split; [| rewrite Hp; cbn; lia].
      intros Ho. eexists. split; [exact Hp | apply Hiff, Ho].
    - split; [intros Ho; contradiction |].
      rewrite Hp, Hpo0. cbn. lia. }
  destruct Hposts as [Htrue Hle].
  destruct (inner_quiet evs F) as [Hcy Hsl].
  destruct (run_once a (cycle e 0) w0) as [[[ok | [msg |]] |] w1] eqn:Hrun;
    cbn [fst snd] in *; try contradiction;
    destruct (cleanup_quiet w1) as (w2 & evs2 & Hcl & T2 & Hcy2 & Hsl2 & Hpo2).
  - exists (Ok (if ok then 0 else 1)), w2. split.
    { intros fuel. unfold main. unfold bind at 1. rewrite Hinit. cbn [negb].
      unfold try_finally, try_except. rewrite Honce. unfold bind.
      rewrite Hrun. unfold ret. rewrite Hcl. reflexivity. }
    rewrite T2, T. rewrite !cycles_app, !sleeps_app, !posts_app.
    rewrite Hcy0, Hsl0, Hcy2, Hsl2, Hpo2. rewrite !app_nil_r.
    rewrite T, posts_app in Hle.
    change (Observe.cycles (Trace.cycle_start :: evs))
      with (S (Observe.cycles evs)).
    change (Trace.sleeps (Trace.cycle_start :: evs)) with (Trace.sleeps evs).
    rewrite Hcy, Hsl.
    split; [reflexivity |]. split; [reflexivity |]. split; [exact Hle |].
    split; [destruct ok; auto |].
    destruct ok; [| discriminate]. intros _.
    destruct (Htrue eq_refl) as (req & Hp & Hacc).
    exists req. split; [| exact Hacc]. rewrite <- posts_app, <- T. exact Hp.
  - exists (Raise KeyboardInterrupt), w2. split.
    { intros fuel. unfold main. unfold bind at 1. rewrite Hinit. cbn [negb].
      unfold try_finally, try_except. rewrite Honce. unfold bind.
      rewrite Hrun. rewrite Hcl. reflexivity. }
    rewrite T2, T. rewrite !cycles_app, !sleeps_app, !posts_app.
    rewrite Hcy0, Hsl0, Hcy2, Hsl2, Hpo2. rewrite !app_nil_r.
    rewrite T, posts_app in Hle.
    change (Observe.cycles (Trace.cycle_start :: evs))
      with (S (Observe.cycles evs)).
    change (Trace.sleeps (Trace.cycle_start :: evs)) with (Trace.sleeps evs).
    rewrite Hcy, Hsl.
    split; [reflexivity |]. split; [reflexivity |]. split; [exact Hle |].
    split; [auto | discriminate].
Qed.

End OnceMode.

Lemma once_mode_single_cycle_witness :
  exists r w,
    (forall fuel,
       main (V := Sample.blind_vision) (J := Sample.plain_json)
         (Sample.args true 5) Sample.calm fuel new_monitor = (Some r, w)) /\
    Observe.cycles (trace w) = 1%nat /\
    Trace.sleeps (trace w) = [] /\
    (length (Observe.posts (trace w)) <= 1)%nat /\
    (r = Ok 0 \/ r = Ok 1 \/ r = Raise KeyboardInterrupt) /\
    (r = Ok 0 ->
     exists req,
       Observe.posts (trace w) = [req] /\
       accepted (cycle Sample.calm 0) req).
Proof.
  apply (once_mode_single_cycle (V := Sample.blind_vision)
           (J := Sample.plain_json) (Sample.args true 5) Sample.calm);
    reflexivity.
Defined.

(** * Properties of the test script *)

Ltac unfold_script :=
  unfold Script.result_of, Script.state_of, Script.output_of,
    Script.bind, Script.print, Script.on_state, Script.ret, Script.eval,
    Script.try_except, Script.try_finally.

Ltac unfold_camera :=
  unfold TestSystem.new_camera, TestSystem.new_evaluator, TestSystem.opening,
    TestSystem.reading, initialize_camera, capture_image, release_camera,
    evaluate, try_except, bind, emit, log, call, set_cap, get_cap, ret.

Section TestFacts.
Context `{V : Vision}.

(** X13.  [test_camera_capture] releases the camera exactly when it opened
    it and the read was not interrupted: a failed open leaves the capture
    object unreleased, and so does an interrupt during the read, because the
    test has no [finally].  The test passes exactly when a frame was read
    from an opened camera. *)
Theorem test_camera_capture_releases (te : TestSystem.TestEnv) (w : World)
    (out : list Script.line) :
  let r := TestSystem.test_camera_capture te w out in
  exists evs,
    trace (Script.state_of r) = (trace w ++ evs)%list /\
    Trace.releases evs
    = match TestSystem.capture_open te, TestSystem.capture_read te with
      | Ok true, Raise KeyboardInterrupt => O
      | Ok true, _ => 1%nat
      | _, _ => O
      end /\
    (Script.result_of r = Some (Ok true)
     <-> TestSystem.gets_frame (TestSystem.capture_open te)
           (TestSystem.capture_read te) = true).
Proof.
  cbv zeta. unfold TestSystem.test_camera_capture.
  unfold_script. unfold_camera. cbn.
  destruct (TestSystem.capture_open te) as [[|] | [msg |]]; cbn;
    [destruct (TestSystem.capture_read te) as [[[|] [img |]] | [msg |]]; cbn
    | ..];
    eexists; (split; [list_norm; reflexivity |]);
    (split; [reflexivity |]); split; congruence.
Qed.

Lemma test_camera_capture_result (te : TestSystem.TestEnv) (w : World)
    (out : list Script.line) :
  TestSystem.interrupts (TestSystem.capture_open te)
    (TestSystem.capture_read te) = false ->
  Script.result_of (TestSystem.test_camera_capture te w out)
  = Some (Ok (TestSystem.gets_frame (TestSystem.capture_open te)
                (TestSystem.capture_read te))).
Proof.
  unfold TestSystem.test_camera_capture.
  unfold_script. unfold_camera. cbn.
  destruct (TestSystem.capture_open te) as [[|] | [msg |]]; cbn;
    [destruct (TestSystem.capture_read te) as [[[|] [img |]] | [msg |]]; cbn
    | ..];
    congruence.
Qed.

(** The metadata of a scored frame is the record built by
    [metadata_of]. *)
Lemma try_score_metadata (b : bg_model) (image : ndarray) (score : Z)
    (metadata : dict) :
  fst (try_score b image) = Ret (score, metadata) ->
  exists m e v t n c, metadata = metadata_of m e v t n c.
Proof.
  unfold try_score.
  destruct (cvtColor_BGR2GRAY image) as [gray | msg]; [| discriminate].
  destruct (bg_apply b image) as [mask b']. simpl. intros H. peel H.
  unfold score_from in H. peel H. injection H as _ <-. eauto 10.
Qed.

(** The numbers that the evaluation test formats are numbers, on a scored
    frame and on a degraded result alike. *)
Lemma evaluator_metadata_formats (b : bg_model) (image : ndarray) :
  let metadata := snd (fst (fst (calculate_busyness_score b image))) in
  Forall (fun key =>
            exists shown,
              TestSystem.format_f (dict_get metadata key (VInt 0)) = Ret shown)
    ["motion_ratio"; "edge_ratio"; "color_variance"].
Proof.
  cbv zeta. unfold calculate_busyness_score.
  destruct (try_score b image) as [[[score md] | msg] b'] eqn:E; cbn [fst snd].
  - assert (E' : fst (try_score b image) = Ret (score, md))
      by (rewrite E; reflexivity).
    destruct (try_score_metadata b image score md E')
      as (m & e & v & t & n & c & ->).
    destruct (metadata_of_lookup m e v t n c) as (L1 & L2 & L3 & _).
    repeat constructor; unfold dict_get; rewrite ?L1, ?L2, ?L3;
      eexists; reflexivity.
  - repeat constructor; eexists; reflexivity.
Qed.




Lemma count_cons (p : event -> bool) (ev : event) (l : list event) :
  Trace.count p (ev :: l)
  = ((if p ev then 1 else 0) + Trace.count p l)%nat.
Proof. unfold Trace.count. cbn. destruct (p ev); reflexivity. Qed.

Lemma calculate_releases_nothing (b : bg_model) (image : ndarray) :
  Trace.releases (snd (calculate_busyness_score b image)) = O.
Proof.
  unfold calculate_busyness_score.
  destruct (try_score b image) as [[r | msg] b']; reflexivity.
Qed.

(** X14.  [test_full_cycle] releases the capture object on every exit,
    through its [finally]: once a capture object exists, opened or not, it
    is released exactly once, also when the read is interrupted or scoring
    falls back; nothing is released only when no capture object was created.
    No [Exception] leaves the test, and it passes exactly when a frame was
    read from an opened camera. *)
Theorem test_full_cycle_releases (te : TestSystem.TestEnv) (w : World)
    (out : list Script.line) :
  let r := TestSystem.test_full_cycle te w out in
  exists evs,
    trace (Script.state_of r) = (trace w ++ evs)%list /\
    Trace.releases evs
    = match TestSystem.cycle_open te with
      | Ok _ => 1%nat
      | Raise _ => O
      end /\
    (forall msg, Script.result_of r <> Some (Raise (Exception msg))) /\
    (Script.result_of r = Some (Ok true)
     <-> TestSystem.gets_frame (TestSystem.cycle_open te)
           (TestSystem.cycle_read te) = true).
Proof.
  cbv zeta. unfold TestSystem.test_full_cycle.
  unfold_script. unfold_camera. cbn.
  destruct (TestSystem.cycle_open te) as [[|] | [msg |]]; cbn;
    [destruct (TestSystem.cycle_read te) as [[[|] [img |]] | [msg |]]; cbn;
     [pose proof (calculate_releases_nothing createBackgroundSubtractorMOG2
                    img) as Hlog;
      destruct (calculate_busyness_score createBackgroundSubtractorMOG2 img)
        as [[[score md] b'] logged]; cbn [snd] in Hlog; cbn
     | ..]
    | ..];
    eexists; (split; [list_norm; reflexivity |]);
    unfold Trace.releases in *; rewrite ?count_cons, ?count_app, ?Hlog;
    (split; [reflexivity |]); (split; [intros ?; discriminate |]);
    split; congruence.
Qed.

Lemma test_full_cycle_result (te : TestSystem.TestEnv) (w : World)
    (out : list Script.line) :
  TestSystem.interrupts (TestSystem.cycle_open te) (TestSystem.cycle_read te)
  = false ->
  Script.result_of (TestSystem.test_full_cycle te w out)
  = Some (Ok (TestSystem.gets_frame (TestSystem.cycle_open te)
                (TestSystem.cycle_read te))).
Proof.
  unfold TestSystem.test_full_cycle.
  unfold_script. unfold_camera. cbn.
  destruct (TestSystem.cycle_open te) as [[|] | [msg |]]; cbn;
    [destruct (TestSystem.cycle_read te) as [[[|] [img |]] | [msg |]]; cbn;
     [destruct (calculate_busyness_score createBackgroundSubtractorMOG2 img)
        as [[[score md] b'] logged]; cbn
     | ..]
    | ..];
    congruence.
Qed.

Lemma test_busyness_evaluation_result (te : TestSystem.TestEnv)
    (w : World) (out : list Script.line) :
  Script.result_of (TestSystem.test_busyness_evaluation te w out)
  = Some (Ok true).
Proof.
  unfold TestSystem.test_busyness_evaluation.
  unfold_script. unfold TestSystem.new_evaluator, evaluate. cbn [fst snd bg].
  pose proof (evaluator_metadata_formats createBackgroundSubtractorMOG2
                (TestSystem.test_image te)) as Hf.
  destruct (calculate_busyness_score createBackgroundSubtractorMOG2
              (TestSystem.test_image te)) as [[[score md] b'] logged].
  cbn [fst snd] in *.
  apply Forall_cons_1 in Hf as [[s1 H1] Hf].
  apply Forall_cons_1 in Hf as [[s2 H2] Hf].
  apply Forall_cons_1 in Hf as [[s3 H3] _].
  rewrite H1. cbn. rewrite H2. cbn. rewrite H3. reflexivity.
Qed.

(** X15.  [test_busyness_evaluation] cannot fail: whatever the image, and
    also when the evaluator cannot score it and falls back on the score 5,
    the test prints its report and returns [True].  It checks neither the
    score nor the metadata. *)
Theorem test_busyness_evaluation_always_passes (te : TestSystem.TestEnv)
    (w : World) (out : list Script.line) :
  Script.result_of (TestSystem.test_busyness_evaluation te w out)
  = Some (Ok true).
Proof. apply test_busyness_evaluation_result. Qed.

(** One turn of the loop of [main]: a test that returns adds one to the
    count when it passed. *)
Lemma run_tests_step (name : string) (test : Script.Prog (X := World) bool)
    (rest : list (string * Script.Prog (X := World) bool)) (passed : Z)
    (verdict : bool) (w : World) (out : list Script.line) :
  (forall w' out', Script.result_of (test w' out') = Some (Ok verdict)) ->
  exists w1 out1,
    TestSystem.run_tests ((name, test) :: rest) passed w out
    = TestSystem.run_tests rest (if verdict then passed + 1 else passed)
        w1 out1.
Proof.
  intros Hres. cbn [TestSystem.run_tests]. unfold_script.
  match goal with
  | |- context [test ?w' ?out'] =>
      pose proof (Hres w' out') as H; unfold Script.result_of in H;
      destruct (test w' out') as [[o w1] out1]
  end.
  cbn in H. subst o. destruct verdict; eauto.
Qed.

(** X16.  The verdict of the test script.  When the user does not interrupt
    it, [main] returns 0 exactly when both camera tests read a frame from an
    opened camera, and 1 otherwise: the evaluation test always counts as
    passed, and a failing test never stops the ones after it. *)
Theorem test_main_verdict (te : TestSystem.TestEnv) (w : World)
    (out : list Script.line) :
  TestSystem.interrupts (TestSystem.capture_open te)
    (TestSystem.capture_read te) = false ->
  TestSystem.interrupts (TestSystem.cycle_open te) (TestSystem.cycle_read te)
  = false ->
  Script.result_of (TestSystem.main te w out)
  = Some (Ok (if TestSystem.gets_frame (TestSystem.capture_open te)
                   (TestSystem.capture_read te)
                 && TestSystem.gets_frame (TestSystem.cycle_open te)
                      (TestSystem.cycle_read te)
              then 0 else 1)).
Proof.
  intros H1 H3. unfold TestSystem.main, TestSystem.tests.
  unfold Script.bind at 1 2 3. unfold Script.print at 1 2.
  cbn [length Z.of_nat].
  match goal with
  | |- context [TestSystem.run_tests (_ :: ?rest) 0 ?w0 ?out0] =>
      destruct (run_tests_step "Camera Capture"
                  (TestSystem.test_camera_capture te) rest 0 _ w0 out0
                  (fun w' out' => test_camera_capture_result te w' out' H1))
        as (w1 & out1 & ->)
  end.
  match goal with
  | |- context [TestSystem.run_tests (_ :: ?rest) ?n w1 out1] =>
      destruct (run_tests_step "Busyness Evaluation"
                  (TestSystem.test_busyness_evaluation te) rest n true w1 out1
                  (test_busyness_evaluation_result te))
        as (w2 & out2 & ->)
  end.
  match goal with
  | |- context [TestSystem.run_tests (_ :: ?rest) ?n w2 out2] =>
      destruct (run_tests_step "Full Cycle"
                  (TestSystem.test_full_cycle te) rest n _ w2 out2
                  (fun w' out' => test_full_cycle_result te w' out' H3))
        as (w3 & out3 & ->)
  end.
  cbn [TestSystem.run_tests]. unfold_script.
  destruct (TestSystem.gets_frame (TestSystem.capture_open te)
              (TestSystem.capture_read te));
    destruct (TestSystem.gets_frame (TestSystem.cycle_open te)
                (TestSystem.cycle_read te)); reflexivity.
Qed.

End TestFacts.

Lemma test_main_verdict_witness :
  Script.result_of
    (TestSystem.main (V := Sample.blind_vision) Cases.unplugged
       (new_monitor (V := Sample.blind_vision)) [])
  = Some (Ok 1).
Proof.
  apply (test_main_verdict (V := Sample.blind_vision) Cases.unplugged
           (new_monitor (V := Sample.blind_vision)) []); reflexivity.
Defined.

(** * Properties of init_database.py *)

(** Runs a request of a script on the reply that the hypotheses describe. *)
Ltac on_reply Ha Hs Hj Hg Ht :=
  unfold_script; unfold InitDatabase.post; cbn;
  rewrite ?Ha; cbn; rewrite ?Hs; cbn; rewrite ?Hj; cbn; rewrite ?Hg; cbn;
  rewrite ?Ht; cbn;
  try match goal with
      | |- context [Py.get ?b "errors" ?d] =>
          destruct (Py.get b "errors" d); cbn
      end.

Section DatabaseFacts.
Variable env : InitDatabase.DbEnv.
Variable creds : Py.json * Py.json * Py.json.

Lemma run_statements_sends (total : Z) (statements : list string) :
  forall (i : Z) (sent : list InitDatabase.query) (out : list Script.line),
    let run := InitDatabase.run_statements env creds total statements i sent out in
    let k := InitDatabase.leading_accepted env creds (length sent) statements in
    Script.state_of run
    = (sent ++ map (InitDatabase.query_for creds) (firstn (S k) statements))%list /\
    (Script.result_of run = Some (Ok true) <-> k = length statements) /\
    Script.settled (Script.result_of run) true false.
Proof.
  induction statements as [| sql rest IH]; intros i sent out; cbv zeta.
  - cbn. rewrite app_nil_r. unfold Script.settled. tauto.
  - cbn [InitDatabase.run_statements InitDatabase.leading_accepted].
    unfold InitDatabase.accepted_at, InitDatabase.reply_accepts.
    destruct (InitDatabase.answer env (length sent)
                (InitDatabase.query_for creds sql)) as [rep | [msg |]] eqn:Ha;
      [destruct (InitDatabase.status rep =? 200) eqn:Hs;
       [destruct (InitDatabase.reply_json rep) as [body | m] eqn:Hj;
        [destruct (Py.get body "success" (Py.JBool false)) as [s | m] eqn:Hg;
         [destruct (Py.truthy s) eqn:Ht |] |] |] | |];
      on_reply Ha Hs Hj Hg Ht;
      try (unfold Script.settled; repeat split; auto; discriminate).
    specialize (IH (i + 1) (sent ++ [InitDatabase.query_for creds sql])%list).
    rewrite length_app, Nat.add_1_r in IH.
    match goal with
    | |- context [InitDatabase.run_statements ?a ?b ?c ?d ?e ?f ?g] =>
        specialize (IH g);
        cbv zeta in IH; unfold Script.result_of, Script.state_of in IH;
        destruct (InitDatabase.run_statements a b c d e f g)
          as [[o' s'] out']
    end.
    cbn [fst snd] in *. destruct IH as (S1 & S2 & S3).
    split; [| split].
    + rewrite S1. list_norm. reflexivity.
    + rewrite S2. split; intros; lia.
    + exact S3.
Qed.


Lemma any_named_objects (tables : list Py.json) :
  forallb InitDatabase.is_object tables = true ->
  exists found, InitDatabase.any_named tables = Ret found.
Proof.
  induction tables as [| table rest IH]; cbn; [eauto |].
  intros H. apply andb_prop in H as [Ht Hrest].
  destruct table; try discriminate. cbn.
  match goal with |- context [if ?b then _ else _] => destruct b end; eauto.
Qed.

(** The probe: one request, whatever the reply; [True] only for a reply
    that the endpoint accepted. *)
Lemma probe_sends (config : Py.json) (sent : list InitDatabase.query)
    (out : list Script.line) :
  InitDatabase.credentials config = Ret creds ->
  let run := InitDatabase.test_database_connection env config sent out in
  let probe := InitDatabase.query_for creds InitDatabase.sql_probe in
  Script.state_of run = (sent ++ [probe])%list /\
  Script.settled (Script.result_of run) true false /\
  (Script.result_of run = Some (Ok true) ->
   InitDatabase.accepted_at env creds (length sent) InitDatabase.sql_probe
   = true).
Proof.
  intros Hc. cbv zeta. unfold InitDatabase.test_database_connection.
  unfold InitDatabase.accepted_at, InitDatabase.reply_accepts.
  rewrite Hc.
  destruct (InitDatabase.answer env (length sent)
              (InitDatabase.query_for creds InitDatabase.sql_probe))
    as [rep | [msg |]] eqn:Ha;
    [destruct (InitDatabase.status rep =? 200) eqn:Hs;
     [destruct (InitDatabase.reply_json rep) as [body | m] eqn:Hj;
      [destruct (Py.get body "success" (Py.JBool false)) as [s | m] eqn:Hg;
       [destruct (Py.truthy s) eqn:Ht |] |] |] | |];
    on_reply Ha Hs Hj Hg Ht;
    try (unfold Script.settled; repeat split; auto; discriminate).
  destruct (Py.get body "result" (Py.JList [])) as [tables | m]; cbn;
    [| unfold Script.settled; repeat split; auto; discriminate].
  destruct (Py.iterate tables) as [items | m]; cbn;
    [| unfold Script.settled; repeat split; auto; discriminate].
  destruct (InitDatabase.any_named items) as [[|] | m]; cbn;
    unfold Script.settled; repeat split; auto; discriminate.
Qed.


Lemma leading_accepted_bound (position : nat) (statements : list string) :
  (InitDatabase.leading_accepted env creds position statements
   <= length statements)%nat.
Proof.
  revert position. induction statements as [| sql rest IH]; intros position;
    cbn; [lia |].
  destruct (InitDatabase.accepted_at env creds position sql); [| lia].
  specialize (IH (S position)). lia.
Qed.

Lemma leading_accepted_each (statements : list string) :
  forall (position j : nat),
    (j < InitDatabase.leading_accepted env creds position statements)%nat ->
    InitDatabase.accepted_at env creds (position + j) (nth j statements "")
    = true.
Proof.
  induction statements as [| sql rest IH]; intros position j; cbn; [lia |].
  destruct (InitDatabase.accepted_at env creds position sql) eqn:Ha; [| lia].
  destruct j as [| j]; intros Hj.
  - rewrite Nat.add_0_r. exact Ha.
  - rewrite <- Nat.add_succ_comm. apply IH. lia.
Qed.

(** The statements of the schema, sent from the position of [sent] on. *)
Lemma schema_sends (config : Py.json) (sent : list InitDatabase.query)
    (out : list Script.line) :
  InitDatabase.credentials config = Ret creds ->
  let run := InitDatabase.create_database_schema env config sent out in
  let k := InitDatabase.leading_accepted env creds (length sent)
             InitDatabase.sql_statements in
  Script.state_of run
  = (sent ++ map (InitDatabase.query_for creds)
               (firstn (S k) InitDatabase.sql_statements))%list /\
  (Script.result_of run = Some (Ok true) <-> k = 3%nat) /\
  Script.settled (Script.result_of run) true false.
Proof.
  intros Hc. cbv zeta. unfold InitDatabase.create_database_schema.
  rewrite Hc.
  unfold Script.bind at 1. unfold Script.eval at 1. cbn [lift].
  unfold Script.bind at 1. unfold Script.print at 1.
  apply run_statements_sends.
Qed.

End DatabaseFacts.

(** X17.  [create_database_schema] sends its three statements in order, the
    table first, and stops at the first one that the endpoint does not
    accept: it has then sent the accepted statements and that one, and no
    more.  It returns [True] exactly when all three were accepted; otherwise
    it returns [False], or is interrupted.  Without the three credentials in
    the configuration it raises before sending anything. *)
Theorem create_schema_stops_at_first_rejection (env : InitDatabase.DbEnv)
    (config : Py.json) (sent : list InitDatabase.query)
    (out : list Script.line) :
  let run := InitDatabase.create_database_schema env config sent out in
  match InitDatabase.credentials config with
  | Ret creds =>
      let k := InitDatabase.leading_accepted env creds (length sent)
                 InitDatabase.sql_statements in
      Script.state_of run
      = (sent ++ map (InitDatabase.query_for creds)
                   (firstn (S k) InitDatabase.sql_statements))%list /\
      (Script.result_of run = Some (Ok true) <-> k = 3%nat) /\
      (Script.result_of run = Some (Ok true) \/
       Script.result_of run = Some (Ok false) \/
       Script.result_of run = Some (Raise KeyboardInterrupt))
  | Err msg =>
      Script.state_of run = sent /\
      Script.result_of run = Some (Raise (Exception msg))
  end.
Proof.
  cbv zeta.
  destruct (InitDatabase.credentials config) as [creds | msg] eqn:Hc.
  - apply (schema_sends env creds config sent out Hc).
  - unfold InitDatabase.create_database_schema. rewrite Hc.
    split; reflexivity.
Qed.

(** X18.  [test_database_connection] sends one request, the probe, and
    returns [True] only when the endpoint accepted it.  It does not test that
    the table exists: on an accepted reply that lists objects it returns
    [True] whatever their names, also when none is [busyness_data]. *)
Theorem connection_test_ignores_tables (env : InitDatabase.DbEnv)
    (config : Py.json) (creds : Py.json * Py.json * Py.json)
    (sent : list InitDatabase.query) (out : list Script.line)
    (tables : list Py.json) :
  InitDatabase.credentials config = Ret creds ->
  let run := InitDatabase.test_database_connection env config sent out in
  let probe := InitDatabase.query_for creds InitDatabase.sql_probe in
  let reply := InitDatabase.answer env (length sent) probe in
  Script.state_of run = (sent ++ [probe])%list /\
  (Script.result_of run = Some (Ok true) ->
   InitDatabase.reply_accepts reply = true) /\
  (InitDatabase.reply_accepts reply = true ->
   InitDatabase.listing reply = Some tables ->
   forallb InitDatabase.is_object tables = true ->
   Script.result_of run = Some (Ok true)).
Proof.
  intros Hc. cbv zeta.
  destruct (probe_sends env creds config sent out Hc) as (S1 & _ & S3).
  split; [exact S1 |]. split; [exact S3 |].
  intros Hacc Hlist Hobj.
  destruct (any_named_objects tables Hobj) as [found Hfound].
  unfold InitDatabase.test_database_connection. rewrite Hc.
  unfold InitDatabase.reply_accepts, InitDatabase.listing in *.
  destruct (InitDatabase.answer env (length sent)
              (InitDatabase.query_for creds InitDatabase.sql_probe))
    as [rep | e] eqn:Ha; [| discriminate].
  apply andb_prop in Hacc as [Hs Hacc].
  destruct (InitDatabase.reply_json rep) as [body | m] eqn:Hj;
    [| discriminate].
  destruct (Py.get body "success" (Py.JBool false)) as [s | m] eqn:Hg;
    [| discriminate].
  destruct (Py.get body "result" (Py.JList [])) as [[] | m] eqn:Hr;
    try discriminate.
  injection Hlist as ->.
  on_reply Ha Hs Hj Hg Hacc. rewrite Hr. cbn. rewrite Hfound. cbn.
  destruct found; reflexivity.
Qed.

Lemma connection_test_ignores_tables_witness :
  InitDatabase.credentials Cases.config = Ret Cases.creds /\
  Script.result_of
    (InitDatabase.test_database_connection Cases.idle_database Cases.config
       [] [])
  = Some (Ok true).
Proof.
  split; [reflexivity |].
  destruct (connection_test_ignores_tables Cases.idle_database Cases.config
              Cases.creds [] [] [] eq_refl) as (_ & _ & H).
  apply H; reflexivity.
Defined.

Lemma credentials_database_id (config : Py.json)
    (creds : Py.json * Py.json * Py.json) :
  InitDatabase.credentials config = Ret creds ->
  exists cloudflare,
    Py.getitem config "cloudflare" = Ret cloudflare /\
    Py.getitem cloudflare "database_id" = Ret (snd creds).
Proof.
  unfold InitDatabase.credentials, obind.
  destruct (Py.getitem config "cloudflare") as [cf | m]; [| discriminate].
  destruct (Py.getitem cf "api_token") as [t | m]; [| discriminate].
  destruct (Py.getitem cf "account_id") as [a | m]; [| discriminate].
  destruct (Py.getitem cf "database_id") as [d | m] eqn:Hd; [| discriminate].
  intros [= <-]. exists cf. split; [reflexivity | exact Hd].
Qed.

(** X19.  The requests of [init_database.py].  Without a configuration
    (no file, a file that is not JSON, an empty value) [main] returns 1 and
    sends nothing; without the credentials in it, it raises and sends
    nothing.  Otherwise it sends requests of the sequence probe, table, index
    on timestamp, index on score, probe, in this order and at least the first,
    and every request but the last one sent was accepted by the endpoint: no
    statement is sent after a refusal.  It returns 0 only when all five were
    sent and accepted. *)
Theorem init_main_requests (env : InitDatabase.DbEnv) :
  let run := InitDatabase.main env [] [] in
  match InitDatabase.config_file env with
  | InitDatabase.Loaded config =>
      if Py.truthy config then
        match InitDatabase.credentials config with
        | Ret creds =>
            exists n : nat,
              (1 <= n)%nat /\
              Script.state_of run = firstn n (InitDatabase.plan creds) /\
              (forall i : nat,
                 (S i < n)%nat ->
                 InitDatabase.accepted_at env creds i
                   (nth i InitDatabase.script "") = true) /\
              (Script.result_of run = Some (Ok 0) ->
               n = 5%nat /\
               InitDatabase.accepted_at env creds 4 InitDatabase.sql_probe
               = true)
        | Err _ =>
            Script.state_of run = [] /\
            exists msg, Script.result_of run = Some (Raise (Exception msg))
        end
      else Script.state_of run = [] /\ Script.result_of run = Some (Ok 1)
  | InitDatabase.Missing | InitDatabase.Malformed _ =>
      Script.state_of run = [] /\ Script.result_of run = Some (Ok 1)
  | InitDatabase.Unreadable e =>
      Script.state_of run = [] /\ Script.result_of run = Some (Raise e)
  end.
Proof.
  cbv zeta. unfold InitDatabase.main, InitDatabase.load_config.
  destruct (InitDatabase.config_file env) as [| msg | config | e];
    unfold_script; cbv beta iota; try (split; reflexivity).
  destruct (Py.truthy config); cbn [negb]; [| split; reflexivity].
  destruct (InitDatabase.credentials config) as [creds | msg] eqn:Hc.
  - destruct (credentials_database_id config creds Hc) as (cf & G1 & G2).
    unfold obind. rewrite G1, G2. cbn [lift]. cbv beta iota.
    match goal with
    | |- context [InitDatabase.test_database_connection env config ?s ?o] =>
        destruct (probe_sends env creds config s o Hc) as (P1 & P2 & P3);
        destruct (InitDatabase.test_database_connection env config s o)
          as [[r1 s1] o1]
    end.
    cbv zeta in *. unfold Script.result_of, Script.state_of in *.
    cbn [fst snd app length] in *. subst s1.
    destruct P2 as [-> | [-> | ->]]; cbn [negb].
    + specialize (P3 eq_refl).
      match goal with
      | |- context [InitDatabase.create_database_schema env config ?s ?o] =>
          destruct (schema_sends env creds config s o Hc) as (C1 & C2 & C3);
          pose proof (leading_accepted_bound env creds (length s)
                        InitDatabase.sql_statements) as Hk;
          pose proof (leading_accepted_each env creds
                        InitDatabase.sql_statements (length s)) as Hj;
          destruct (InitDatabase.create_database_schema env config s o)
            as [[r2 s2] o2]
      end.
      cbv zeta in *. unfold Script.result_of, Script.state_of in *.
      cbn [fst snd length] in *.
      set (k := InitDatabase.leading_accepted env creds 1
                  InitDatabase.sql_statements) in *.
      assert (Hacc : forall i : nat,
                 (i < S k)%nat ->
                 InitDatabase.accepted_at env creds i
                   (nth i InitDatabase.script "") = true).
      { intros [| j] Hi; [exact P3 |]. unfold InitDatabase.script.
        cbn [nth]. rewrite app_nth1 by lia. apply (Hj j). lia. }
      assert (Hshort : (k < 3)%nat ->
                 s2 = firstn (S (S k)) (InitDatabase.plan creds)).
      { intros Hlt. rewrite C1.
        destruct k as [| [| [| k']]]; [reflexivity .. | lia]. }
      clear Hj. subst s2.
      destruct C3 as [-> | [-> | ->]]; cbn [negb]; cbv beta iota.
      * assert (Hk3 : k = 3%nat) by (apply C2; reflexivity).
        rewrite Hk3 in *.
        match goal with
        | |- context [InitDatabase.test_database_connection env config ?s ?o] =>
            destruct (probe_sends env creds config s o Hc) as (Q1 & Q2 & Q3);
            destruct (InitDatabase.test_database_connection env config s o)
              as [[r3 s3] o3]
        end.
        cbv zeta in *. unfold Script.result_of, Script.state_of in *.
        cbn [fst snd] in *. subst s3.
        exists 5%nat. split; [lia |].
        assert (Hfour : forall i : nat,
                   (S i < 5)%nat ->
                   InitDatabase.accepted_at env creds i
                     (nth i InitDatabase.script "") = true).
        { intros i Hi. apply Hacc. lia. }
        destruct Q2 as [-> | [-> | ->]]; cbn [fst snd];
          (split; [reflexivity |]); (split; [exact Hfour |]);
          try discriminate.
        intros _. split; [reflexivity |]. apply Q3. reflexivity.
      * assert (Hlt : (k < 3)%nat).
        { destruct (Nat.eq_dec k 3%nat) as [E | E]; [| change (length InitDatabase.sql_statements) with 3%nat in Hk; lia].
          apply C2 in E. discriminate. }
        exists (S (S k)). cbn [fst snd].
        split; [lia |]. split; [apply Hshort, Hlt |].
        split; [intros i Hi; apply Hacc; lia | discriminate].
      * assert (Hlt : (k < 3)%nat).
        { destruct (Nat.eq_dec k 3%nat) as [E | E]; [| change (length InitDatabase.sql_statements) with 3%nat in Hk; lia].
          apply C2 in E. discriminate. }
        exists (S (S k)). cbn [fst snd].
        split; [lia |]. split; [apply Hshort, Hlt |].
        split; [intros i Hi; apply Hacc; lia | discriminate].
    + exists 1%nat. cbn [fst snd].
      split; [lia |]. split; [reflexivity |].
      split; [intros i Hi; lia | discriminate].
    + exists 1%nat. cbn [fst snd].
      split; [lia |]. split; [reflexivity |].
      split; [intros i Hi; lia | discriminate].
  - destruct (cloudflare <- Py.getitem config "cloudflare" ;;
              Py.getitem cloudflare "database_id")%outcome as [db | m];
      cbn [lift]; cbv beta iota.
    + unfold InitDatabase.test_database_connection. rewrite Hc.
      unfold_script. cbn. eauto.
    + cbn. eauto.
Qed.


(** A database that refuses the first index: the run stops there, after
    three requests, and returns 1. *)
Example init_main_refused_index :
  Script.state_of (InitDatabase.main Cases.no_index_database [] [])
  = firstn 3 (InitDatabase.plan Cases.creds) /\
  Script.result_of (InitDatabase.main Cases.no_index_database [] [])
  = Some (Ok 1).
Proof. split; vm_compute; reflexivity. Qed.

(** A database that accepts everything and lists no table: the run sends
    the five requests and returns 0. *)
Example init_main_idle_database :
  Script.state_of (InitDatabase.main Cases.idle_database [] [])
  = InitDatabase.plan Cases.creds /\
  Script.result_of (InitDatabase.main Cases.idle_database [] [])
  = Some (Ok 0).
Proof. split; vm_compute; reflexivity. Qed.

(** * Properties of setup.py *)

(** The comparison of [check_python_version]. *)
Lemma version_check (v : Setup.version) :
  Setup.tuple_lt (Setup.as_tuple v) [Setup.INum 3; Setup.INum 7]
  = Ret (negb (Setup.supported v)).
Proof.
  unfold Setup.as_tuple, Setup.supported. cbn.
  destruct (Z.eqb_spec (Setup.major v) 3) as [E | E].
  - rewrite E. cbn.
    destruct (Z.eqb_spec (Setup.minor v) 7) as [E' | E'].
    + rewrite E'. reflexivity.
    + cbn. f_equal. destruct (Z.ltb_spec (Setup.minor v) 7),
        (Z.leb_spec 7 (Setup.minor v)); cbn; try reflexivity; lia.
  - cbn. f_equal. rewrite orb_false_r.
    destruct (Z.ltb_spec (Setup.major v) 3), (Z.ltb_spec 3 (Setup.major v));
      cbn; try reflexivity; lia.
Qed.

Ltac unfold_setup :=
  unfold Setup.main, Setup.steps, Setup.show_next_steps, Setup.run_tests,
    Setup.create_config_template, Setup.check_camera_access,
    Setup.install_dependencies, Setup.check_python_version,
    Setup.dump_config, Setup.path_exists, Setup.call, Setup.act;
  cbn [Setup.run_steps].

Ltac settle :=
  repeat match goal with
         | |- _ /\ _ => split
         | |- _ <-> _ => split
         | |- forall _, _ => intro
         | H : _ /\ _ |- _ => destruct H
         | H : exists _, _ |- _ => destruct H
         | H : _ \/ _ |- _ => destruct H
         | H : False |- _ => destruct H
         | H : ?a = ?a -> _ |- _ => specialize (H eq_refl)
         end;
  try discriminate; try congruence; try reflexivity;
  eauto 8 using eq_refl.

Ltac leaf :=
  unfold_script; cbn;
  split; [settle |];
  split;
  [ first [ exists 0%nat; cbn; rewrite ?app_nil_r; list_norm; solve [settle]
          | exists 1%nat; cbn; rewrite ?app_nil_r; list_norm; solve [settle]
          | exists 2%nat; cbn; rewrite ?app_nil_r; list_norm; solve [settle]
          | exists 3%nat; cbn; rewrite ?app_nil_r; list_norm; solve [settle]
          | exists 4%nat; cbn; rewrite ?app_nil_r; list_norm; solve [settle]
          | exists 5%nat; cbn; rewrite ?app_nil_r; list_norm; solve [settle] ]
  | try match goal with |- context [match ?c with Some _ => _ | None => _ end] =>
      destruct c end; settle ].

Section SetupFacts.
Variable env : Setup.SetupEnv.

(** What a run of the setup does and returns, by the answers of the
    machine. *)
Lemma setup_main_facts (m : Setup.Machine) (out : list Script.line) :
  let run := Setup.main env m out in
  let m' := Script.state_of run in
  (Script.result_of run = Some (Ok 0) <-> Setup.tests_ok env m) /\
  (exists n : nat,
     let done := firstn n (Setup.schedule (Setup.config_json m)) in
     Setup.actions m' = (Setup.actions m ++ done)%list /\
     (In Setup.PipInstall done <-> Setup.python_ok env) /\
     (In Setup.OpenCamera done <-> Setup.camera_tried env) /\
     (In Setup.ReleaseCamera done <-> Setup.camera_ok env) /\
     (In Setup.WriteConfig done
      <-> Setup.camera_ok env /\ Setup.config_json m = None) /\
     (In Setup.RunTestScript done <-> Setup.config_ok env m)) /\
  match Setup.config_json m with
  | Some c => Setup.config_json m' = Some c
  | None =>
      (Setup.config_json m' = Some (Setup.Dump Setup.config_template 2)
       <-> Setup.camera_ok env /\ Setup.write_out env = Ok tt) /\
      (Setup.config_json m' = None \/
       Setup.config_json m' = Some (Setup.Dump Setup.config_template 2))
  end.
Proof.
  cbv zeta. unfold Setup.tests_ok, Setup.config_ok, Setup.camera_ok,
    Setup.camera_tried, Setup.pip_ok, Setup.python_ok.
  unfold_setup. rewrite version_check.
  destruct env as [v p c vc wo tr].
  cbn [Setup.version_info Setup.pip Setup.cv2_import Setup.video_capture
       Setup.write_out Setup.test_run].
  destruct m as [cfg acts]. cbn [Setup.config_json Setup.actions].
  destruct (Setup.supported v); [| leaf].
  destruct p as [[| pp | pp] | [msg |]]; try solve [leaf].
  destruct c as [| msg | [msg |]]; try solve [leaf].
  destruct vc as [[|] | [msg |]]; try solve [leaf].
  destruct cfg as [content |];
    [| destruct wo as [[] | [msg |]]; try solve [leaf]].
  all: destruct tr as [[| pp | pp] stderr | | [msg |]]; solve [leaf].
Qed.

End SetupFacts.

(** X20.  The verdict of the setup.  [main] returns 0 exactly when every
    step passes: the Python version is 3.7 or later, pip exits with 0,
    OpenCV is installed and camera 0 opens, [config.json] exists or can be
    written, and the test script exits with 0. *)
Theorem setup_main_verdict (env : Setup.SetupEnv) (m : Setup.Machine)
    (out : list Script.line) :
  Script.result_of (Setup.main env m out) = Some (Ok 0)
  <-> Setup.tests_ok env m.
Proof. apply (setup_main_facts env m out). Qed.

(** X21.  The steps of the setup run in order and stop at the first one that
    fails.  What [main] does to the machine is a prefix of: install with pip,
    open the camera, release it, write [config.json] (when there is none),
    run the test script.  Pip runs only on an accepted version, the camera is
    opened only after pip succeeded, it is released exactly when it opened,
    the file is written only after the camera check passed, and the tests run
    only after all of this. *)
Theorem setup_steps_in_order (env : Setup.SetupEnv) (m : Setup.Machine)
    (out : list Script.line) :
  exists n : nat,
    let done := firstn n (Setup.schedule (Setup.config_json m)) in
    Setup.actions (Script.state_of (Setup.main env m out))
    = (Setup.actions m ++ done)%list /\
    (In Setup.PipInstall done <-> Setup.python_ok env) /\
    (In Setup.OpenCamera done <-> Setup.camera_tried env) /\
    (In Setup.ReleaseCamera done <-> Setup.camera_ok env) /\
    (In Setup.WriteConfig done
     <-> Setup.camera_ok env /\ Setup.config_json m = None) /\
    (In Setup.RunTestScript done <-> Setup.config_ok env m).
Proof. apply (setup_main_facts env m out). Qed.

(** X22.  The setup never overwrites a configuration: a [config.json] that
    exists is left as it is.  When there is none, the file is created exactly
    when the camera check passed and the write succeeds, and it then holds
    the template with its placeholders, dumped with an indentation of 2. *)
Theorem setup_keeps_config (env : Setup.SetupEnv) (m : Setup.Machine)
    (out : list Script.line) :
  let m' := Script.state_of (Setup.main env m out) in
  match Setup.config_json m with
  | Some c => Setup.config_json m' = Some c
  | None =>
      (Setup.config_json m' = Some (Setup.Dump Setup.config_template 2)
       <-> Setup.camera_ok env /\ Setup.write_out env = Ok tt) /\
      (Setup.config_json m' = None \/
       Setup.config_json m' = Some (Setup.Dump Setup.config_template 2))
  end.
Proof. apply (setup_main_facts env m out). Qed.

(** Python 3.6: the setup stops before pip. *)
Example setup_on_old_python :
  Script.result_of (Setup.main Cases.old_python Cases.fresh_machine [])
  = Some (Ok 1) /\
  Script.state_of (Setup.main Cases.old_python Cases.fresh_machine [])
  = Cases.fresh_machine.
Proof. split; vm_compute; reflexivity. Qed.

(** A machine on which every step passes, without and with a
    [config.json]. *)
Example setup_on_fresh_machine :
  Script.result_of (Setup.main Cases.ready Cases.fresh_machine [])
  = Some (Ok 0) /\
  Script.state_of (Setup.main Cases.ready Cases.fresh_machine [])
  = {| Setup.config_json := Some (Setup.Dump Setup.config_template 2);
       Setup.actions := Setup.schedule None |}.
Proof. split; vm_compute; reflexivity. Qed.

Example setup_on_configured_machine :
  Script.state_of (Setup.main Cases.ready Cases.configured_machine [])
  = {| Setup.config_json := Some (Setup.Text "{}");
       Setup.actions := Setup.schedule (Some (Setup.Text "{}")) |}.
Proof. vm_compute. reflexivity. Qed.

(** * The uploads of the monitor and the table of init_database.py *)

Section SchemaFacts.
Context `{V : Vision} `{J : Json}.

(** A request with a score from 1 to 10 fits the table. *)
Lemma request_fits (a : Args) (score : Z) (metadata : dict)
    (timestamp notes camera_name : string) :
  1 <= score <= 10 ->
  Schema.fits InitDatabase.sql_create_table
    (upload_request a score metadata timestamp notes camera_name) = true.
Proof.
  intros [Hlo Hhi]. unfold Schema.fits, Schema.bound, upload_request.
  cbn [sql params].
  set (cols := Sql.insert_columns sql_query). vm_compute in cols. subst cols.
  set (tcols := Schema.table_columns InitDatabase.sql_create_table).
  vm_compute in tcols. subst tcols.
  set (req := Schema.required_columns InitDatabase.sql_create_table).
  vm_compute in req. subst req.
  set (chk := Schema.check_bounds InitDatabase.sql_create_table "score").
  vm_compute in chk. subst chk.
  unfold upload_params. cbn.
  apply andb_true_intro. split; [apply Z.leb_le, Hlo | apply Z.leb_le, Hhi].
Qed.

Lemma calculate_score_range (b : bg_model) (image : ndarray) :
  1 <= fst (fst (fst (calculate_busyness_score b image))) <= 10.
Proof.
  destruct (fst (try_score b image)) as [[score metadata] | msg] eqn:E.
  - rewrite (calculate_scored _ _ _ E). cbn [fst].
    eauto using try_score_range.
  - rewrite (calculate_degraded _ _ _ E). cbn [fst].
    unfold fallback_score. lia.
Qed.

Lemma quiet_fitting (table : string) (evs : list event) :
  forallb (fun ev => negb (Trace.is_post ev)) evs = true ->
  forallb (Schema.fitting table) evs = true.
Proof.
  induction evs as [| ev evs IH]; [reflexivity |]. cbn [forallb].
  intros H. apply andb_prop in H as [Hev Hevs]. rewrite (IH Hevs).
  destruct ev; try reflexivity. discriminate.
Qed.

Lemma no_posts_quiet (evs : list event) :
  Observe.posts evs = [] ->
  forallb (fun ev => negb (Trace.is_post ev)) evs = true.
Proof.
  unfold Observe.posts.
  induction evs as [| ev evs IH]; [reflexivity |]. cbn [flat_map forallb].
  destruct ev; cbn; try exact IH. discriminate.
Qed.

Lemma only_run_once_fitting (a : Args) (ce : CycleEnv) :
  only (Schema.fitting InitDatabase.sql_create_table) (run_once a ce).
Proof.
  intros w.
  destruct (run_once_without_frame a ce w) as [(Hcap & img & Hread) | [_ Hq]].
  - pose proof (run_once_frame a ce w img Hcap Hread) as H.
    pose proof (calculate_logged (bg w) img) as Hlog.
    pose proof (calculate_score_range (bg w) img) as Hrange.
    destruct (calculate_busyness_score (bg w) img)
      as [[[score md] bg'] logged].
    cbv zeta in H. cbn [fst snd] in *.
    destruct H as (o & w' & rest & -> & T & F & _ & _).
    cbn [snd]. eexists. split; [exact T |].
    cbn [forallb Schema.fitting Trace.cycle_start].
    rewrite forallb_app. cbn [forallb Schema.fitting andb].
    rewrite (quiet_fitting _ _ (no_posts_quiet _ Hlog)).
    rewrite (request_fits _ _ _ _ _ _ Hrange).
    rewrite (quiet_fitting _ _ F). reflexivity.
  - destruct (run_once_shape a ce w) as (_ & _ & _ & evs & T & _).
    exists (Trace.cycle_start :: evs). split; [exact T |].
    rewrite T, posts_app in Hq.
    apply quiet_fitting, no_posts_quiet.
    rewrite <- (app_nil_r (Observe.posts (trace w))) in Hq at 2.
    apply app_inv_head in Hq. exact Hq.
Qed.

Lemma only_main_fitting (a : Args) (e : Env) (fuel : nat) :
  only (Schema.fitting InitDatabase.sql_create_table) (main a e fuel).
Proof.
  assert (Hclean : only (Schema.fitting InitDatabase.sql_create_table) cleanup).
  { unfold cleanup, release_camera. repeat only_step. }
  unfold main, initialize, initialize_camera. only_step.
  { repeat only_step. }
  only_step; [repeat only_step |].
  only_step; [| exact Hclean].
  only_step; [| repeat only_step].
  only_step.
  - only_step; [apply only_run_once_fitting | repeat only_step].
  - only_step; [| repeat only_step].
    unfold run_continuous. only_step; [repeat only_step |].
    only_step; [repeat only_step |].
    only_step; [| exact Hclean].
    only_step; [| repeat only_step].
    apply only_while. intros k. unfold loop_body.
    only_step; [apply only_run_once_fitting |].
    only_step; [repeat only_step |].
    unfold time_sleep. repeat only_step.
Qed.

Lemma posts_fitting (table : string) (evs : list event) :
  forallb (Schema.fitting table) evs = true ->
  Forall (fun req => Schema.fits table req = true) (Observe.posts evs).
Proof.
  unfold Observe.posts.
  induction evs as [| ev evs IH]; cbn [forallb flat_map]; [constructor |].
  intros H. apply andb_prop in H as [Hev Hevs].
  destruct ev; cbn [app]; auto.
Qed.

(** X23.  Every row that the monitor uploads fits the table that
    [init_database.py] creates.  Each request posted during a run of [main],
    in either mode, names columns of [busyness_data] only, with one parameter
    for each; it binds a value other than [None] to the two [NOT NULL]
    columns; and its score lies within the bounds 1 and 10 of the [CHECK]
    clause. *)
Theorem uploads_fit_schema (a : Args) (e : Env) (fuel : nat) :
  Schema.check_bounds InitDatabase.sql_create_table "score" = Some (1, 10) /\
  Forall (fun req => Schema.fits InitDatabase.sql_create_table req = true)
    (Observe.posts (trace (snd (main a e fuel new_monitor)))).
Proof.
  split; [reflexivity |].
  destruct (only_main_fitting a e fuel new_monitor) as (evs & T & F).
  rewrite T. cbn [new_monitor trace app]. apply posts_fitting, F.
Qed.

End SchemaFacts.
